(** * Racing-telemetry engines: DPTAD anomaly detector and SIWTL ideal-lap
      calculator (backend/ml)

    A shallow embedding of [backend/ml/siwtl_calculator.py] and
    [backend/ml/dptad_detector.py], and of the helper [clean_nans] through
    which the endpoints of [backend/api/ml_analysis.py] pass their
    responses.

    Numbers.  Python and numpy floats are embedded as exact rationals [Q];
    a missing value (NaN / null in a pandas column) is [None] in an
    [option Q] cell.  Statements about numeric fields use [==] on [Q].

    Library code.  The standard deviations of pandas and numpy need a
    square root, and the Butterworth design and zero-phase filtering of
    scipy are numeric library routines; they are Section variables of the
    engine they serve.  Everything else is written out.

    Rounding.  Where a statement is sensitive to the rounding of binary64
    arithmetic, the path of the code it concerns is transcribed a second
    time on the primitive floats of the kernel ([Binary64]) and evaluated.

    Division.  [x / 0] is [0] in [Q], whereas numpy yields an infinity or
    NaN.  Where the source can divide by zero ([severity_ratio]) the case
    is written out; elsewhere the statements establish that the divisor
    is not zero.

    Dictionaries.  The dictionaries the engines return are association
    lists from key to [pyval], in insertion order, so that a key can be
    present with value [PNone] or absent altogether. *)

From Stdlib Require Import String DecimalString.
From Stdlib Require PrimFloat.
From Stdlib Require Import QArith Qminmax Qabs ZArith Lia Lqa Bool Arith.
From Stdlib Require Import List Permutation Sorted.
Import ListNotations.

#[local] Set Warnings "-register-all".

Open Scope Q_scope.

(* ================================================================== *)
(** * Python values and dictionaries *)
(* ================================================================== *)

Inductive pyval : Type :=
| PNone
| PFloat (q : Q)
| PInt (n : nat)
| PStr (s : string)
| PList (l : list pyval)
| PDict (d : list (string * pyval)).

Definition dict := list (string * pyval).

Fixpoint dict_get {A : Type} (k : string) (d : list (string * A)) : option A :=
  match d with
  | [] => None
  | (k', v) :: d' => if String.eqb k k' then Some v else dict_get k d'
  end.

Definition dict_mem {A : Type} (k : string) (d : list (string * A)) : bool :=
  match dict_get k d with Some _ => true | None => false end.

(** [d[k] = v]: overwrite in place, or append a new key. *)
Fixpoint dict_set {A : Type} (k : string) (v : A) (d : list (string * A))
  : list (string * A) :=
  match d with
  | [] => [(k, v)]
  | (k', v') :: d' =>
      if String.eqb k k' then (k, v) :: d' else (k', v') :: dict_set k v d'
  end.

(** [d.update(u)] *)
Definition dict_update {A : Type} (d u : list (string * A)) : list (string * A) :=
  fold_left (fun acc kv => dict_set (fst kv) (snd kv) acc) u d.

Definition dict_values {A : Type} (d : list (string * A)) : list A := map snd d.

(** Exceptions: a [ValueError], or any other [Exception]. *)
Inductive exn : Type :=
| ValueError (msg : string)
| Exception (msg : string).

(** A call either raises or returns. *)
Inductive outcome (A : Type) : Type :=
| Raises (e : exn)
| Returns (a : A).
Arguments Raises {A} e.
Arguments Returns {A} a.

(* ================================================================== *)
(** * Numeric helpers *)
(* ================================================================== *)

Definition Qlt_bool (x y : Q) : bool := negb (Qle_bool y x).

Definition Qsum (l : list Q) : Q := fold_left Qplus l 0.

(** [Series.mean()], [np.mean]: sum over count. *)
Definition mean (l : list Q) : Q := Qsum l / inject_Z (Z.of_nat (length l)).

(** [min()] / [max()] of a non-empty sequence; the head is the first
    candidate, as Python keeps the first extremum. *)
Definition Qlist_min (l : list Q) : Q :=
  match l with
  | [] => 0
  | x :: l' => fold_left Qmin l' x
  end.

Definition Qlist_max (l : list Q) : Q :=
  match l with
  | [] => 0
  | x :: l' => fold_left Qmax l' x
  end.

(** [np.diff] *)
Fixpoint diff (l : list Q) : list Q :=
  match l with
  | x :: ((y :: _) as l') => (y - x) :: diff l'
  | _ => []
  end.

(** [enumerate(l, start)] *)
Fixpoint enumerate {A : Type} (start : nat) (l : list A) : list (nat * A) :=
  match l with
  | [] => []
  | x :: l' => (start, x) :: enumerate (S start) l'
  end.

(** Boolean-mask selection, [values[mask]]. *)
Fixpoint mask_filter {A : Type} (m : list bool) (l : list A) : list A :=
  match m, l with
  | b :: m', x :: l' => if b then x :: mask_filter m' l' else mask_filter m' l'
  | _, _ => []
  end.

(** [f"{n}"] for a non-negative integer. *)
Definition str_of_nat (n : nat) : string := NilEmpty.string_of_uint (Nat.to_uint n).

(** [l[lo:hi]] *)
Definition slice {A : Type} (lo hi : nat) (l : list A) : list A :=
  firstn (hi - lo) (skipn lo l).

(** [range(lo, hi)] *)
Definition range (lo hi : nat) : list nat := seq lo (hi - lo).

(** [str.lower()] on ASCII text. *)
Definition lower_ascii (c : Ascii.ascii) : Ascii.ascii :=
  let n := Ascii.nat_of_ascii c in
  if (65 <=? n)%nat && (n <=? 90)%nat then Ascii.ascii_of_nat (n + 32) else c.

Fixpoint lower (s : string) : string :=
  match s with
  | EmptyString => EmptyString
  | String c s' => String (lower_ascii c) (lower s')
  end.

(** Stable insertion sort, greatest first, for [ge a b] meaning that [a]
    may stand before [b]. *)
Fixpoint insert_desc {A : Type} (ge : A -> A -> bool) (x : A) (l : list A) : list A :=
  match l with
  | [] => [x]
  | y :: l' => if ge x y then x :: l else y :: insert_desc ge x l'
  end.

Definition sort_desc {A : Type} (ge : A -> A -> bool) (l : list A) : list A :=
  fold_right (insert_desc ge) [] l.

(** [Series.unique()] on strings: first occurrences, in order. *)
Fixpoint unique_str (l : list string) : list string :=
  match l with
  | [] => []
  | x :: l' => x :: filter (fun y => negb (String.eqb x y)) (unique_str l')
  end.

Definition count_str (x : string) (l : list string) : nat :=
  length (filter (String.eqb x) l).

(** [Series.value_counts()]: the distinct values with their counts, most
    frequent first; equal counts stay in order of first appearance. *)
Definition value_counts (l : list string) : list (string * nat) :=
  sort_desc (fun a b => (snd b <=? snd a)%nat)
    (map (fun x => (x, count_str x l)) (unique_str l)).

(* ================================================================== *)
(** * Tables *)
(* ================================================================== *)

(** A pandas DataFrame: row labels and named columns of cells; every column
    is as long as the index.  A cell is [None] for NaN. *)
Record DataFrame : Type := mkDF {
  df_index : list nat;
  df_columns : list (string * list (option Q))
}.

(** A pandas Series: labelled cells. *)
Definition Series := list (nat * option Q).

Definition df_len (df : DataFrame) : nat := length (df_index df).

Definition col_in (df : DataFrame) (c : string) : bool :=
  dict_mem c (df_columns df).

Definition col_cells (df : DataFrame) (c : string) : list (option Q) :=
  match dict_get c (df_columns df) with Some v => v | None => [] end.

(** [df[c]] *)
Definition get_col (df : DataFrame) (c : string) : Series :=
  combine (df_index df) (col_cells df c).

(** [df[mask]]: the selected rows keep their labels. *)
Definition df_select (df : DataFrame) (m : list bool) : DataFrame :=
  {| df_index := mask_filter m (df_index df);
     df_columns := map (fun cv => (fst cv, mask_filter m (snd cv))) (df_columns df) |}.

(** Comparisons of a column against a constant; a NaN cell compares false. *)
Definition cell_test (p : Q -> bool) (c : option Q) : bool :=
  match c with Some x => p x | None => false end.

(** [s.dropna()] and the values of a Series without missing cells. *)
Definition dropna (s : Series) : list Q :=
  flat_map (fun lc => match snd lc with Some x => [x] | None => [] end) s.

Definition series_select (p : Q -> bool) (s : Series) : Series :=
  filter (fun lc => cell_test p (snd lc)) s.

Definition labels (s : Series) : list nat := map fst s.

(** [a.intersection(b)] on row labels. *)
Definition index_intersection (a b : list nat) : list nat :=
  filter (fun i => existsb (Nat.eqb i) b) a.

(** [s.loc[idx]] *)
Definition series_loc (s : Series) (idx : list nat) : Series :=
  flat_map (fun i => filter (fun lc => Nat.eqb (fst lc) i) s) idx.

(** [s.unique()]: first occurrences, NaN kept once. *)
Definition cell_eqb (a b : option Q) : bool :=
  match a, b with
  | Some x, Some y => Qeq_bool x y
  | None, None => true
  | _, _ => false
  end.

Fixpoint unique_cells (l : list (option Q)) : list (option Q) :=
  match l with
  | [] => []
  | c :: l' => c :: filter (fun c' => negb (cell_eqb c c')) (unique_cells l')
  end.

(** A telemetry table: named signals of finite samples, all of one length. *)
Definition Telemetry := list (string * list Q).

Definition telemetry_len (t : Telemetry) : nat :=
  match t with
  | [] => 0%nat
  | (_, v) :: _ => length v
  end.

(* ================================================================== *)
(** * SIWTL: the ideal-lap engine (siwtl_calculator.py) *)
(* ================================================================== *)

Module SIWTL.

(** The five factor weights fixed by [SIWTLCalculator.__init__]. *)
Record SIWTLCalculator : Type := mkCalculator {
  consistency_weight : Q;
  smoothness_weight : Q;
  conditions_weight : Q;
  temperature_weight : Q;
  traffic_weight : Q
}.

(** [SIWTLCalculator()] with the default arguments. *)
Definition default_calculator : SIWTLCalculator :=
  {| consistency_weight := 0.3;
     smoothness_weight := 0.25;
     conditions_weight := 0.2;
     temperature_weight := 0.15;
     traffic_weight := 0.1 |}.

(** The constructor only logs when the weights do not sum to 1 within 0.01;
    it returns the calculator together with the warnings it logged. *)
Inductive log_record : Type :=
| Warning_weights_sum (total_weight : Q).

Definition __init__ (cw sw dw tw fw : Q) : SIWTLCalculator * list log_record :=
  let self := mkCalculator cw sw dw tw fw in
  let total_weight := Qsum [cw; sw; dw; tw; fw] in
  if Qlt_bool 0.01 (Qabs (total_weight - 1))
  then (self, [Warning_weights_sum total_weight])
  else (self, []).

(** The dictionary of one sector's scores; its six keys are always present. *)
Record SectorWeight : Type := mkSectorWeight {
  consistency_score : Q;
  smoothness_score : Q;
  conditions_score : Q;
  temperature_score : Q;
  traffic_score : Q;
  combined_weight : Q
}.

(** The dictionary returned by [_calculate_theoretical_best]. *)
Record TheoreticalBest : Type := mkTheoreticalBest {
  tb_theoretical_best_lap : Q;
  tb_sector_bests : list (string * Q);
  tb_method : string
}.

(** An entry of [sector_analysis]. *)
Record SectorAnalysis : Type := mkSectorAnalysis {
  best_time : Q;
  achievability_weight : Q;
  realistic_time : Q
}.

Definition sector_cols : list string :=
  ["sector_1_time"; "sector_2_time"; "sector_3_time"]%string.

(** [f's{i}'] *)
Definition sector_key (i : nat) : string := ("s" ++ str_of_nat i)%string.

(** [(x > 20) & (x < 80)] *)
Definition valid_sector_time (x : Q) : bool := Qlt_bool 20 x && Qlt_bool x 80.

(** [(x >= 120000) & (x <= 200000)] *)
Definition valid_lap_time (x : Q) : bool := Qle_bool 120000 x && Qle_bool x 200000.

Definition weight_to_py (w : SectorWeight) : pyval :=
  PDict [("consistency_score", PFloat (consistency_score w));
         ("smoothness_score", PFloat (smoothness_score w));
         ("conditions_score", PFloat (conditions_score w));
         ("temperature_score", PFloat (temperature_score w));
         ("traffic_score", PFloat (traffic_score w));
         ("combined_weight", PFloat (combined_weight w))]%string.

Definition analysis_to_py (a : SectorAnalysis) : pyval :=
  PDict [("best_time", PFloat (best_time a));
         ("achievability_weight", PFloat (achievability_weight a));
         ("realistic_time", PFloat (realistic_time a))]%string.

Definition pydict_of {A : Type} (f : A -> pyval) (d : list (string * A)) : pyval :=
  PDict (map (fun kv => (fst kv, f (snd kv))) d).

Section Engine.

(** [Series.std()] of pandas (sample standard deviation) and [np.std]
    (population standard deviation). *)
Variable pd_std : list Q -> Q.
Variable np_std : list Q -> Q.

Variable self : SIWTLCalculator.

Definition _default_sector_weight : SectorWeight :=
  {| consistency_score := 0.6;
     smoothness_score := 0.6;
     conditions_score := 0.7;
     temperature_score := 0.8;
     traffic_score := 0.8;
     combined_weight := 0.68 |}.

Definition _create_insufficient_data_result : dict :=
  [("siwtl_lap", PNone);
   ("theoretical_best_lap", PNone);
   ("potential_gain_sec", PNone);
   ("achievability_score", PNone);
   ("error", PStr "Insufficient valid lap data for SIWTL calculation");
   ("algorithm", PStr "SIWTL v2.0 - Smart Weighted Ideal Lap");
   ("confidence_level", PStr "None")]%string.

Definition _calculate_confidence_level {A : Type} (num_laps : nat)
    (sector_weights : list (string * A)) : string :=
  if (30 <=? num_laps)%nat && (2 <=? length sector_weights)%nat then "High"
  else if (15 <=? num_laps)%nat then "Medium"
  else "Low".

Definition _calculate_consistency_score (sector_times : list Q) : Q :=
  if (length sector_times <? 2)%nat then 0.5
  else
    let cv := pd_std sector_times / mean sector_times in
    Qmax 0 (Qmin 1 ((0.1 - cv) / 0.09)).

Definition smoothness_signals : list string :=
  ["throttle"; "brake"; "steering_angle"]%string.

Definition _calculate_smoothness_score (telemetry_data : Telemetry)
    (sector_num : nat) : Q :=
  if (telemetry_len telemetry_data =? 0)%nat then 0.7
  else
    let available_signals :=
      filter (fun s => dict_mem s telemetry_data) smoothness_signals in
    match available_signals with
    | [] => 0.7
    | _ =>
        let smoothness_scores :=
          flat_map (fun signal =>
            match dict_get signal telemetry_data with
            | Some signal_data =>
                if (1 <? length signal_data)%nat
                then [1 / (1 + np_std (diff signal_data))]
                else []
            | None => []
            end) available_signals in
        match smoothness_scores with
        | [] => 0.7
        | _ => mean smoothness_scores
        end
    end.

(** Row labels of [valid_laps[valid_laps[c] == v]]. *)
Definition rows_where_eq (df : DataFrame) (c : string) (v : option Q) : list nat :=
  match v with
  | Some x => labels (series_select (Qeq_bool x) (get_col df c))
  | None => []
  end.

Definition _calculate_conditions_score (valid_laps : DataFrame)
    (sector_times : Series) : Q :=
  let default := 0.75 in
  if col_in valid_laps "stint_number" then
    let stint_sector_means :=
      flat_map (fun stint =>
        let stint_laps := rows_where_eq valid_laps "stint_number" stint in
        if (2 <? length stint_laps)%nat then
          let stint_idx := index_intersection stint_laps (labels sector_times) in
          if (0 <? length stint_idx)%nat
          then [(stint, mean (dropna (series_loc sector_times stint_idx)))]
          else []
        else [])
        (unique_cells (col_cells valid_laps "stint_number")) in
    if (1 <? length stint_sector_means)%nat then
      let stint_variation := np_std (map snd stint_sector_means) in
      Qmax 0.3 (Qmin 1 ((2 - stint_variation) / 2))
    else default
  else default.

Definition temp_cols : list string :=
  ["air_temp"; "track_temp"; "temp_delta_from_start"]%string.

Definition _calculate_temperature_score (valid_laps : DataFrame) : Q :=
  let available_temp := filter (col_in valid_laps) temp_cols in
  match available_temp with
  | [] => 0.8
  | _ =>
      let temp_scores :=
        flat_map (fun col =>
          let temp_data := dropna (get_col valid_laps col) in
          if (1 <? length temp_data)%nat then
            let temp_range := Qlist_max temp_data - Qlist_min temp_data in
            if String.eqb col "air_temp"
            then [Qmax 0.2 (Qmin 1 ((5 - temp_range) / 5))]
            else if String.eqb col "track_temp"
            then [Qmax 0.2 (Qmin 1 ((10 - temp_range) / 10))]
            else [Qmax 0.2 (Qmin 1 ((3 - Qabs temp_range) / 3))]
          else []) available_temp in
      match temp_scores with
      | [] => 0.8
      | _ => mean temp_scores
      end
  end.

Definition traffic_indicators : list string :=
  ["traffic_indicator"; "yellow_flag_indicator"; "is_clear_lap"]%string.

Definition _calculate_traffic_score (valid_laps : DataFrame) : Q :=
  let available_indicators := filter (col_in valid_laps) traffic_indicators in
  match available_indicators with
  | [] => 0.85
  | _ =>
      let '(clear_laps, total_scored_laps) :=
        fold_left (fun (acc : Q * nat) col =>
          let '(clear_laps, total_scored_laps) := acc in
          let indicator_data := dropna (get_col valid_laps col) in
          if (0 <? length indicator_data)%nat then
            let clear_laps' :=
              if String.eqb col "is_clear_lap"
              then clear_laps + Qsum indicator_data
              else clear_laps
                   + (inject_Z (Z.of_nat (length indicator_data)) - Qsum indicator_data) in
            (clear_laps', Nat.max total_scored_laps (length indicator_data))
          else acc) available_indicators (0, 0%nat) in
      if (0 <? total_scored_laps)%nat then
        let clear_percentage := clear_laps / inject_Z (Z.of_nat total_scored_laps) in
        Qmax 0.3 (Qmin 1 clear_percentage)
      else 0.85
  end.

Definition _calculate_single_sector_weight (sector_times : Series)
    (sector_num : nat) (valid_laps : DataFrame)
    (telemetry_data : option Telemetry) : SectorWeight :=
  let valid_sector_times := series_select valid_sector_time sector_times in
  if (length valid_sector_times <? 3)%nat then _default_sector_weight
  else
    let consistency_score := _calculate_consistency_score (dropna valid_sector_times) in
    let smoothness_score :=
      match telemetry_data with
      | Some t => _calculate_smoothness_score t sector_num
      | None => 0.7
      end in
    let conditions_score := _calculate_conditions_score valid_laps valid_sector_times in
    let temperature_score := _calculate_temperature_score valid_laps in
    let traffic_score := _calculate_traffic_score valid_laps in
    let combined_weight :=
      consistency_score * consistency_weight self
      + smoothness_score * smoothness_weight self
      + conditions_score * conditions_weight self
      + temperature_score * temperature_weight self
      + traffic_score * traffic_weight self in
    {| consistency_score := consistency_score;
       smoothness_score := smoothness_score;
       conditions_score := conditions_score;
       temperature_score := temperature_score;
       traffic_score := traffic_score;
       combined_weight := combined_weight |}.

Definition _calculate_theoretical_best (valid_laps : DataFrame)
    (sector_data : option DataFrame) : TheoreticalBest :=
  let fallback :=
    let best_lap_ms := Qlist_min (dropna (get_col valid_laps "lap_time_ms")) in
    {| tb_theoretical_best_lap := best_lap_ms / 1000;
       tb_sector_bests := [];
       tb_method := "lap_based" |} in
  match sector_data with
  | Some sector_data =>
      if (0 <? df_len sector_data)%nat then
        let available_sectors := filter (col_in sector_data) sector_cols in
        if (2 <=? length available_sectors)%nat then
          let sector_bests :=
            fold_left (fun sector_bests ic =>
              let valid_times :=
                dropna (series_select valid_sector_time (get_col sector_data (snd ic))) in
              if (0 <? length valid_times)%nat
              then dict_set (sector_key (fst ic)) (Qlist_min valid_times) sector_bests
              else sector_bests)
              (enumerate 1 available_sectors) [] in
          if (2 <=? length sector_bests)%nat then
            let theoretical_best_ms := Qsum (dict_values sector_bests) * 1000 in
            {| tb_theoretical_best_lap := theoretical_best_ms / 1000;
               tb_sector_bests := sector_bests;
               tb_method := "sector_based" |}
          else fallback
        else fallback
      else fallback
  | None => fallback
  end.

Definition uniform_sector_weight : SectorWeight :=
  let uniform_weight := 1 / 3 in
  {| consistency_score := uniform_weight;
     smoothness_score := uniform_weight;
     conditions_score := uniform_weight;
     temperature_score := uniform_weight;
     traffic_score := uniform_weight;
     combined_weight := uniform_weight |}.

Definition _calculate_sector_weights (valid_laps : DataFrame)
    (sector_data : option DataFrame) (telemetry_data : option Telemetry)
  : list (string * SectorWeight) :=
  let sector_weights :=
    match sector_data with
    | Some sector_data =>
        if (0 <? df_len sector_data)%nat then
          fold_left (fun sector_weights ic =>
            if col_in sector_data (snd ic)
            then dict_set (sector_key (fst ic))
                   (_calculate_single_sector_weight
                      (get_col sector_data (snd ic)) (fst ic) valid_laps telemetry_data)
                   sector_weights
            else sector_weights)
            (enumerate 1 sector_cols) []
        else []
    | None => []
    end in
  match sector_weights with
  | [] =>
      fold_left (fun sector_weights i =>
        dict_set (sector_key i) uniform_sector_weight sector_weights)
        (seq 1 3) []
  | _ => sector_weights
  end.

(** One turn of the sector-based loop of [_compute_siwtl], on the entries
    of [sector_analysis] and the running [total_weighted_time]. *)
Definition sector_step (sector_weights : list (string * SectorWeight))
    (acc : list (string * SectorAnalysis) * Q) (kv : string * Q)
  : list (string * SectorAnalysis) * Q :=
  let '(siwtl_sectors, total_weighted_time) := acc in
  let '(sector_id, best_time) := kv in
  match dict_get sector_id sector_weights with
  | Some w =>
      let weight := combined_weight w in
      let realistic_time := best_time / Qmax weight 0.1 in
      (dict_set sector_id
         {| best_time := best_time;
            achievability_weight := weight;
            realistic_time := realistic_time |} siwtl_sectors,
       total_weighted_time + realistic_time)
  | None => acc
  end.

Definition siwtl_sector_loop (sector_bests : list (string * Q))
    (sector_weights : list (string * SectorWeight))
  : list (string * SectorAnalysis) * Q :=
  fold_left (sector_step sector_weights) sector_bests ([], 0).

Definition _compute_siwtl (theoretical_best : TheoreticalBest)
    (sector_weights : list (string * SectorWeight)) (valid_laps : DataFrame) : dict :=
  let theoretical_lap := tb_theoretical_best_lap theoretical_best in
  let '(siwtl_sectors, siwtl_lap) :=
    match tb_sector_bests theoretical_best with
    | _ :: _ =>
        siwtl_sector_loop (tb_sector_bests theoretical_best) sector_weights
    | [] =>
        let avg_weight :=
          match sector_weights with
          | _ :: _ => mean (map (fun kv => combined_weight (snd kv)) sector_weights)
          | [] => 0.75
          end in
        ([], theoretical_lap / Qmax avg_weight 0.1)
    end in
  let current_avg_lap := mean (dropna (get_col valid_laps "lap_time_ms")) / 1000 in
  let potential_gain := current_avg_lap - siwtl_lap in
  let achievability_score := Qmin 1 (theoretical_lap / siwtl_lap) in
  [("siwtl_lap", PFloat siwtl_lap);
   ("theoretical_best_lap", PFloat theoretical_lap);
   ("current_avg_lap", PFloat current_avg_lap);
   ("potential_gain_sec", PFloat potential_gain);
   ("achievability_score", PFloat achievability_score);
   ("sector_analysis", pydict_of analysis_to_py siwtl_sectors);
   ("sector_weights", pydict_of weight_to_py sector_weights);
   ("confidence_level",
    PStr (_calculate_confidence_level (df_len valid_laps) sector_weights))]%string.

Definition required_columns : list string := ["lap_number"; "lap_time_ms"]%string.

(** [calculate_siwtl]; [now] is the reading of the wall clock that
    [pd.Timestamp.now().isoformat()] returns during the call. *)
Definition calculate_siwtl (now : string) (driver_data : DataFrame)
    (sector_data : option DataFrame) (telemetry_data : option Telemetry)
  : outcome dict :=
  if negb (forallb (col_in driver_data) required_columns) then
    Raises (ValueError "Driver data must contain: ['lap_number', 'lap_time_ms']")
  else
    let valid_laps :=
      df_select driver_data
        (map (cell_test valid_lap_time) (col_cells driver_data "lap_time_ms")) in
    if (df_len valid_laps <? 5)%nat then
      Returns _create_insufficient_data_result
    else
      let theoretical_best := _calculate_theoretical_best valid_laps sector_data in
      let sector_weights :=
        _calculate_sector_weights valid_laps sector_data telemetry_data in
      let siwtl_result := _compute_siwtl theoretical_best sector_weights valid_laps in
      Returns
        (dict_update siwtl_result
           [("algorithm", PStr "SIWTL v2.0 - Smart Weighted Ideal Lap");
            ("total_laps_analyzed", PInt (df_len valid_laps));
            ("calculation_timestamp", PStr now);
            ("achievability_factors",
             PDict [("consistency_weight", PFloat (consistency_weight self));
                    ("smoothness_weight", PFloat (smoothness_weight self));
                    ("conditions_weight", PFloat (conditions_weight self));
                    ("temperature_weight", PFloat (temperature_weight self));
                    ("traffic_weight", PFloat (traffic_weight self))])]%string).

End Engine.

(** The module-level [calculate_driver_siwtl], on the shared calculator. *)
Definition calculate_driver_siwtl (pd_std np_std : list Q -> Q)
    (calculator : SIWTLCalculator) (now : string) (vehicle_id : string)
    (lap_data : DataFrame) (sector_data : option DataFrame)
    (telemetry_data : option Telemetry) : outcome dict :=
  match calculate_siwtl pd_std np_std calculator now lap_data sector_data telemetry_data with
  | Raises e => Raises e
  | Returns siwtl_result =>
      Returns (dict_set "vehicle_id" (PStr vehicle_id) siwtl_result)
  end.

End SIWTL.

(* ================================================================== *)
(** * The lap-based path of SIWTL on binary64 floats *)
(* ================================================================== *)

(** The arithmetic of [calculate_siwtl] on a run that takes the lap-based
    path, on the binary64 floats that Python and numpy compute with: the
    best valid lap in seconds, the mean of the combined weights, the
    division by the floored weight and the clipped achievability. *)

Module Binary64.

Import PrimFloat.

#[local] Set Warnings "-inexact-float".

Local Open Scope float_scope.

(** [max(a, b)] and [min(a, b)] of Python keep the first argument unless
    the second is strictly greater, respectively smaller. *)
Definition py_max (a b : float) : float := if a <? b then b else a.
Definition py_min (a b : float) : float := if b <? a then b else a.

(** [np.mean]: the sum in order, divided by the count. *)
Definition np_mean (l : list float) : float :=
  fold_left add l 0 / fold_left (fun n _ => n + 1) l 0.

(** [uniform_weight = 1.0 / 3.0] *)
Definition uniform_weight : float := 1 / 3.

(** [siwtl_lap], [theoretical_best_lap] and [achievability_score] of the
    lap-based computation, from the best valid lap in milliseconds and the
    combined weights of the sectors. *)
Definition lap_based (best_lap_ms : float) (combined_weights : list float)
  : float * float * float :=
  let theoretical_lap := best_lap_ms / 1000 in
  let avg_weight :=
    match combined_weights with
    | _ :: _ => np_mean combined_weights
    | [] => 0.75
    end in
  let siwtl_lap := theoretical_lap / py_max avg_weight 0.1 in
  let achievability_score := py_min 1 (theoretical_lap / siwtl_lap) in
  (siwtl_lap, theoretical_lap, achievability_score).

End Binary64.

(* ================================================================== *)
(** * DPTAD: the anomaly engine (dptad_detector.py) *)
(* ================================================================== *)

Module DPTAD.

(** The thresholds fixed by [DPTADDetector.__init__]. *)
Record DPTADDetector : Type := mkDetector {
  slow_cutoff : Q;
  fast_low : Q;
  fast_high : Q;
  spike_threshold : Q;
  drift_threshold : Q
}.

(** [DPTADDetector()] with the default arguments. *)
Definition default_detector : DPTADDetector :=
  {| slow_cutoff := 0.1;
     fast_low := 0.5;
     fast_high := 5.0;
     spike_threshold := 3.0;
     drift_threshold := 0.15 |}.

(** The dictionaries of the two paths and of the reconciler; their keys are
    always present. *)
Record SlowCandidate : Type := mkSlow {
  s_timestamp : Q;
  s_type : string;
  s_severity : Q;
  s_signal : string;
  s_drift_magnitude : Q;
  s_path : string
}.

Record FastCandidate : Type := mkFast {
  f_timestamp : Q;
  f_type : string;
  f_severity : Q;
  f_signal : string;
  f_spike_magnitude : Q;
  f_spike_subtype : string;
  f_path : string
}.

Record Anomaly : Type := mkAnomaly {
  timestamp : Q;
  type : string;
  severity : Q;
  signal : string;
  description : string;
  fast_component : option FastCandidate;
  slow_component : option SlowCandidate;
  recommended_action : string
}.

(** The dictionary returned by [analyze_driver_anomalies]. *)
Record Analysis : Type := mkAnalysis {
  vehicle_id : string;
  anomalies : list Anomaly;
  summary : dict;
  algorithm : string;
  analysis_timestamp : string
}.

Inductive btype : Type := low_pass | high_pass | band_pass.

(** [min(x / threshold, 10.0)] on numpy floats, for [x > 0]: a zero
    threshold gives an infinite quotient, which the minimum cuts to 10. *)
Definition severity_ratio (x threshold : Q) : Q :=
  if Qeq_bool threshold 0 then 10 else Qmin (x / threshold) 10.

(** [pd.Series(x).rolling(w, center=True).mean()]: the window of row [i]
    ends after row [i + (w - 1) // 2]; a window that leaves the series has
    fewer than [w] observations and yields NaN. *)
Definition rolling_center_mean (w : nat) (x : list Q) : list (option Q) :=
  let offset := ((w - 1) / 2)%nat in
  map (fun i =>
         let stop := (i + 1 + offset)%nat in
         if (w <=? stop)%nat && (stop <=? length x)%nat
         then Some (mean (slice (stop - w) stop x))
         else None)
      (seq 0 (length x)).

(** [Series.mean()] skips NaN and is NaN when nothing is left. *)
Definition nanmean (l : list (option Q)) : option Q :=
  let vals := flat_map (fun c => match c with Some x => [x] | None => [] end) l in
  match vals with
  | [] => None
  | _ => Some (mean vals)
  end.

(** One turn of the loop of [_group_spikes], on the closed groups, the
    current group and the previous index. *)
Definition group_step (min_separation : nat)
    (acc : list (list nat) * list nat * nat) (idx : nat)
  : list (list nat) * list nat * nat :=
  let '(groups, current_group, prev) := acc in
  if (idx - prev <=? min_separation)%nat
  then (groups, current_group ++ [idx], idx)
  else (groups ++ [current_group], [idx], idx).

Definition _group_spikes (spike_indices : list nat) (min_separation : nat)
  : list (list nat) :=
  match spike_indices with
  | [] => []
  | first :: rest =>
      let '(groups, current_group, _) :=
        fold_left (group_step min_separation) rest ([], [first], first) in
      groups ++ [current_group]
  end.

(** [group[np.argmax(np.abs(filtered_signal[group]))]]: the first index of
    the group with the greatest magnitude. *)
Definition peak_index (filtered_signal : list Q) (group : list nat) : nat :=
  match group with
  | [] => 0%nat
  | i :: rest =>
      fold_left (fun best j =>
        if Qlt_bool (Qabs (nth best filtered_signal 0)) (Qabs (nth j filtered_signal 0))
        then j else best) rest i
  end.

Definition spike_types : list (string * list (string * string)) :=
  [("brake", [("high", "brake_spike"); ("negative", "brake_release_error")]);
   ("throttle", [("high", "throttle_stab"); ("negative", "lift_hesitation")]);
   ("speed", [("negative", "lock_up"); ("high", "traction_loss")]);
   ("steering_angle", [("high", "overcorrection");
                       ("oscillating", "steering_instability")])]%string.

Definition _classify_spike (signal_name : string) (magnitude raw_value : Q) : string :=
  let signal_category := lower signal_name in
  match dict_get signal_category spike_types with
  | Some kinds =>
      if Qlt_bool raw_value 0 && dict_mem "negative" kinds
      then match dict_get "negative" kinds with
           | Some s => s
           | None => EmptyString
           end
      else match dict_get "high" kinds with
           | Some s => s
           | None => (signal_category ++ "_anomaly")%string
           end
  | None => (signal_category ++ "_anomaly")%string
  end.

Definition recommendations : list (string * list (string * string)) :=
  [("driver_mistake",
    [("brake", "Focus on smoother brake application. Avoid sudden brake spikes.");
     ("throttle", "Work on progressive throttle control. Eliminate stabs and hesitation.");
     ("speed", "Address lock-up tendency. Brake earlier and more progressively.");
     ("steering_angle", "Reduce steering corrections. Focus on smooth, deliberate inputs.")]);
   ("degradation",
    [("brake", "Monitor brake temperature and pad wear. Consider pit strategy.");
     ("throttle", "Check engine performance and throttle response calibration.");
     ("speed", "Assess tire degradation and grip levels. Adjust driving style.");
     ("steering_angle", "Evaluate suspension setup and tire pressure.")]);
   ("compound",
    [("default", "Multiple issues detected. Address both technique and equipment.")])]%string.

Definition _get_recommendation (anomaly_type signal_name : string) : string :=
  let fallback :=
    ("Monitor " ++ signal_name ++ " performance and adjust technique accordingly.")%string in
  match dict_get anomaly_type recommendations with
  | Some table =>
      match dict_get signal_name table with
      | Some r => r
      | None =>
          match dict_get "default" table with
          | Some r => r
          | None => fallback
          end
      end
  | None => fallback
  end.

Section Engine.

(** [scipy.signal.butter(N, Wn, btype)] returns the coefficients [(b, a)]
    or raises; [scipy.signal.filtfilt(b, a, x)] returns the filtered
    samples or raises; [np.std] is the population standard deviation. *)
Variable butter : nat -> list Q -> btype -> outcome (list Q * list Q).
Variable filtfilt : list Q -> list Q -> list Q -> outcome (list Q).
Variable np_std : list Q -> Q.

Variable self : DPTADDetector.

(** The body of the [try] blocks: design the filter, give up on a signal
    no longer than the padding ([Returns None] stands for [return []]),
    otherwise filter. *)
Definition design_and_filter (Wn : list Q) (bt : btype) (signal_data : list Q)
  : outcome (option (list Q)) :=
  match butter 3 Wn bt with
  | Raises e => Raises e
  | Returns (b, a) =>
      let padlen := (3 * Nat.max (length a) (length b))%nat in
      if (length signal_data <=? padlen)%nat then Returns None
      else
        match filtfilt b a signal_data with
        | Raises e => Raises e
        | Returns filtered_signal => Returns (Some filtered_signal)
        end
  end.

(** The drift test at row [i] of the rolling mean: the candidate, if any. *)
Definition drift_point (rolling_mean : list (option Q)) (window_size : nat)
    (drift_threshold : Q) (timestamps : list Q) (signal_name : string) (i : nat)
  : list SlowCandidate :=
  match nth i rolling_mean None with
  | Some _ =>
      match nanmean (slice (i - window_size) i rolling_mean),
            nanmean (slice i (i + window_size) rolling_mean) with
      | Some recent_trend, Some current_trend =>
          if Qlt_bool drift_threshold (Qabs (current_trend - recent_trend)) then
            let severity :=
              severity_ratio (Qabs (current_trend - recent_trend)) drift_threshold in
            [{| s_timestamp := nth i timestamps 0;
                s_type := "slow_drift";
                s_severity := severity;
                s_signal := signal_name;
                s_drift_magnitude := current_trend - recent_trend;
                s_path := "slow" |}]
          else []
      | _, _ => []
      end
  | None => []
  end.

(** The rolling-statistics part of the slow path, on the filtered signal. *)
Definition detect_drift (filtered_signal timestamps : list Q) (signal_name : string)
  : list SlowCandidate :=
  let window_size := Nat.min (length filtered_signal / 10) 50 in
  if (window_size <? 5)%nat then []
  else
    let rolling_mean := rolling_center_mean window_size filtered_signal in
    let drift_threshold := np_std filtered_signal * drift_threshold self in
    flat_map (drift_point rolling_mean window_size drift_threshold timestamps signal_name)
      (range window_size (length rolling_mean - window_size)).

Definition _slow_path_analysis (signal_data timestamps : list Q)
    (signal_name : string) : list SlowCandidate :=
  if (length signal_data =? 0)%nat then []
  else
    let nyquist := 0.5 * 100 in
    let low := slow_cutoff self / nyquist in
    match design_and_filter [low] low_pass signal_data with
    | Returns (Some filtered_signal) => detect_drift filtered_signal timestamps signal_name
    | Returns None => []
    | Raises _ => []
    end.

(** [np.where(np.abs(filtered_signal) > spike_threshold)[0]] *)
Definition spike_indices_of (filtered_signal : list Q) (spike_threshold : Q) : list nat :=
  filter (fun i => Qlt_bool spike_threshold (Qabs (nth i filtered_signal 0)))
    (seq 0 (length filtered_signal)).

(** The threshold part of the fast path, on the filtered signal. *)
Definition detect_spikes (filtered_signal signal_data timestamps : list Q)
    (signal_name : string) : list FastCandidate :=
  let signal_std := np_std filtered_signal in
  let spike_threshold := signal_std * spike_threshold self in
  let spike_indices := spike_indices_of filtered_signal spike_threshold in
  let spike_groups := _group_spikes spike_indices 5 in
  map (fun group =>
    let peak_idx := peak_index filtered_signal group in
    let spike_magnitude := Qabs (nth peak_idx filtered_signal 0) in
    let severity := severity_ratio spike_magnitude spike_threshold in
    let spike_subtype :=
      _classify_spike signal_name spike_magnitude (nth peak_idx signal_data 0) in
    {| f_timestamp := nth peak_idx timestamps 0;
       f_type := "fast_spike";
       f_severity := severity;
       f_signal := signal_name;
       f_spike_magnitude := spike_magnitude;
       f_spike_subtype := spike_subtype;
       f_path := "fast" |}) spike_groups.

Definition _fast_path_analysis (signal_data timestamps : list Q)
    (signal_name : string) : list FastCandidate :=
  if (length signal_data =? 0)%nat then []
  else
    let nyquist := 0.5 * 100 in
    let low := fast_low self / nyquist in
    let high := Qmin (fast_high self / nyquist) 0.99 in
    match design_and_filter [low; high] band_pass signal_data with
    | Returns (Some filtered_signal) =>
        detect_spikes filtered_signal signal_data timestamps signal_name
    | Returns None => []
    | Raises (ValueError _) =>
        match design_and_filter [low] high_pass signal_data with
        | Returns (Some filtered_signal) =>
            detect_spikes filtered_signal signal_data timestamps signal_name
        | Returns None => []
        | Raises _ => []
        end
    | Raises (Exception _) => []
    end.

(** [{f['timestamp'] for f in fast_anomalies}]: equal timestamps once. *)
Fixpoint timestamp_set (l : list Q) : list Q :=
  match l with
  | [] => []
  | t :: l' => t :: filter (fun u => negb (Qeq_bool t u)) (timestamp_set l')
  end.

Definition temporal_window : Q := 10.

Definition within_window (t u : Q) : bool := Qle_bool (Qabs (t - u)) temporal_window.

Definition reconcile_fast (slow_anomalies : list SlowCandidate) (signal_name : string)
    (fast : FastCandidate) : Anomaly :=
  let fast_time := f_timestamp fast in
  let nearby_slow :=
    filter (fun slow => within_window (s_timestamp slow) fast_time) slow_anomalies in
  let '(anomaly_type, description, combined_severity) :=
    match nearby_slow with
    | _ :: _ =>
        ("compound"%string,
         ("Compound issue: " ++ f_spike_subtype fast ++ " with degradation")%string,
         Qmax (f_severity fast) (Qlist_max (map s_severity nearby_slow)))
    | [] =>
        ("driver_mistake"%string,
         ("Driver mistake: " ++ f_spike_subtype fast)%string,
         f_severity fast)
    end in
  {| timestamp := fast_time;
     type := anomaly_type;
     severity := combined_severity;
     signal := signal_name;
     description := description;
     fast_component := Some fast;
     slow_component := hd_error nearby_slow;
     recommended_action := _get_recommendation anomaly_type signal_name |}.

Definition reconcile_slow (signal_name : string) (slow : SlowCandidate) : Anomaly :=
  {| timestamp := s_timestamp slow;
     type := "degradation";
     severity := s_severity slow;
     signal := signal_name;
     description := ("Performance degradation in " ++ signal_name)%string;
     fast_component := None;
     slow_component := Some slow;
     recommended_action := _get_recommendation "degradation" signal_name |}.

Definition _reconcile_paths (slow_anomalies : list SlowCandidate)
    (fast_anomalies : list FastCandidate) (signal_name : string) : list Anomaly :=
  let reconciled := map (reconcile_fast slow_anomalies signal_name) fast_anomalies in
  let fast_times := timestamp_set (map f_timestamp fast_anomalies) in
  reconciled
  ++ map (reconcile_slow signal_name)
       (filter (fun slow =>
                  negb (existsb (fun ft => within_window (s_timestamp slow) ft) fast_times))
          slow_anomalies).

Definition default_signals : list string :=
  ["speed"; "throttle"; "brake"; "steering_angle"]%string.

(** [anomaly_df.sort_values('severity', ascending=False)]; rows of equal
    severity are kept in their order. *)
Definition sort_by_severity (l : list Anomaly) : list Anomaly :=
  sort_desc (fun a b => Qle_bool (severity b) (severity a)) l.

(** The reconciled anomalies of one signal of the table. *)
Definition analyze_signal (telemetry_data : Telemetry) (signal_name : string)
  : list Anomaly :=
  match dict_get signal_name telemetry_data with
  | None => []
  | Some signal_data =>
      let timestamps :=
        match dict_get "timestamp" telemetry_data with
        | Some ts => ts
        | None => map (fun i => inject_Z (Z.of_nat i)) (range 0 (length signal_data))
        end in
      let slow_anomalies := _slow_path_analysis signal_data timestamps signal_name in
      let fast_anomalies := _fast_path_analysis signal_data timestamps signal_name in
      _reconcile_paths slow_anomalies fast_anomalies signal_name
  end.

Definition detect_anomalies (telemetry_data : option Telemetry)
    (signals : option (list string)) : list Anomaly :=
  let signals := match signals with Some l => l | None => default_signals end in
  match telemetry_data with
  | None => []
  | Some telemetry_data =>
      if (telemetry_len telemetry_data =? 0)%nat then []
      else
        let anomalies := flat_map (analyze_signal telemetry_data) signals in
        match anomalies with
        | [] => []
        | _ => sort_by_severity anomalies
        end
  end.

End Engine.

Definition _generate_summary_recommendation (anomalies_df : list Anomaly) : string :=
  match anomalies_df with
  | [] => "Maintain current performance level."
  | _ =>
      let dominant_type :=
        match value_counts (map type anomalies_df) with
        | (t, _) :: _ => t
        | [] => EmptyString
        end in
      let dominant_signal :=
        match value_counts (map signal anomalies_df) with
        | (g, _) :: _ => g
        | [] => EmptyString
        end in
      let avg_severity := mean (map severity anomalies_df) in
      if String.eqb dominant_type "driver_mistake" then
        if Qlt_bool 7 avg_severity then
          ("Critical: Focus immediately on " ++ dominant_signal
           ++ " technique. Multiple driver errors detected.")%string
        else if Qlt_bool 4 avg_severity then
          ("Important: Improve " ++ dominant_signal
           ++ " consistency. Driver technique issues identified.")%string
        else
          ("Minor technique adjustments needed in " ++ dominant_signal
           ++ " control.")%string
      else if String.eqb dominant_type "degradation" then
        if Qlt_bool 6 avg_severity then
          ("Equipment attention required: " ++ dominant_signal
           ++ " showing significant degradation.")%string
        else
          ("Monitor " ++ dominant_signal
           ++ " performance trends. Early degradation detected.")%string
      else if String.eqb dominant_type "compound" then
        ("Address both technique and equipment issues in " ++ dominant_signal ++ ".")%string
      else "Review performance data and adjust accordingly."
  end.

(** [len(anomalies_df[anomalies_df['severity'] > 5.0])] *)
Definition high_severity_rows (anomalies_df : list Anomaly) : list Anomaly :=
  filter (fun a => Qlt_bool 5 (severity a)) anomalies_df.

Definition get_anomaly_summary (anomalies_df : list Anomaly) : dict :=
  match anomalies_df with
  | [] =>
      [("total_anomalies", PInt 0);
       ("severity_avg", PInt 0);
       ("types", PDict []);
       ("signals_affected", PList []);
       ("recommendation", PStr "No anomalies detected. Performance is consistent.")]%string
  | _ =>
      [("total_anomalies", PInt (length anomalies_df));
       ("severity_avg", PFloat (mean (map severity anomalies_df)));
       ("severity_max", PFloat (Qlist_max (map severity anomalies_df)));
       ("types",
        PDict (map (fun kv => (fst kv, PInt (snd kv)))
                 (value_counts (map type anomalies_df))));
       ("signals_affected", PList (map PStr (unique_str (map signal anomalies_df))));
       ("high_severity_count", PInt (length (high_severity_rows anomalies_df)));
       ("recommendation", PStr (_generate_summary_recommendation anomalies_df))]%string
  end.

(** [analyze_driver_anomalies] on the shared detector; [now] is the reading
    of the wall clock that [pd.Timestamp.now().isoformat()] returns. *)
Definition analyze_driver_anomalies
    (butter : nat -> list Q -> btype -> outcome (list Q * list Q))
    (filtfilt : list Q -> list Q -> list Q -> outcome (list Q))
    (np_std : list Q -> Q) (detector : DPTADDetector)
    (now : string) (vehicle_id : string) (telemetry_data : option Telemetry)
  : Analysis :=
  let anomalies_df := detect_anomalies butter filtfilt np_std detector telemetry_data None in
  let summary := get_anomaly_summary anomalies_df in
  {| vehicle_id := vehicle_id;
     anomalies := anomalies_df;
     summary := summary;
     algorithm := "DPTAD v1.0 - Dual-Path Temporal Anomaly Detection";
     analysis_timestamp := now |}.

End DPTAD.

(* ================================================================== *)
(** * The module-level shared instances *)
(* ================================================================== *)

(** [get_dptad_detector] and [get_siwtl_calculator] have one shape:
<<
    global _instance
    if _instance is None:
        _instance = Engine()
    return _instance
>>
    Threads that run it are interleaved between its elementary actions:
    the test of the global, the allocation of the object, the end of its
    [__init__], the assignment to the global, and the read that is
    returned.  Objects are numbered in order of allocation; the heap
    records for each whether its [__init__] has finished. *)

Module Singleton.

Inductive pc : Type :=
| at_check
| at_construct
| at_init (obj : nat)
| at_store (obj : nat)
| at_return
| done (obj : nat).

Record state : Type := mkState {
  global : option nat;
  heap : list bool;
  threads : list pc
}.

Fixpoint set_nth {A : Type} (i : nat) (x : A) (l : list A) : list A :=
  match l, i with
  | [], _ => []
  | _ :: l', O => x :: l'
  | y :: l', S i' => y :: set_nth i' x l'
  end.

(** One elementary action of thread [i]; [None] when the thread has
    returned or does not exist. *)
Definition step_thread (i : nat) (s : state) : option state :=
  match nth_error (threads s) i with
  | Some at_check =>
      match global s with
      | None => Some (mkState (global s) (heap s) (set_nth i at_construct (threads s)))
      | Some _ => Some (mkState (global s) (heap s) (set_nth i at_return (threads s)))
      end
  | Some at_construct =>
      Some (mkState (global s) (heap s ++ [false])
              (set_nth i (at_init (length (heap s))) (threads s)))
  | Some (at_init o) =>
      Some (mkState (global s) (set_nth o true (heap s))
              (set_nth i (at_store o) (threads s)))
  | Some (at_store o) =>
      Some (mkState (Some o) (heap s) (set_nth i at_return (threads s)))
  | Some at_return =>
      match global s with
      | Some o => Some (mkState (global s) (heap s) (set_nth i (done o) (threads s)))
      | None => None
      end
  | Some (done _) => None
  | None => None
  end.

Inductive step : state -> state -> Prop :=
| step_intro (i : nat) (s s' : state) : step_thread i s = Some s' -> step s s'.

Inductive steps : state -> state -> Prop :=
| steps_refl (s : state) : steps s s
| steps_cons (s s' s'' : state) : step s s' -> steps s' s'' -> steps s s''.

(** [n] threads enter the getter before any instance exists. *)
Definition initial (n : nat) : state := mkState None [] (repeat at_check n).

(** Running a schedule: the list of the threads that act, in order; an
    entry naming a finished thread is skipped. *)
Fixpoint run (schedule : list nat) (s : state) : state :=
  match schedule with
  | [] => s
  | i :: rest =>
      match step_thread i s with
      | Some s' => run rest s'
      | None => run rest s
      end
  end.

(** One whole call by thread [i], not interleaved with any other. *)
Definition call (i : nat) : list nat := repeat i 5.

(** [n] calls, one after the other. *)
Definition sequential (n : nat) : list nat := flat_map call (seq 0 n).

(** The number of instances constructed so far. *)
Definition constructions (s : state) : nat := length (heap s).

Definition returned (s : state) : list nat :=
  flat_map (fun p => match p with done o => [o] | _ => [] end) (threads s).

Definition initialised (s : state) (o : nat) : Prop := nth o (heap s) false = true.

(** The published object has finished its [__init__]; so has every object
    about to be published or already returned; an object under
    construction is on the heap. *)
Definition publishes_initialised (s : state) : Prop :=
  (forall o, global s = Some o -> initialised s o)
  /\ (forall p, In p (threads s) ->
        match p with
        | at_init o => (o < length (heap s))%nat
        | at_store o => initialised s o
        | done o => initialised s o
        | _ => True
        end).

End Singleton.

(* ================================================================== *)
(** * Vocabulary of the statements *)
(* ================================================================== *)

(** Every column is as long as the index. *)
Definition df_wf (df : DataFrame) : Prop :=
  Forall (fun cv => length (snd cv) = length (df_index df)) (df_columns df).

(** The values of a column that pass a test. *)
Definition passing (p : Q -> bool) (cells : list (option Q)) : list Q :=
  flat_map (fun c => match c with
                     | Some x => if p x then [x] else []
                     | None => []
                     end) cells.

(** The number of valid laps of a lap table: the cells of [lap_time_ms]
    that lie in [120000, 200000]. *)
Definition valid_lap_count (driver_data : DataFrame) : nat :=
  length (passing SIWTL.valid_lap_time (col_cells driver_data "lap_time_ms")).

(** A field of a result dictionary is null. *)
Definition is_null (d : dict) (k : string) : Prop := dict_get k d = Some PNone.

(** A field of a result dictionary holds the number [x]. *)
Definition has_number (d : dict) (k : string) (x : Q) : Prop :=
  exists q, dict_get k d = Some (PFloat q) /\ q == x.

(** No sector table was supplied: [sector_data] is [None] or has no rows. *)
Definition no_sector_table (sector_data : option DataFrame) : Prop :=
  match sector_data with
  | None => True
  | Some t => df_len t = 0%nat
  end.

(** The weights of a run without sector table: the uniform set for each of
    the three sectors. *)
Definition uniform_weights : list (string * SIWTL.SectorWeight) :=
  [("s1", SIWTL.uniform_sector_weight);
   ("s2", SIWTL.uniform_sector_weight);
   ("s3", SIWTL.uniform_sector_weight)]%string.

(** A lap table of six laps, five of them valid (the last is too slow). *)
Definition sample_laps : DataFrame :=
  {| df_index := [0; 1; 2; 3; 4; 5]%nat;
     df_columns :=
       [("lap_number"%string, [Some 1; Some 2; Some 3; Some 4; Some 5; Some 6]);
        ("lap_time_ms"%string,
         [Some 131000; Some 130500; Some 132250; Some 129900; Some 130750;
          Some 250000])] |}.

(** A sector table of two laps that lacks the column [sector_1_time]. *)
Definition sample_sectors_2_3 : DataFrame :=
  {| df_index := [0; 1]%nat;
     df_columns :=
       [("lap_number"%string, [Some 1; Some 2]);
        ("sector_2_time"%string, [Some 45.5; Some 46.1]);
        ("sector_3_time"%string, [Some 50.2; Some 49.8])] |}.

(** The weighted sum of the five sub-scores of [w] under the factor
    weights of the calculator. *)
Definition weighted_sum (self : SIWTL.SIWTLCalculator) (w : SIWTL.SectorWeight) : Q :=
  Qsum (map (fun sf => fst sf * snd sf)
          [(SIWTL.consistency_score w, SIWTL.consistency_weight self);
           (SIWTL.smoothness_score w, SIWTL.smoothness_weight self);
           (SIWTL.conditions_score w, SIWTL.conditions_weight self);
           (SIWTL.temperature_score w, SIWTL.temperature_weight self);
           (SIWTL.traffic_score w, SIWTL.traffic_weight self)]).

(** The number of valid samples of a sector: the times strictly between
    20 and 80. *)
Definition valid_sample_count (sector_times : Series) : nat :=
  length (passing SIWTL.valid_sector_time (map snd sector_times)).


(** [m] is the greatest element of [l]. *)
Definition is_max_of (m : Q) (l : list Q) : Prop :=
  (exists x, In x l /\ m == x) /\ forall x, In x l -> x <= m.

(** [m] is the arithmetic mean of [l]. *)
Definition is_mean_of (m : Q) (l : list Q) : Prop :=
  m * inject_Z (Z.of_nat (length l)) == Qsum l.

(** The number of anomalies whose severity is strictly greater than 5. *)
Fixpoint count_high (l : list DPTAD.Anomaly) : nat :=
  match l with
  | [] => 0%nat
  | a :: l' =>
      ((if Qlt_le_dec 5 (DPTAD.severity a) then 1 else 0) + count_high l')%nat
  end.

(** [sigs] lists, each once, the signals that occur in [l]. *)
Definition distinct_signals (sigs : list string) (l : list DPTAD.Anomaly) : Prop :=
  NoDup sigs /\ forall s, In s sigs <-> exists a, In a l /\ DPTAD.signal a = s.

(** A severity lies in the interval from 0 to 10. *)
Definition in_0_10 (x : Q) : Prop := 0 <= x /\ x <= 10.

(** Two timestamps lie within 10 time units of each other. *)
Definition near (t u : Q) : Prop := Qabs (t - u) <= 10.

(** [l'] keeps, in order, exactly the elements of [l] that satisfy [P]. *)
Inductive selects {A : Type} (P : A -> Prop) : list A -> list A -> Prop :=
| selects_nil : selects P [] []
| selects_keep (x : A) (l l' : list A) :
    P x -> selects P l l' -> selects P (x :: l) (x :: l')
| selects_drop (x : A) (l l' : list A) :
    ~ P x -> selects P l l' -> selects P (x :: l) l'.

(** What the reconciler owes a fast-path candidate [f]: an anomaly [a]
    that is "compound", with the greatest of the severities of [f] and of
    the slow-path candidates near it, when there is one near, and
    "driver_mistake" with the severity of [f] otherwise. *)
Definition reconciles_fast (slows : list DPTAD.SlowCandidate) (name : string)
    (f : DPTAD.FastCandidate) (a : DPTAD.Anomaly) : Prop :=
  DPTAD.signal a = name
  /\ DPTAD.timestamp a = DPTAD.f_timestamp f
  /\ DPTAD.fast_component a = Some f
  /\ ((exists s, In s slows /\ near (DPTAD.s_timestamp s) (DPTAD.f_timestamp f)) ->
      DPTAD.type a = "compound"%string
      /\ DPTAD.f_severity f <= DPTAD.severity a
      /\ (forall s, In s slows -> near (DPTAD.s_timestamp s) (DPTAD.f_timestamp f) ->
            DPTAD.s_severity s <= DPTAD.severity a)
      /\ (DPTAD.severity a == DPTAD.f_severity f
          \/ exists s, In s slows /\ near (DPTAD.s_timestamp s) (DPTAD.f_timestamp f)
                       /\ DPTAD.severity a == DPTAD.s_severity s))
  /\ (~ (exists s, In s slows /\ near (DPTAD.s_timestamp s) (DPTAD.f_timestamp f)) ->
      DPTAD.type a = "driver_mistake"%string
      /\ DPTAD.severity a = DPTAD.f_severity f).

(** What the reconciler owes an isolated slow-path candidate [s]. *)
Definition reconciles_slow (name : string) (s : DPTAD.SlowCandidate)
    (a : DPTAD.Anomaly) : Prop :=
  DPTAD.signal a = name
  /\ DPTAD.timestamp a = DPTAD.s_timestamp s
  /\ DPTAD.type a = "degradation"%string
  /\ DPTAD.severity a = DPTAD.s_severity s
  /\ DPTAD.slow_component a = Some s.

(** No fast-path candidate lies within 10 time units of [s]. *)
Definition isolated (fasts : list DPTAD.FastCandidate) (s : DPTAD.SlowCandidate) : Prop :=
  forall f, In f fasts -> ~ near (DPTAD.s_timestamp s) (DPTAD.f_timestamp f).




(** A sector table of five laps with the three sector columns. *)
Definition sample_sectors : DataFrame :=
  {| df_index := [0; 1; 2; 3; 4]%nat;
     df_columns :=
       [("lap_number"%string, [Some 1; Some 2; Some 3; Some 4; Some 5]);
        ("sector_1_time"%string, [Some 35.2; Some 35.0; Some 35.9; Some 34.8; Some 35.1]);
        ("sector_2_time"%string, [Some 45.5; Some 46.1; Some 45.9; Some 45.2; Some 45.6]);
        ("sector_3_time"%string, [Some 50.2; Some 49.8; Some 50.4; Some 49.9; Some 50.0])] |}.

(** Stand-ins for the library routines, to run the engines on examples: a
    filter design of one coefficient whose filter returns the samples
    unchanged, and a deviation that is 1 on every series. *)
Definition pass_butter (N : nat) (Wn : list Q) (bt : DPTAD.btype)
  : outcome (list Q * list Q) := Returns ([1], [1]).

Definition pass_filtfilt (b a x : list Q) : outcome (list Q) := Returns x.

Definition unit_std (l : list Q) : Q := 1.

(** A signal of 50 samples: 50 on the first half, 65 on the second. *)
Definition step_signal : list Q := repeat 50 25 ++ repeat 65 25.

Definition step_telemetry : Telemetry := [("speed"%string, step_signal)].

(** Two reconciled anomalies on the brake signal. *)
Definition sample_anomalies : list DPTAD.Anomaly :=
  [ {| DPTAD.timestamp := 12; DPTAD.type := "driver_mistake";
       DPTAD.severity := 6.5; DPTAD.signal := "brake";
       DPTAD.description := "Driver mistake: brake_spike";
       DPTAD.fast_component := None; DPTAD.slow_component := None;
       DPTAD.recommended_action := DPTAD._get_recommendation "driver_mistake" "brake" |};
    {| DPTAD.timestamp := 40; DPTAD.type := "driver_mistake";
       DPTAD.severity := 2.5; DPTAD.signal := "brake";
       DPTAD.description := "Driver mistake: brake_spike";
       DPTAD.fast_component := None; DPTAD.slow_component := None;
       DPTAD.recommended_action := DPTAD._get_recommendation "driver_mistake" "brake" |} ].

(** A best sector time is above 20 and is stored under s1, s2 or s3. *)
Definition plausible_best (kb : string * Q) : Prop :=
  20 <= snd kb /\ In (fst kb) ["s1"; "s2"; "s3"]%string.

(* ================================================================== *)
(** * Vocabulary of the further properties *)
(* ================================================================== *)

(** Neighbours in [l] are at most [k] apart. *)
Fixpoint chained (k : nat) (l : list nat) : Prop :=
  match l with
  | a :: ((b :: _) as t) => (b - a <= k)%nat /\ chained k t
  | _ => True
  end.

(** Each group starts more than [k] after the end of the group before. *)
Fixpoint separated (k : nat) (gs : list (list nat)) : Prop :=
  match gs with
  | g1 :: ((g2 :: _) as t) => (k < hd 0%nat g2 - last g1 0%nat)%nat /\ separated k t
  | _ => True
  end.

(** [b] does not come before [a] for severity: [a] is at least as severe. *)
Definition not_less_severe (a b : DPTAD.Anomaly) : Prop :=
  DPTAD.severity b <= DPTAD.severity a.

(** The three shapes of a reconciled anomaly, with the candidates it was
    made of. *)
Definition reconciled_shape (slows : list DPTAD.SlowCandidate)
    (fasts : list DPTAD.FastCandidate) (a : DPTAD.Anomaly) : Prop :=
  (DPTAD.type a = "compound"%string
   /\ exists f s, DPTAD.fast_component a = Some f /\ In f fasts
                  /\ DPTAD.slow_component a = Some s /\ In s slows
                  /\ near (DPTAD.s_timestamp s) (DPTAD.f_timestamp f))
  \/ (DPTAD.type a = "driver_mistake"%string
      /\ DPTAD.slow_component a = None
      /\ exists f, DPTAD.fast_component a = Some f /\ In f fasts)
  \/ (DPTAD.type a = "degradation"%string
      /\ DPTAD.fast_component a = None
      /\ exists s, DPTAD.slow_component a = Some s /\ In s slows).

(** The classification of an anomaly is one of the three of the engine. *)
Definition classified (a : DPTAD.Anomaly) : Prop :=
  In (DPTAD.type a) ["compound"; "driver_mistake"; "degradation"]%string.

(** The six recommendations of the summary, for the signal [g]. *)
Definition summary_templates (g : string) : list string :=
  [("Critical: Focus immediately on " ++ g
    ++ " technique. Multiple driver errors detected.");
   ("Important: Improve " ++ g
    ++ " consistency. Driver technique issues identified.");
   ("Minor technique adjustments needed in " ++ g ++ " control.");
   ("Equipment attention required: " ++ g ++ " showing significant degradation.");
   ("Monitor " ++ g ++ " performance trends. Early degradation detected.");
   ("Address both technique and equipment issues in " ++ g ++ ".")]%string.

(** The counts of a table of counts never grow along the table. *)
Definition counts_descend (counts : list (string * nat)) : Prop :=
  StronglySorted (fun a b => (snd b <= snd a)%nat) counts.

(** The four signals that the tables of the detector know. *)
Definition known_signals : list string :=
  ["brake"; "throttle"; "speed"; "steering_angle"]%string.

(** The recommendation of last resort for a signal. *)
Definition monitor_message (signal_name : string) : string :=
  ("Monitor " ++ signal_name ++ " performance and adjust technique accordingly.")%string.

(** A filter that returns as many samples as it is given. *)
Definition keeps_length (filtfilt : list Q -> list Q -> list Q -> outcome (list Q)) : Prop :=
  forall b a x y, filtfilt b a x = Returns y -> length y = length x.

(** The keys of the sectors whose column the sector table holds: the
    position of the column among the three sector columns, from 1. *)
Definition present_sector_keys (sector_data : DataFrame) : list string :=
  map (fun ic => SIWTL.sector_key (fst ic))
    (filter (fun ic => col_in sector_data (snd ic)) (enumerate 1 SIWTL.sector_cols)).

(** A best sector time lies strictly between 20 and 80 and is stored under
    s1, s2 or s3. *)
Definition valid_best (kb : string * Q) : Prop :=
  20 < snd kb /\ snd kb < 80 /\ In (fst kb) ["s1"; "s2"; "s3"]%string.

(** The keys of the insufficient-data result and of a computed result of
    [calculate_siwtl], in insertion order. *)
Definition insufficient_keys : list string :=
  ["siwtl_lap"; "theoretical_best_lap"; "potential_gain_sec"; "achievability_score";
   "error"; "algorithm"; "confidence_level"]%string.

Definition computed_keys : list string :=
  ["siwtl_lap"; "theoretical_best_lap"; "current_avg_lap"; "potential_gain_sec";
   "achievability_score"; "sector_analysis"; "sector_weights"; "confidence_level";
   "algorithm"; "total_laps_analyzed"; "calculation_timestamp";
   "achievability_factors"]%string.

(** The sector table has rows and exactly one of the three sector columns. *)
Definition one_sector_column (sector_data : option DataFrame) : bool :=
  match sector_data with
  | Some sd => (0 <? df_len sd)%nat && (length (present_sector_keys sd) =? 1)%nat
  | None => false
  end.

(** The entries of [sector_analysis] written out: one for each best sector
    time whose key has a weight, in the order of the best times. *)
Definition sector_entries (sector_weights : list (string * SIWTL.SectorWeight))
    (sector_bests : list (string * Q)) : list (string * SIWTL.SectorAnalysis) :=
  flat_map (fun kb =>
    match dict_get (fst kb) sector_weights with
    | Some w =>
        [(fst kb,
          {| SIWTL.best_time := snd kb;
             SIWTL.achievability_weight := SIWTL.combined_weight w;
             SIWTL.realistic_time := snd kb / Qmax (SIWTL.combined_weight w) 0.1 |})]
    | None => []
    end) sector_bests.

(** A caller that has not yet passed the construction of an instance. *)
Definition may_construct (p : Singleton.pc) : bool :=
  match p with
  | Singleton.at_check | Singleton.at_construct => true
  | _ => false
  end.

(* ================================================================== *)
(** * The callers of the engines (api/ml_analysis.py) *)
(* ================================================================== *)

(** The endpoints pass their response through the local helper
    [clean_nans] before it is serialised.  A response is a tree of Python
    values; its floats are binary64 numbers, NaN and the infinities
    included, so they are the kernel's primitive floats here. *)

Module API.

Inductive json : Type :=
| JNone
| JBool (b : bool)
| JInt (z : Z)
| JFloat (f : PrimFloat.float)
| JStr (s : string)
| JList (l : list json)
| JDict (d : list (string * json)).

(** [clean_nans]: a float that is NaN or infinite becomes [None]; the
    values of a dictionary and the items of a list are cleaned in place;
    everything else is returned as it is. *)
Fixpoint clean_nans (obj : json) : json :=
  match obj with
  | JFloat f =>
      if PrimFloat.is_nan f || PrimFloat.is_infinity f then JNone else JFloat f
  | JDict d => JDict (map (fun kv => let '(k, v) := kv in (k, clean_nans v)) d)
  | JList l => JList (map clean_nans l)
  | _ => obj
  end.

End API.

(** Every float of a response is a finite number. *)
Fixpoint all_finite (obj : API.json) : bool :=
  match obj with
  | API.JFloat f => PrimFloat.is_finite f
  | API.JList l => forallb all_finite l
  | API.JDict d => forallb (fun kv => let '(k, v) := kv in all_finite v) d
  | _ => true
  end.

(** Two responses have the same shape: the same keys in the same order,
    lists of the same length and the same values, except that a float of
    the first that is not finite is [None] in the second. *)
Fixpoint same_shape (a b : API.json) : Prop :=
  match a, b with
  | API.JFloat f, API.JNone => PrimFloat.is_finite f = false
  | API.JFloat f, API.JFloat g => f = g /\ PrimFloat.is_finite f = true
  | API.JList l, API.JList m =>
      (fix go (l m : list API.json) : Prop :=
         match l, m with
         | [], [] => True
         | x :: l', y :: m' => same_shape x y /\ go l' m'
         | _, _ => False
         end) l m
  | API.JDict d, API.JDict e =>
      (fix go (d e : list (string * API.json)) : Prop :=
         match d, e with
         | [], [] => True
         | (k, x) :: d', (k', y) :: e' => k = k' /\ same_shape x y /\ go d' e'
         | _, _ => False
         end) d e
  | API.JFloat _, _ => False
  | API.JList _, _ => False
  | API.JDict _, _ => False
  | _, _ => a = b
  end.

(** What every action of a getter keeps: each caller constructs at most
    once, and the global, once assigned, is never cleared. *)
Definition bounded (s : Singleton.state) : Prop :=
  (length (Singleton.heap s)
   + length (filter may_construct (Singleton.threads s))
   <= length (Singleton.threads s))%nat
  /\ ((exists o, In (Singleton.done o) (Singleton.threads s)) ->
      Singleton.global s <> None).

(** Induction over a response, through its lists and dictionaries. *)
Section json_induction.

Variable P : API.json -> Prop.

Hypothesis HNone : P API.JNone.
Hypothesis HBool : forall b, P (API.JBool b).
Hypothesis HInt : forall z, P (API.JInt z).
Hypothesis HFloat : forall f, P (API.JFloat f).
Hypothesis HStr : forall s, P (API.JStr s).
Hypothesis HList : forall l, Forall P l -> P (API.JList l).
Hypothesis HDict : forall d, Forall (fun kv => P (snd kv)) d -> P (API.JDict d).

Fixpoint json_induction (x : API.json) : P x :=
  match x with
  | API.JNone => HNone
  | API.JBool b => HBool b
  | API.JInt z => HInt z
  | API.JFloat f => HFloat f
  | API.JStr s => HStr s
  | API.JList l =>
      HList l
        ((fix go (l : list API.json) : Forall P l :=
            match l with
            | [] => Forall_nil P
            | y :: l' => Forall_cons y (json_induction y) (go l')
            end) l)
  | API.JDict d =>
      HDict d
        ((fix go (d : list (string * API.json)) : Forall (fun kv => P (snd kv)) d :=
            match d with
            | [] => Forall_nil _
            | kv :: d' => Forall_cons kv (json_induction (snd kv)) (go d')
            end) d)
  end.

End json_induction.

(* ================================================================== *)
(** * Properties *)
(* ================================================================== *)

(** ** Arithmetic on [Q] *)

Lemma Qlt_bool_iff (x y : Q) : Qlt_bool x y = true <-> x < y.
Proof.
  unfold Qlt_bool. rewrite negb_true_iff.
  split; intro H.
  - apply Qnot_le_lt. intro Hle. apply Qle_bool_iff in Hle. congruence.
  - destruct (Qle_bool y x) eqn:E; [|reflexivity].
    apply Qle_bool_iff in E. exfalso. exact (Qlt_not_le _ _ H E).
Qed.

Lemma Qlt_bool_false_iff (x y : Q) : Qlt_bool x y = false <-> y <= x.
Proof.
  unfold Qlt_bool. rewrite negb_false_iff. apply Qle_bool_iff.
Qed.

Lemma Qlist_min_lower (b : Q) (l : list Q) :
  l <> [] -> (forall x, In x l -> b <= x) -> b <= Qlist_min l.
Proof.
  destruct l as [|x l]; [congruence|]. intros _ H. simpl.
  assert (Hx : b <= x) by (apply H; left; reflexivity).
  assert (Hl : forall y, In y l -> b <= y) by (intros y Hy; apply H; right; exact Hy).
  clear H. revert x Hx. induction l as [|y l IH]; intros x Hx; simpl.
  - exact Hx.
  - apply IH.
    + intros z Hz. apply Hl. right. exact Hz.
    + apply Q.min_glb; [exact Hx | apply Hl; left; reflexivity].
Qed.

Lemma fold_max_ge_init (l : list Q) (x : Q) : x <= fold_left Qmax l x.
Proof.
  revert x. induction l as [|y l IH]; intro x; simpl.
  - apply Qle_refl.
  - eapply Qle_trans; [apply (Q.le_max_l x y) | apply IH].
Qed.

Lemma fold_max_ge_elem (l : list Q) (x y : Q) : In y l -> y <= fold_left Qmax l x.
Proof.
  revert x. induction l as [|z l IH]; intros x Hy; simpl.
  - destruct Hy.
  - destruct Hy as [-> | Hy].
    + eapply Qle_trans; [apply (Q.le_max_r x y) | apply fold_max_ge_init].
    + apply IH. exact Hy.
Qed.

Lemma fold_max_attained (l : list Q) (x : Q) :
  exists y, In y (x :: l) /\ fold_left Qmax l x == y.
Proof.
  revert x. induction l as [|z l IH]; intro x; simpl.
  - exists x. split; [left; reflexivity | reflexivity].
  - destruct (IH (Qmax x z)) as [y [Hy E]].
    destruct Hy as [Hy | Hy].
    + destruct (Q.max_dec x z) as [Hm | Hm].
      * exists x. split; [left; reflexivity|]. rewrite E, <- Hy. exact Hm.
      * exists z. split; [right; left; reflexivity|]. rewrite E, <- Hy. exact Hm.
    + exists y. split; [right; right; exact Hy | exact E].
Qed.

Lemma Qlist_max_upper (b : Q) (l : list Q) :
  l <> [] -> (forall x, In x l -> x <= b) -> Qlist_max l <= b.
Proof.
  destruct l as [|x l]; [congruence|]. intros _ H. simpl.
  destruct (fold_max_attained l x) as [y [Hy E]].
  rewrite E. apply H. exact Hy.
Qed.

Lemma Qlist_max_ge (l : list Q) (y : Q) : In y l -> y <= Qlist_max l.
Proof.
  destruct l as [|x l]; [intros []|]. intros [-> | Hy]; simpl.
  - apply fold_max_ge_init.
  - apply fold_max_ge_elem. exact Hy.
Qed.

Lemma Qlist_max_attained (l : list Q) :
  l <> [] -> exists y, In y l /\ Qlist_max l == y.
Proof.
  destruct l as [|x l]; [congruence|]. intros _. apply fold_max_attained.
Qed.

(** ** Dictionaries *)

Lemma dict_get_set_other {A : Type} (k k' : string) (v : A) (d : list (string * A)) :
  k <> k' -> dict_get k (dict_set k' v d) = dict_get k d.
Proof.
  intro Hne. induction d as [|[k0 v0] d IH]; simpl.
  - destruct (String.eqb_spec k k'); [contradiction | reflexivity].
  - destruct (String.eqb_spec k' k0) as [-> | Hk0]; simpl.
    + destruct (String.eqb_spec k k0); [contradiction | reflexivity].
    + destruct (String.eqb_spec k k0); [reflexivity | exact IH].
Qed.

Lemma dict_get_set_same {A : Type} (k : string) (v : A) (d : list (string * A)) :
  dict_get k (dict_set k v d) = Some v.
Proof.
  induction d as [|[k0 v0] d IH]; simpl.
  - rewrite String.eqb_refl. reflexivity.
  - destruct (String.eqb_spec k k0) as [-> | Hk0]; simpl.
    + rewrite String.eqb_refl. reflexivity.
    + destruct (String.eqb_spec k k0); [contradiction | exact IH].
Qed.

Lemma dict_set_keys {A : Type} (k : string) (v w : A) (d : list (string * A)) :
  map fst (dict_set k v d) = map fst (dict_set k w d).
Proof.
  induction d as [|[k0 v0] d IH]; simpl.
  - reflexivity.
  - destruct (String.eqb k k0); simpl; [reflexivity | f_equal; exact IH].
Qed.

(** ** Tables *)

Lemma col_cells_length (df : DataFrame) (c : string) :
  df_wf df -> col_in df c = true -> length (col_cells df c) = length (df_index df).
Proof.
  unfold df_wf, col_in, col_cells, dict_mem.
  induction (df_columns df) as [|[k v] cols IH]; simpl; intros Hwf Hin.
  - discriminate.
  - inversion Hwf as [|? ? Hv Hrest]; subst.
    destruct (String.eqb c k); [exact Hv | apply IH; assumption].
Qed.

Lemma col_cells_select (df : DataFrame) (m : list bool) (c : string) :
  col_cells (df_select df m) c = mask_filter m (col_cells df c).
Proof.
  unfold col_cells, df_select. simpl.
  induction (df_columns df) as [|[k v] cols IH]; simpl.
  - destruct m; reflexivity.
  - destruct (String.eqb c k); [reflexivity | exact IH].
Qed.

Lemma mask_filter_length {A : Type} (p : Q -> bool) (cells : list (option Q))
    (idx : list A) :
  length idx = length cells ->
  length (mask_filter (map (cell_test p) cells) idx) = length (passing p cells).
Proof.
  revert idx. induction cells as [|c cells IH]; intros idx Hlen.
  - destruct idx; reflexivity.
  - destruct idx as [|i idx]; [discriminate|]. simpl in Hlen.
    injection Hlen as Hlen. simpl.
    destruct c as [x|]; simpl; [destruct (p x); simpl|]; rewrite IH by exact Hlen;
      reflexivity.
Qed.

Lemma dropna_select (p : Q -> bool) (cells : list (option Q)) (idx : list nat) :
  length idx = length cells ->
  dropna (combine (mask_filter (map (cell_test p) cells) idx)
                  (mask_filter (map (cell_test p) cells) cells))
  = passing p cells.
Proof.
  revert idx. induction cells as [|c cells IH]; intros idx Hlen.
  - destruct idx; reflexivity.
  - destruct idx as [|i idx]; [discriminate|]. simpl in Hlen.
    injection Hlen as Hlen. simpl.
    destruct c as [x|]; simpl; [destruct (p x); simpl|]; unfold dropna in IH;
      rewrite IH by exact Hlen; reflexivity.
Qed.

Lemma passing_In (p : Q -> bool) (cells : list (option Q)) (x : Q) :
  In x (passing p cells) -> p x = true.
Proof.
  induction cells as [|c cells IH]; simpl; [intros []|].
  intro H. apply in_app_or in H. destruct H as [H | H]; [|exact (IH H)].
  destruct c as [y|]; [|destruct H].
  destruct (p y) eqn:E; [|destruct H].
  destruct H as [<- | []]. exact E.
Qed.

(* ================================================================== *)
(** ** The ideal-lap engine *)
(* ================================================================== *)

Section SIWTL_properties.

Import SIWTL.

Variable pd_std : list Q -> Q.
Variable np_std : list Q -> Q.
Variable self : SIWTLCalculator.

Lemma valid_laps_len (driver_data : DataFrame) :
  df_wf driver_data ->
  col_in driver_data "lap_time_ms" = true ->
  df_len (df_select driver_data
            (map (cell_test valid_lap_time) (col_cells driver_data "lap_time_ms")))
  = valid_lap_count driver_data.
Proof.
  intros Hwf Hin. unfold df_len, df_select, valid_lap_count. simpl.
  apply mask_filter_length. symmetry. apply col_cells_length; assumption.
Qed.

Lemma valid_laps_times (driver_data : DataFrame) :
  df_wf driver_data ->
  col_in driver_data "lap_time_ms" = true ->
  dropna (get_col (df_select driver_data
                     (map (cell_test valid_lap_time) (col_cells driver_data "lap_time_ms")))
            "lap_time_ms")
  = passing valid_lap_time (col_cells driver_data "lap_time_ms").
Proof.
  intros Hwf Hin. unfold get_col. rewrite col_cells_select.
  unfold df_select at 1. simpl.
  apply dropna_select. symmetry. apply col_cells_length; assumption.
Qed.

Lemma required_columns_lap_time (driver_data : DataFrame) :
  forallb (col_in driver_data) required_columns = true ->
  col_in driver_data "lap_time_ms" = true.
Proof.
  simpl. intro H. apply andb_prop in H. destruct H as [_ H].
  apply andb_prop in H. exact (proj1 H).
Qed.

(** C1, as stated, fails: a lap table without the [lap_time_ms] column makes
    [calculate_siwtl] raise [ValueError]. *)
Lemma C1_missing_column_raises :
  calculate_siwtl (fun _ => 0) (fun _ => 0) default_calculator "2025-01-01T00:00:00"
    {| df_index := [0; 1; 2; 3]%nat;
       df_columns := [("lap_number"%string, [Some 1; Some 2; Some 3; Some 4])] |}
    None None
  = Raises (ValueError "Driver data must contain: ['lap_number', 'lap_time_ms']").
Proof. reflexivity. Qed.

(** C1 (amended): on a lap table holding the columns [lap_number] and
    [lap_time_ms], [calculate_siwtl] returns a result and does not raise;
    with fewer than 5 valid laps (so with exactly 4) the result is the
    insufficient-data dictionary, whose [siwtl_lap], [theoretical_best_lap],
    [potential_gain_sec] and [achievability_score] are null.  On a lap table
    lacking one of the two columns it raises [ValueError]. *)
Theorem C1_calculate_siwtl_outcome (now : string) (driver_data : DataFrame)
    (sector_data : option DataFrame) (telemetry_data : option Telemetry) :
  df_wf driver_data ->
  let out := calculate_siwtl pd_std np_std self now driver_data sector_data telemetry_data in
  (forallb (col_in driver_data) required_columns = true ->
     (exists r, out = Returns r)
     /\ ((valid_lap_count driver_data < 5)%nat ->
         exists r, out = Returns r
           /\ r = _create_insufficient_data_result
           /\ is_null r "siwtl_lap" /\ is_null r "theoretical_best_lap"
           /\ is_null r "potential_gain_sec" /\ is_null r "achievability_score"))
  /\ (forallb (col_in driver_data) required_columns = false ->
      exists msg, out = Raises (ValueError msg)).
Proof.
  intros Hwf out. subst out. unfold calculate_siwtl. split.
  - intro Hreq. rewrite Hreq. simpl negb. cbv iota.
    pose proof (required_columns_lap_time _ Hreq) as Hcol.
    rewrite (valid_laps_len _ Hwf Hcol).
    split.
    + destruct (valid_lap_count driver_data <? 5)%nat; eexists; reflexivity.
    + intro Hlt. apply Nat.ltb_lt in Hlt. rewrite Hlt.
      eexists. split; [reflexivity|]. repeat split; reflexivity.
  - intro Hreq. rewrite Hreq. simpl. eexists. reflexivity.
Qed.

End SIWTL_properties.

(** A lap table with exactly four valid laps (the fifth lap is too slow). *)
Lemma C1_four_valid_laps_witness :
  let laps :=
    {| df_index := [0; 1; 2; 3; 4]%nat;
       df_columns :=
         [("lap_number"%string, [Some 1; Some 2; Some 3; Some 4; Some 5]);
          ("lap_time_ms"%string,
           [Some 131000; Some 130500; Some 132250; Some 129900; Some 250000])] |} in
  valid_lap_count laps = 4%nat
  /\ exists r,
       SIWTL.calculate_siwtl (fun _ => 0) (fun _ => 0) SIWTL.default_calculator
         "2025-01-01T00:00:00" laps None None = Returns r
       /\ is_null r "siwtl_lap" /\ is_null r "theoretical_best_lap"
       /\ is_null r "potential_gain_sec" /\ is_null r "achievability_score".
Proof.
  intro laps. split; [reflexivity|].
  assert (Hwf : df_wf laps) by (repeat constructor).
  destruct (C1_calculate_siwtl_outcome (fun _ => 0) (fun _ => 0)
              SIWTL.default_calculator "2025-01-01T00:00:00" laps None None Hwf)
    as [H _].
  destruct (H eq_refl) as [_ H4].
  destruct H4 as [r [Hr [_ Hnull]]].
  - vm_compute. lia.
  - exists r. split; [exact Hr | exact Hnull].
Defined.

Section SIWTL_lap_based.

Import SIWTL.

Variable pd_std : list Q -> Q.
Variable np_std : list Q -> Q.
Variable self : SIWTLCalculator.

Lemma theoretical_best_no_sectors (valid_laps : DataFrame)
    (sector_data : option DataFrame) :
  no_sector_table sector_data ->
  _calculate_theoretical_best valid_laps sector_data
  = {| tb_theoretical_best_lap :=
         Qlist_min (dropna (get_col valid_laps "lap_time_ms")) / 1000;
       tb_sector_bests := [];
       tb_method := "lap_based" |}.
Proof.
  destruct sector_data as [t|]; simpl; intro H; [|reflexivity].
  unfold _calculate_theoretical_best. rewrite H. reflexivity.
Qed.

Lemma sector_weights_no_sectors (valid_laps : DataFrame)
    (sector_data : option DataFrame) (telemetry_data : option Telemetry) :
  no_sector_table sector_data ->
  _calculate_sector_weights pd_std np_std self valid_laps sector_data telemetry_data
  = uniform_weights.
Proof.
  destruct sector_data as [t|]; simpl; intro H; [|reflexivity].
  unfold _calculate_sector_weights. rewrite H. reflexivity.
Qed.

Lemma valid_lap_time_bounds (x : Q) :
  valid_lap_time x = true -> 120000 <= x /\ x <= 200000.
Proof.
  unfold valid_lap_time. intro H. apply andb_prop in H. destruct H as [H1 H2].
  split; apply Qle_bool_iff; assumption.
Qed.

Lemma best_lap_positive (cells : list (option Q)) :
  (0 < length (passing valid_lap_time cells))%nat ->
  120 <= Qlist_min (passing valid_lap_time cells) / 1000.
Proof.
  intro Hlen.
  assert (H : 120000 <= Qlist_min (passing valid_lap_time cells)).
  { apply Qlist_min_lower.
    - intro E. rewrite E in Hlen. simpl in Hlen. lia.
    - intros x Hx. apply passing_In in Hx. apply valid_lap_time_bounds in Hx. tauto. }
  apply Qle_shift_div_l; [reflexivity|].
  eapply Qle_trans; [|exact H]. discriminate.
Qed.

(** C9 (amended): with at least 5 valid laps and no sector table, every
    sector gets the uniform weight 1/3 in all six fields; [siwtl_lap] is
    [theoretical_best_lap] divided by that weight and [achievability_score]
    is the quotient of the two laps, which in exact arithmetic are three
    times [theoretical_best_lap] and 1/3. *)
Theorem C9_no_sector_table (now : string) (driver_data : DataFrame)
    (sector_data : option DataFrame) (telemetry_data : option Telemetry) :
  df_wf driver_data ->
  forallb (col_in driver_data) required_columns = true ->
  (5 <= valid_lap_count driver_data)%nat ->
  no_sector_table sector_data ->
  exists (r : dict) (tb : Q),
    calculate_siwtl pd_std np_std self now driver_data sector_data telemetry_data
    = Returns r
    /\ dict_get "sector_weights" r = Some (pydict_of weight_to_py uniform_weights)
    /\ Forall (fun kw =>
         consistency_score (snd kw) == 1 / 3 /\ smoothness_score (snd kw) == 1 / 3
         /\ conditions_score (snd kw) == 1 / 3 /\ temperature_score (snd kw) == 1 / 3
         /\ traffic_score (snd kw) == 1 / 3 /\ combined_weight (snd kw) == 1 / 3)
         uniform_weights
    /\ has_number r "theoretical_best_lap" tb
    /\ has_number r "siwtl_lap" (3 * tb)
    /\ has_number r "achievability_score" (1 / 3).
Proof.
  intros Hwf Hreq H5 Hno.
  pose proof (required_columns_lap_time _ Hreq) as Hcol.
  unfold calculate_siwtl. rewrite Hreq. simpl negb. cbv iota.
  rewrite (valid_laps_len _ Hwf Hcol).
  destruct (Nat.ltb_spec (valid_lap_count driver_data) 5) as [Hlt | _]; [lia|].
  rewrite (theoretical_best_no_sectors _ _ Hno).
  rewrite (sector_weights_no_sectors _ _ _ Hno).
  unfold _compute_siwtl. cbn [tb_sector_bests tb_theoretical_best_lap].
  rewrite (valid_laps_times _ Hwf Hcol).
  set (tb := Qlist_min (passing valid_lap_time (col_cells driver_data "lap_time_ms")) / 1000).
  assert (Htb : 120 <= tb).
  { apply best_lap_positive. unfold valid_lap_count in H5. lia. }
  assert (Hw : Qmax (mean (map (fun kv : string * SectorWeight => combined_weight (snd kv))
                             uniform_weights)) 0.1 == 1 / 3) by reflexivity.
  assert (Hs : tb / Qmax (mean (map (fun kv : string * SectorWeight => combined_weight (snd kv))
                                  uniform_weights)) 0.1 == 3 * tb).
  { rewrite Hw. field. }
  eexists. exists tb. split; [reflexivity|].
  split; [reflexivity|].
  split.
  { repeat constructor; reflexivity. }
  split; [eexists; split; [reflexivity | reflexivity]|].
  split; [eexists; split; [reflexivity | exact Hs]|].
  eexists. split; [reflexivity|].
  rewrite Hs.
  assert (Hq : tb / (3 * tb) == 1 / 3).
  { field. intro E. lra. }
  rewrite Hq. apply Q.min_r. discriminate.
Qed.

End SIWTL_lap_based.

Section SIWTL_lap_based_binary64.

Import PrimFloat.

#[local] Set Warnings "-inexact-float".

(** C9, as stated, fails in the arithmetic of the code: for a lap table
    whose best valid lap is 120002 ms and no sector table, the computed
    [theoretical_best_lap] is 120.002 and the computed [siwtl_lap] is
    360.00600000000003, which is not [3 * theoretical_best_lap]
    (360.006). *)
Lemma C9_binary64_not_exact :
  let w := Binary64.uniform_weight in
  let '(siwtl_lap, theoretical_lap, achievability_score) :=
    Binary64.lap_based 120002%float [w; w; w] in
  theoretical_lap = 120.002%float
  /\ siwtl_lap = 360.00600000000003%float
  /\ mul 3%float theoretical_lap = 360.006%float
  /\ eqb siwtl_lap (mul 3%float theoretical_lap) = false.
Proof. vm_compute. repeat split; reflexivity. Qed.

End SIWTL_lap_based_binary64.

Section SIWTL_weights.

Import SIWTL.

Variable pd_std : list Q -> Q.
Variable np_std : list Q -> Q.
Variable self : SIWTLCalculator.

Lemma series_select_length (p : Q -> bool) (s : Series) :
  length (series_select p s) = length (passing p (map snd s)).
Proof.
  unfold series_select. induction s as [|[i c] s IH]; simpl; [reflexivity|].
  destruct c as [x|]; simpl; [destruct (p x); simpl|]; rewrite IH; reflexivity.
Qed.

(** C4, as stated, fails: under the default factor weights the default
    weight set has [combined_weight] 0.68, and the weighted sum of its five
    sub-scores is 0.67. *)
Lemma C4_default_set_is_not_weighted_sum :
  let w := _calculate_single_sector_weight (fun _ => 0) (fun _ => 0) default_calculator
             (get_col sample_sectors_2_3 "sector_2_time") 2 sample_laps None in
  w = _default_sector_weight
  /\ combined_weight w == 0.68
  /\ weighted_sum default_calculator w == 0.67
  /\ ~ combined_weight w == weighted_sum default_calculator w.
Proof.
  cbv zeta. split; [reflexivity|]. split; [reflexivity|]. split; [reflexivity|].
  intro H. vm_compute in H. discriminate H.
Qed.

(** C4 (amended): for a sector with at least 3 valid samples, the
    [combined_weight] of the computed SectorWeight is the weighted sum of
    its five sub-scores under the configured factor weights; for a sector
    with fewer than 3 valid samples the result is the default weight set, six
    literals that do not depend on the configured factor weights. *)
Theorem C4_combined_weight (sector_times : Series) (sector_num : nat)
    (valid_laps : DataFrame) (telemetry_data : option Telemetry) :
  let w := _calculate_single_sector_weight pd_std np_std self
             sector_times sector_num valid_laps telemetry_data in
  ((3 <= valid_sample_count sector_times)%nat ->
     combined_weight w == weighted_sum self w)
  /\ ((valid_sample_count sector_times < 3)%nat ->
      w = {| consistency_score := 0.6; smoothness_score := 0.6;
             conditions_score := 0.7; temperature_score := 0.8;
             traffic_score := 0.8; combined_weight := 0.68 |}).
Proof.
  cbv zeta. unfold _calculate_single_sector_weight, valid_sample_count.
  rewrite series_select_length.
  destruct (Nat.ltb_spec (length (passing valid_sector_time (map snd sector_times))) 3)
    as [Hlt | Hge]; split; intro H; try lia.
  - reflexivity.
  - unfold weighted_sum, Qsum. cbn [map fold_left fst snd combined_weight
      consistency_score smoothness_score conditions_score temperature_score
      traffic_score]. ring.
Qed.

(** The constructor accepts factor weights that sum to 1.02 and logs the
    discrepancy; the default weights are accepted silently. *)
Lemma init_logs_weight_discrepancy :
  snd (__init__ 0.32 0.25 0.2 0.15 0.1)
  = [Warning_weights_sum (Qsum [0.32; 0.25; 0.2; 0.15; 0.1])]
  /\ __init__ 0.3 0.25 0.2 0.15 0.1 = (default_calculator, []).
Proof. split; reflexivity. Qed.

End SIWTL_weights.

(** ** Sums and means *)

Lemma fold_Qplus_init (l : list Q) (a : Q) : fold_left Qplus l a == a + Qsum l.
Proof.
  unfold Qsum. revert a. induction l as [|x l IH]; intro a; simpl.
  - ring.
  - rewrite (IH (a + x)), (IH (0 + x)). ring.
Qed.

Lemma Qsum_cons (x : Q) (l : list Q) : Qsum (x :: l) == x + Qsum l.
Proof.
  unfold Qsum at 1. simpl. rewrite fold_Qplus_init. ring.
Qed.

Lemma Qsum_le_const (b : Q) (l : list Q) :
  (forall x, In x l -> x <= b) -> Qsum l <= inject_Z (Z.of_nat (length l)) * b.
Proof.
  induction l as [|x l IH]; intro H.
  - change (0 <= 0 * b). lra.
  - rewrite Qsum_cons. cbn [length]. rewrite Nat2Z.inj_succ, <- Z.add_1_r, inject_Z_plus.
    change (inject_Z 1) with 1.
    assert (Hx : x <= b) by (apply H; left; reflexivity).
    assert (Hl : Qsum l <= inject_Z (Z.of_nat (length l)) * b)
      by (apply IH; intros y Hy; apply H; right; exact Hy).
    lra.
Qed.

Lemma Qsum_ge_const (b : Q) (l : list Q) :
  (forall x, In x l -> b <= x) -> inject_Z (Z.of_nat (length l)) * b <= Qsum l.
Proof.
  induction l as [|x l IH]; intro H.
  - change (0 * b <= 0). lra.
  - rewrite Qsum_cons. cbn [length]. rewrite Nat2Z.inj_succ, <- Z.add_1_r, inject_Z_plus.
    change (inject_Z 1) with 1.
    assert (Hx : b <= x) by (apply H; left; reflexivity).
    assert (Hl : inject_Z (Z.of_nat (length l)) * b <= Qsum l)
      by (apply IH; intros y Hy; apply H; right; exact Hy).
    lra.
Qed.

Lemma length_pos_Q {A : Type} (l : list A) :
  l <> [] -> 0 < inject_Z (Z.of_nat (length l)).
Proof.
  intro H. destruct l as [|x l]; [congruence|].
  change 0 with (inject_Z 0). rewrite <- Zlt_Qlt. simpl length. lia.
Qed.

Lemma mean_upper (b : Q) (l : list Q) :
  l <> [] -> (forall x, In x l -> x <= b) -> mean l <= b.
Proof.
  intros Hne H. unfold mean.
  apply Qle_shift_div_r; [apply length_pos_Q; exact Hne|].
  rewrite Qmult_comm. apply Qsum_le_const. exact H.
Qed.

Lemma mean_lower (b : Q) (l : list Q) :
  l <> [] -> (forall x, In x l -> b <= x) -> b <= mean l.
Proof.
  intros Hne H. unfold mean.
  apply Qle_shift_div_l; [apply length_pos_Q; exact Hne|].
  rewrite Qmult_comm. apply Qsum_ge_const. exact H.
Qed.

Lemma div_by_weight_ge (b m : Q) : 0 <= b -> 0 < m -> m <= 1 -> b <= b / m.
Proof.
  intros Hb Hm Hm1. apply Qle_shift_div_l; [exact Hm|].
  assert (H : b * m <= b * 1).
  { rewrite (Qmult_comm b m), (Qmult_comm b 1).
    apply Qmult_le_compat_r; assumption. }
  lra.
Qed.

Lemma floor_weight_bounds (w : Q) : w <= 1 -> 0 < Qmax w 0.1 /\ Qmax w 0.1 <= 1.
Proof.
  intro H. split.
  - eapply Qlt_le_trans; [|apply Q.le_max_r]. reflexivity.
  - apply Q.max_lub; [exact H | discriminate].
Qed.

Lemma dict_get_In {A : Type} (k : string) (v : A) (d : list (string * A)) :
  dict_get k d = Some v -> In (k, v) d.
Proof.
  induction d as [|[k0 v0] d IH]; simpl; [discriminate|].
  destruct (String.eqb_spec k k0) as [-> | Hne].
  - intro H. injection H as ->. left. reflexivity.
  - intro H. right. exact (IH H).
Qed.

Section SIWTL_composer.

Import SIWTL.

Variable pd_std : list Q -> Q.
Variable np_std : list Q -> Q.
Variable self : SIWTLCalculator.

(** When every best sector time has a weight, and the weights are at most
    1, the loop adds at least the best times. *)
Lemma sector_loop_total_ge (ws : list (string * SectorWeight))
    (bests : list (string * Q)) :
  (forall k b, In (k, b) bests ->
     0 <= b /\ exists w, dict_get k ws = Some w /\ combined_weight w <= 1) ->
  forall sects t,
    t + Qsum (map snd bests) <= snd (fold_left (sector_step ws) bests (sects, t)).
Proof.
  induction bests as [|[k b] bests IH]; intros H sects t.
  - simpl. unfold Qsum. simpl. lra.
  - destruct (H k b (or_introl eq_refl)) as [Hb [w [Hw Hw1]]].
    cbn [fold_left]. unfold sector_step at 2. rewrite Hw.
    cbn [map snd]. rewrite Qsum_cons.
    eapply Qle_trans; [|apply IH; intros k' b' Hin; apply (H k' b'); right; exact Hin].
    destruct (floor_weight_bounds _ Hw1) as [Hm0 Hm1].
    pose proof (div_by_weight_ge b _ Hb Hm0 Hm1). lra.
Qed.

(** With all weights equal to 1 the loop adds exactly the best times. *)
Lemma sector_loop_total_eq (ws : list (string * SectorWeight))
    (bests : list (string * Q)) :
  (forall k b, In (k, b) bests ->
     exists w, dict_get k ws = Some w /\ combined_weight w == 1) ->
  forall sects t,
    snd (fold_left (sector_step ws) bests (sects, t)) == t + Qsum (map snd bests).
Proof.
  induction bests as [|[k b] bests IH]; intros H sects t.
  - simpl. unfold Qsum. simpl. lra.
  - destruct (H k b (or_introl eq_refl)) as [w [Hw Hw1]].
    cbn [fold_left]. unfold sector_step at 2. rewrite Hw.
    cbn [map snd]. rewrite Qsum_cons.
    eapply Qeq_trans; [apply IH; intros k' b' Hin; apply (H k' b'); right; exact Hin|].
    assert (Hm : Qmax (combined_weight w) 0.1 == 1).
    { rewrite Hw1. reflexivity. }
    rewrite Hm. field.
Qed.

(** The [siwtl_lap] and [theoretical_best_lap] that [_compute_siwtl] stores. *)
Lemma compute_siwtl_fields (tb : TheoreticalBest)
    (ws : list (string * SectorWeight)) (vl : DataFrame) :
  dict_get "theoretical_best_lap" (_compute_siwtl tb ws vl)
  = Some (PFloat (tb_theoretical_best_lap tb))
  /\ dict_get "siwtl_lap" (_compute_siwtl tb ws vl)
     = Some (PFloat
         match tb_sector_bests tb with
         | _ :: _ => snd (siwtl_sector_loop (tb_sector_bests tb) ws)
         | [] =>
             tb_theoretical_best_lap tb
             / Qmax match ws with
                    | _ :: _ => mean (map (fun kv => combined_weight (snd kv)) ws)
                    | [] => 0.75
                    end 0.1
         end).
Proof.
  unfold _compute_siwtl.
  destruct (tb_sector_bests tb) as [|kb bests].
  - split; reflexivity.
  - destruct (siwtl_sector_loop (kb :: bests) ws) as [sects lap]. split; reflexivity.
Qed.

(** The relation that C2 states holds whenever no best sector time is left
    without a weight: [siwtl_lap] is then at least [theoretical_best_lap]
    if the weights are at most 1, and equal to it if they all are 1. *)
Lemma compute_siwtl_ge_when_covered (tb : TheoreticalBest)
    (ws : list (string * SectorWeight)) (vl : DataFrame) :
  0 <= tb_theoretical_best_lap tb ->
  (tb_sector_bests tb <> [] ->
   tb_theoretical_best_lap tb == Qsum (dict_values (tb_sector_bests tb)) * 1000 / 1000) ->
  (forall k b, In (k, b) (tb_sector_bests tb) ->
     0 <= b /\ exists w, dict_get k ws = Some w) ->
  (forall k w, In (k, w) ws -> combined_weight w <= 1) ->
  exists siwtl,
    has_number (_compute_siwtl tb ws vl) "siwtl_lap" siwtl
    /\ tb_theoretical_best_lap tb <= siwtl.
Proof.
  intros Htb Hsum Hcov Hle.
  destruct (compute_siwtl_fields tb ws vl) as [_ Hs].
  eexists. split; [eexists; split; [exact Hs | reflexivity]|].
  destruct (tb_sector_bests tb) as [|kb bests] eqn:Eb.
  - assert (Hw : match ws with
                 | _ :: _ => mean (map (fun kv => combined_weight (snd kv)) ws)
                 | [] => 0.75
                 end <= 1).
    { destruct ws as [|kw ws']; [discriminate|].
      apply mean_upper; [discriminate|].
      intros x Hx. apply in_map_iff in Hx. destruct Hx as [[k w] [<- Hin]].
      exact (Hle k w Hin). }
    destruct (floor_weight_bounds _ Hw) as [Hm0 Hm1].
    apply div_by_weight_ge; assumption.
  - rewrite Hsum by discriminate. unfold siwtl_sector_loop, dict_values.
    eapply Qle_trans; [|apply sector_loop_total_ge].
    + apply Qle_shift_div_r; [reflexivity|]. lra.
    + intros k b Hin. destruct (Hcov k b Hin) as [Hb [w Hw]].
      split; [exact Hb|]. exists w. split; [exact Hw|].
      apply (Hle k). apply dict_get_In. exact Hw.
Qed.

Lemma compute_siwtl_eq_when_covered (tb : TheoreticalBest)
    (ws : list (string * SectorWeight)) (vl : DataFrame) :
  (tb_sector_bests tb <> [] ->
   tb_theoretical_best_lap tb == Qsum (dict_values (tb_sector_bests tb)) * 1000 / 1000) ->
  (forall k b, In (k, b) (tb_sector_bests tb) -> exists w, dict_get k ws = Some w) ->
  ws <> [] ->
  (forall k w, In (k, w) ws -> combined_weight w == 1) ->
  has_number (_compute_siwtl tb ws vl) "siwtl_lap" (tb_theoretical_best_lap tb).
Proof.
  intros Hsum Hcov Hne H1.
  destruct (compute_siwtl_fields tb ws vl) as [_ Hs].
  eexists. split; [exact Hs|].
  destruct (tb_sector_bests tb) as [|kb bests] eqn:Eb.
  - destruct ws as [|kw ws']; [congruence|].
    assert (Hm : mean (map (fun kv => combined_weight (snd kv)) (kw :: ws')) == 1).
    { apply Qle_antisym.
      - apply mean_upper; [discriminate|].
        intros x Hx. apply in_map_iff in Hx. destruct Hx as [[k w] [<- Hin]].
        rewrite (H1 k w Hin). apply Qle_refl.
      - apply mean_lower; [discriminate|].
        intros x Hx. apply in_map_iff in Hx. destruct Hx as [[k w] [<- Hin]].
        rewrite (H1 k w Hin). apply Qle_refl. }
    rewrite Hm.
    assert (Hx : Qmax 1 0.1 == 1) by reflexivity.
    rewrite Hx. field.
  - rewrite Hsum by discriminate. unfold siwtl_sector_loop, dict_values.
    eapply Qeq_trans; [apply sector_loop_total_eq|field].
    intros k b Hin. destruct (Hcov k b Hin) as [w Hw].
    exists w. split; [exact Hw|]. apply (H1 k). apply dict_get_In. exact Hw.
Qed.

(** C2 fails on the code: on a sector table without the column
    [sector_1_time], the best times are numbered s1, s2 and the weights
    s2, s3, so the best time stored under s1 is left out of [siwtl_lap].
    The only applied weight is 0.68, yet [siwtl_lap] (about 73.2) is below
    [theoretical_best_lap] (95.3). *)
Theorem C2_sector_left_out (now : string) :
  exists r siwtl tb,
    calculate_siwtl pd_std np_std default_calculator now
      sample_laps (Some sample_sectors_2_3) None = Returns r
    /\ dict_get "sector_analysis" r
       = Some (pydict_of analysis_to_py
                 [("s2"%string,
                   {| best_time := 49.8; achievability_weight := 0.68;
                      realistic_time := 49.8 / Qmax 0.68 0.1 |})])
    /\ has_number r "siwtl_lap" siwtl
    /\ has_number r "theoretical_best_lap" tb
    /\ siwtl < tb.
Proof.
  eexists. exists (49.8 / 0.68), 95.3.
  split; [reflexivity|].
  split; [reflexivity|].
  split; [eexists; split; [reflexivity | reflexivity]|].
  split; [eexists; split; [reflexivity | reflexivity]|].
  reflexivity.
Qed.

End SIWTL_composer.

(* ================================================================== *)
(** ** Determinism of the two engines *)
(* ================================================================== *)

Lemma dict_get_set {A : Type} (k k' : string) (v : A) (d : list (string * A)) :
  dict_get k (dict_set k' v d) = if String.eqb k k' then Some v else dict_get k d.
Proof.
  destruct (String.eqb_spec k k') as [-> | Hne].
  - apply dict_get_set_same.
  - apply dict_get_set_other. exact Hne.
Qed.


Section Determinism.

Variable pd_std : list Q -> Q.
Variable np_std : list Q -> Q.
Variable calculator : SIWTL.SIWTLCalculator.
Variable butter : nat -> list Q -> DPTAD.btype -> outcome (list Q * list Q).
Variable filtfilt : list Q -> list Q -> list Q -> outcome (list Q).
Variable detector : DPTAD.DPTADDetector.



End Determinism.

(* ================================================================== *)
(** ** The composer on complete sector tables *)
(* ================================================================== *)

Lemma dict_set_In {A : Type} (k k' : string) (v v' : A) (d : list (string * A)) :
  In (k', v') (dict_set k v d) -> (k', v') = (k, v) \/ In (k', v') d.
Proof.
  induction d as [|[k0 v0] d IH]; simpl.
  - intros [H | []]. left. symmetry. exact H.
  - destruct (String.eqb k k0); simpl.
    + intros [H | H]; [left; symmetry; exact H | right; right; exact H].
    + intros [H | H]; [right; left; exact H|].
      destruct (IH H) as [E | Hin]; [left; exact E | right; right; exact Hin].
Qed.

Lemma valid_sector_time_bounds (x : Q) : SIWTL.valid_sector_time x = true -> 20 < x.
Proof.
  unfold SIWTL.valid_sector_time. intro H. apply andb_prop in H.
  apply Qlt_bool_iff. tauto.
Qed.

Lemma dropna_select_In (p : Q -> bool) (s : Series) (x : Q) :
  In x (dropna (series_select p s)) -> p x = true.
Proof.
  unfold dropna, series_select. intro H. apply in_flat_map in H.
  destruct H as [[i c] [Hin Hx]]. apply filter_In in Hin. destruct Hin as [_ Hp].
  simpl in *. destruct c as [y|]; [|destruct Hx].
  destruct Hx as [<- | []]. exact Hp.
Qed.

Lemma fold_left_invariant {A B : Type} (f : B -> A -> B) (P : B -> Prop) (l : list A) :
  (forall acc a, In a l -> P acc -> P (f acc a)) ->
  forall acc, P acc -> P (fold_left f l acc).
Proof.
  induction l as [|a l IH]; intros Hstep acc Hacc; simpl; [exact Hacc|].
  apply IH.
  - intros acc' a' Hin. apply Hstep. right. exact Hin.
  - apply Hstep; [left; reflexivity | exact Hacc].
Qed.

Lemma enumerate_In {A : Type} (l : list A) :
  forall start i x, In (i, x) (enumerate start l) ->
    (start <= i < start + length l)%nat.
Proof.
  induction l as [|y l IH]; intros start i x H; simpl in H; [destruct H|].
  destruct H as [E | H].
  - injection E as <- _. simpl. lia.
  - apply IH in H. simpl. lia.
Qed.

Section SIWTL_complete_tables.

Import SIWTL.

Variable pd_std : list Q -> Q.
Variable np_std : list Q -> Q.
Variable self : SIWTLCalculator.

Lemma theoretical_best_entries (valid_laps : DataFrame) (sector_data : option DataFrame) :
  Forall plausible_best
    (tb_sector_bests (_calculate_theoretical_best valid_laps sector_data)).
Proof.
  unfold _calculate_theoretical_best.
  destruct sector_data as [sd|]; [|constructor].
  destruct (0 <? df_len sd)%nat; [|constructor].
  set (available := filter (col_in sd) sector_cols).
  destruct (2 <=? length available)%nat; [|constructor].
  set (bests := fold_left _ (enumerate 1 available) []).
  assert (Hb : Forall plausible_best bests).
  { unfold bests. apply fold_left_invariant; [|constructor].
    intros acc [i c] Hin Hacc. cbn [fst snd].
    set (valid_times := dropna (series_select valid_sector_time (get_col sd c))).
    destruct (Nat.ltb_spec 0 (length valid_times)) as [Hpos | _]; [|exact Hacc].
    apply Forall_forall. intros [k b] Hkb. apply dict_set_In in Hkb.
    destruct Hkb as [E | Hkb]; [|exact (proj1 (Forall_forall _ _) Hacc _ Hkb)].
    injection E as -> ->. split; cbn [fst snd].
    - apply Qlist_min_lower.
      + intro E. rewrite E in Hpos. simpl in Hpos. lia.
      + intros x Hx. apply Qlt_le_weak. apply valid_sector_time_bounds.
        exact (dropna_select_In _ _ _ Hx).
    - apply enumerate_In in Hin.
      assert (Hlen : (length available <= 3)%nat)
        by (unfold available; apply (filter_length_le (col_in sd) sector_cols)).
      assert (Hi : i = 1%nat \/ i = 2%nat \/ i = 3%nat) by lia.
      destruct Hi as [-> | [-> | ->]]; simpl; tauto. }
  destruct (2 <=? length bests)%nat; [exact Hb | constructor].
Qed.

(** The theoretical best lap is the sum of the best sector times when there
    are some, and is not negative when it is the best valid lap. *)
Lemma theoretical_best_value (valid_laps : DataFrame) (sector_data : option DataFrame) :
  let tb := _calculate_theoretical_best valid_laps sector_data in
  (tb_sector_bests tb <> [] ->
   tb_theoretical_best_lap tb = Qsum (dict_values (tb_sector_bests tb)) * 1000 / 1000)
  /\ (tb_sector_bests tb = [] ->
      tb_theoretical_best_lap tb
      = Qlist_min (dropna (get_col valid_laps "lap_time_ms")) / 1000).
Proof.
  cbv zeta. unfold _calculate_theoretical_best.
  assert (Hfallback : forall t,
            tb_sector_bests t = [] ->
            tb_theoretical_best_lap t
            = Qlist_min (dropna (get_col valid_laps "lap_time_ms")) / 1000 ->
            (tb_sector_bests t <> [] ->
             tb_theoretical_best_lap t = Qsum (dict_values (tb_sector_bests t)) * 1000 / 1000)
            /\ (tb_sector_bests t = [] ->
                tb_theoretical_best_lap t
                = Qlist_min (dropna (get_col valid_laps "lap_time_ms")) / 1000)).
  { intros t H0 H1. split; [intro Hne; contradiction | intros _; exact H1]. }
  destruct sector_data as [sd|]; [|apply Hfallback; reflexivity].
  destruct (0 <? df_len sd)%nat; [|apply Hfallback; reflexivity].
  destruct (2 <=? length (filter (col_in sd) sector_cols))%nat;
    [|apply Hfallback; reflexivity].
  set (bests := fold_left _ _ []).
  destruct (Nat.leb_spec 2 (length bests)) as [H2 | _];
    [|apply Hfallback; reflexivity].
  cbn [tb_sector_bests tb_theoretical_best_lap].
  split; [reflexivity|]. intro E. rewrite E in H2. simpl in H2. lia.
Qed.

(** With the three sector columns in the table, every sector has a weight. *)
Lemma sector_weights_complete (valid_laps sd : DataFrame)
    (telemetry_data : option Telemetry) :
  (0 < df_len sd)%nat ->
  forallb (col_in sd) sector_cols = true ->
  forall k, In k ["s1"; "s2"; "s3"]%string ->
    exists w,
      dict_get k (_calculate_sector_weights pd_std np_std self valid_laps
                    (Some sd) telemetry_data) = Some w.
Proof.
  intros Hlen Hcols k Hk. unfold _calculate_sector_weights.
  apply Nat.ltb_lt in Hlen. rewrite Hlen.
  cbn [forallb sector_cols] in Hcols.
  apply andb_prop in Hcols. destruct Hcols as [H1 Hcols].
  apply andb_prop in Hcols. destruct Hcols as [H2 Hcols].
  apply andb_prop in Hcols. destruct Hcols as [H3 _].
  cbn [enumerate sector_cols fold_left fst snd]. rewrite H1, H2, H3.
  destruct Hk as [<- | [<- | [<- | []]]]; eexists; reflexivity.
Qed.

(** What C2 states holds on every sector table that has the three sector
    columns: if all the weights are at most 1, [siwtl_lap] is at least
    [theoretical_best_lap]. *)
Lemma siwtl_ge_theoretical_on_complete_table (now : string)
    (driver_data sd : DataFrame) (telemetry_data : option Telemetry) :
  df_wf driver_data ->
  forallb (col_in driver_data) required_columns = true ->
  (5 <= valid_lap_count driver_data)%nat ->
  (0 < df_len sd)%nat ->
  forallb (col_in sd) sector_cols = true ->
  (forall k w,
     In (k, w) (_calculate_sector_weights pd_std np_std self
                  (df_select driver_data
                     (map (cell_test valid_lap_time) (col_cells driver_data "lap_time_ms")))
                  (Some sd) telemetry_data) ->
     combined_weight w <= 1) ->
  exists r siwtl tb,
    calculate_siwtl pd_std np_std self now driver_data (Some sd) telemetry_data
    = Returns r
    /\ has_number r "siwtl_lap" siwtl
    /\ has_number r "theoretical_best_lap" tb
    /\ tb <= siwtl.
Proof.
  intros Hwf Hreq H5 Hlen Hcols Hle.
  pose proof (required_columns_lap_time _ Hreq) as Hcol.
  unfold calculate_siwtl. rewrite Hreq. simpl negb. cbv iota.
  rewrite (valid_laps_len _ Hwf Hcol).
  destruct (Nat.ltb_spec (valid_lap_count driver_data) 5) as [Hlt | _]; [lia|].
  set (valid_laps := df_select driver_data _).
  set (tb := _calculate_theoretical_best valid_laps (Some sd)).
  set (ws := _calculate_sector_weights pd_std np_std self valid_laps (Some sd) telemetry_data).
  pose proof (theoretical_best_entries valid_laps (Some sd)) as Hent. fold tb in Hent.
  destruct (theoretical_best_value valid_laps (Some sd)) as [Hsum Hlap].
  fold tb in Hsum, Hlap.
  assert (Htb : 0 <= tb_theoretical_best_lap tb).
  { destruct (tb_sector_bests tb) as [|kb bests] eqn:Eb.
    - rewrite (Hlap eq_refl). unfold valid_laps.
      rewrite (valid_laps_times _ Hwf Hcol).
      eapply Qle_trans; [|apply best_lap_positive; unfold valid_lap_count in H5; lia].
      discriminate.
    - rewrite Hsum by discriminate.
      apply Qle_shift_div_l; [reflexivity|].
      assert (H0 : 0 <= Qsum (dict_values (kb :: bests))).
      { eapply Qle_trans; [|apply (Qsum_ge_const 0)].
        - lra.
        - intros x Hx. unfold dict_values in Hx. apply in_map_iff in Hx.
          destruct Hx as [[k b] [<- Hin]].
          destruct (proj1 (Forall_forall _ _) Hent _ Hin) as [Hb _].
          cbn [snd] in *. lra. }
      lra. }
  destruct (compute_siwtl_ge_when_covered tb ws valid_laps Htb) as [siwtl [Hs Hge]].
  - intro Hne. rewrite (Hsum Hne). reflexivity.
  - intros k b Hin.
    destruct (proj1 (Forall_forall _ _) Hent _ Hin) as [Hb Hk]. cbn [fst snd] in *.
    split; [lra|]. exact (sector_weights_complete valid_laps sd telemetry_data Hlen Hcols k Hk).
  - intros k w Hin. exact (Hle k w Hin).
  - destruct (compute_siwtl_fields tb ws valid_laps) as [Ht _].
    destruct Hs as [q [Hq Eq]].
    eexists. exists siwtl, (tb_theoretical_best_lap tb).
    split; [reflexivity|]. unfold dict_update. cbn [fold_left fst snd].
    split; [|split; [|exact Hge]].
    + exists q. split; [|exact Eq]. rewrite !dict_get_set. exact Hq.
    + eexists. split; [|reflexivity]. rewrite !dict_get_set. exact Ht.
Qed.

End SIWTL_complete_tables.

(* ================================================================== *)
(** ** The anomaly engine: summary *)
(* ================================================================== *)

Lemma unique_str_In (l : list string) (x : string) : In x (unique_str l) <-> In x l.
Proof.
  induction l as [|y l IH]; simpl; [tauto|].
  rewrite filter_In, IH, negb_true_iff.
  destruct (String.eqb_spec y x) as [-> | Hne]; split; intro H.
  - left. reflexivity.
  - left. reflexivity.
  - destruct H as [H | [H _]]; [contradiction | right; exact H].
  - destruct H as [H | H]; [contradiction | right; split; [exact H | reflexivity]].
Qed.

Lemma unique_str_NoDup (l : list string) : NoDup (unique_str l).
Proof.
  induction l as [|y l IH]; simpl; constructor.
  - rewrite filter_In, negb_true_iff. intros [_ H].
    rewrite String.eqb_refl in H. discriminate.
  - apply NoDup_filter. exact IH.
Qed.

Lemma high_severity_rows_count (l : list DPTAD.Anomaly) :
  length (DPTAD.high_severity_rows l) = count_high l.
Proof.
  unfold DPTAD.high_severity_rows. induction l as [|a l IH]; simpl; [reflexivity|].
  destruct (Qlt_le_dec 5 (DPTAD.severity a)) as [Hlt | Hle].
  - apply Qlt_bool_iff in Hlt. rewrite Hlt. simpl. rewrite IH. reflexivity.
  - apply Qlt_bool_false_iff in Hle. rewrite Hle. exact IH.
Qed.

Lemma mean_is_mean (l : list Q) : l <> [] -> is_mean_of (mean l) l.
Proof.
  intro H. unfold is_mean_of, mean. field.
  pose proof (length_pos_Q l H). lra.
Qed.

Lemma Qlist_max_is_max (l : list Q) : l <> [] -> is_max_of (Qlist_max l) l.
Proof.
  intro H. split.
  - destruct (Qlist_max_attained l H) as [y [Hy E]]. exists y. tauto.
  - intros x Hx. apply Qlist_max_ge. exact Hx.
Qed.

(** C8, as stated, fails on the empty list: its summary has neither the key
    [high_severity_count] nor the key [severity_max]. *)
Lemma C8_empty_summary_lacks_keys :
  dict_get "high_severity_count" (DPTAD.get_anomaly_summary []) = None
  /\ dict_get "severity_max" (DPTAD.get_anomaly_summary []) = None.
Proof. split; reflexivity. Qed.

(** C8 (amended): for every non-empty list of reconciled anomalies the
    summary holds the total count, the mean severity, the greatest severity,
    [high_severity_count] equal to the number of anomalies of severity
    strictly above 5.0, the distinct signals involved and a recommendation.
    For the empty list it holds the total 0, the mean severity 0, no types,
    no signals and the fixed message "No anomalies detected. Performance is
    consistent."; the keys [severity_max] and [high_severity_count] are
    absent. *)
Theorem C8_anomaly_summary (l : list DPTAD.Anomaly) :
  let s := DPTAD.get_anomaly_summary l in
  (l <> [] ->
     dict_get "total_anomalies" s = Some (PInt (length l))
     /\ (exists avg, dict_get "severity_avg" s = Some (PFloat avg)
                     /\ is_mean_of avg (map DPTAD.severity l))
     /\ (exists mx, dict_get "severity_max" s = Some (PFloat mx)
                    /\ is_max_of mx (map DPTAD.severity l))
     /\ dict_get "high_severity_count" s = Some (PInt (count_high l))
     /\ (exists sigs, dict_get "signals_affected" s = Some (PList (map PStr sigs))
                      /\ distinct_signals sigs l)
     /\ (exists text, dict_get "recommendation" s = Some (PStr text)))
  /\ (l = [] ->
      s = [("total_anomalies", PInt 0);
           ("severity_avg", PInt 0);
           ("types", PDict []);
           ("signals_affected", PList []);
           ("recommendation",
            PStr "No anomalies detected. Performance is consistent.")]%string).
Proof.
  cbv zeta. split.
  - intro Hne. destruct l as [|a l]; [congruence|].
    assert (Hsev : map DPTAD.severity (a :: l) <> []) by discriminate.
    unfold DPTAD.get_anomaly_summary.
    split; [reflexivity|].
    split; [eexists; split; [reflexivity | apply mean_is_mean; exact Hsev]|].
    split; [eexists; split; [reflexivity | apply Qlist_max_is_max; exact Hsev]|].
    split; [cbn [dict_get String.eqb Ascii.eqb Bool.eqb]; rewrite high_severity_rows_count;
            reflexivity|].
    split.
    + eexists. split; [reflexivity|]. split; [apply unique_str_NoDup|].
      intro s. rewrite unique_str_In, in_map_iff.
      split; intros [x [H1 H2]]; exists x; tauto.
    + eexists. reflexivity.
  - intros ->. reflexivity.
Qed.

(* ================================================================== *)
(** ** The anomaly engine: reconciliation *)
(* ================================================================== *)

Lemma within_window_near (t u : Q) : DPTAD.within_window t u = true <-> near t u.
Proof. unfold DPTAD.within_window, near. apply Qle_bool_iff. Qed.

Lemma near_compat (t u u' : Q) : u == u' -> near t u -> near t u'.
Proof. unfold near. intros E H. rewrite <- E. exact H. Qed.

Lemma timestamp_set_In (l : list Q) (u : Q) : In u (DPTAD.timestamp_set l) -> In u l.
Proof.
  revert u. induction l as [|x l IH]; intros u; simpl; [tauto|].
  intros [-> | H]; [left; reflexivity|].
  apply filter_In in H. right. apply IH. tauto.
Qed.

Lemma timestamp_set_covers (l : list Q) (t : Q) :
  In t l -> exists u, In u (DPTAD.timestamp_set l) /\ u == t.
Proof.
  induction l as [|x l IH]; simpl; [tauto|].
  intros [-> | H].
  - exists t. split; [left; reflexivity | reflexivity].
  - destruct (IH H) as [u [Hu E]].
    destruct (Qeq_bool x u) eqn:Exu.
    + exists x. split; [left; reflexivity|].
      apply Qeq_bool_iff in Exu. rewrite Exu. exact E.
    + exists u. split; [|exact E]. right. apply filter_In.
      split; [exact Hu | rewrite Exu; reflexivity].
Qed.

(** Looking a timestamp up in the set of the fast timestamps is looking it
    up among the fast candidates. *)
Lemma any_fast_time_near (fasts : list DPTAD.FastCandidate) (t : Q) :
  existsb (fun ft => DPTAD.within_window t ft)
    (DPTAD.timestamp_set (map DPTAD.f_timestamp fasts)) = true
  <-> exists f, In f fasts /\ near t (DPTAD.f_timestamp f).
Proof.
  rewrite existsb_exists. split.
  - intros [u [Hu Hw]]. apply timestamp_set_In in Hu. apply in_map_iff in Hu.
    destruct Hu as [f [<- Hf]]. exists f. split; [exact Hf|].
    apply within_window_near. exact Hw.
  - intros [f [Hf Hn]].
    destruct (timestamp_set_covers (map DPTAD.f_timestamp fasts) (DPTAD.f_timestamp f))
      as [u [Hu E]]; [apply in_map; exact Hf|].
    exists u. split; [exact Hu|]. apply within_window_near.
    apply (near_compat t (DPTAD.f_timestamp f)); [symmetry; exact E | exact Hn].
Qed.

Lemma reconcile_fast_spec (slows : list DPTAD.SlowCandidate) (name : string)
    (f : DPTAD.FastCandidate) :
  reconciles_fast slows name f (DPTAD.reconcile_fast slows name f).
Proof.
  unfold reconciles_fast, DPTAD.reconcile_fast.
  set (nearby := filter
         (fun slow => DPTAD.within_window (DPTAD.s_timestamp slow) (DPTAD.f_timestamp f))
         slows).
  assert (Hnear : forall s, In s nearby
            <-> In s slows /\ near (DPTAD.s_timestamp s) (DPTAD.f_timestamp f)).
  { intro s. unfold nearby. rewrite filter_In, within_window_near. tauto. }
  destruct nearby as [|s0 rest] eqn:En; cbn -[Qmax].
  - split; [reflexivity|]. split; [reflexivity|]. split; [reflexivity|]. split.
    + intros [s Hs]. apply Hnear in Hs. destruct Hs.
    + intros _. split; reflexivity.
  - split; [reflexivity|]. split; [reflexivity|]. split; [reflexivity|]. split.
    + intros _.
      set (m := fold_left Qmax (map DPTAD.s_severity rest) (DPTAD.s_severity s0)).
      assert (Hm : is_max_of m (map DPTAD.s_severity (s0 :: rest))).
      { apply (Qlist_max_is_max (map DPTAD.s_severity (s0 :: rest))). discriminate. }
      destruct Hm as [[y [Hy Ey]] Hub].
      split; [reflexivity|]. split; [apply Q.le_max_l|]. split.
      * intros s Hs Hn. eapply Qle_trans; [|apply Q.le_max_r].
        apply Hub. apply in_map. apply Hnear. tauto.
      * destruct (Q.max_dec (DPTAD.f_severity f) m) as [E | E].
        -- left. exact E.
        -- right. apply in_map_iff in Hy. destruct Hy as [s [<- Hs]].
           apply Hnear in Hs. exists s. split; [tauto|]. split; [tauto|].
           rewrite E. exact Ey.
    + intro Hno. exfalso. apply Hno. exists s0. apply Hnear. left. reflexivity.
Qed.

Lemma reconcile_slow_spec (name : string) (s : DPTAD.SlowCandidate) :
  reconciles_slow name s (DPTAD.reconcile_slow name s).
Proof. repeat split. Qed.

Lemma Forall2_map_spec {A B : Type} (R : A -> B -> Prop) (g : A -> B) (l : list A) :
  (forall x, R x (g x)) -> Forall2 R l (map g l).
Proof. intro H. induction l; simpl; constructor; auto. Qed.

Lemma selects_filter {A : Type} (P : A -> Prop) (p : A -> bool) (l : list A) :
  (forall x, p x = true <-> P x) -> selects P l (filter p l).
Proof.
  intro H. induction l as [|x l IH]; simpl; [constructor|].
  destruct (p x) eqn:E.
  - apply selects_keep; [apply H; exact E | exact IH].
  - apply selects_drop; [|exact IH]. intro HP. apply H in HP. congruence.
Qed.

(** C6: the reconciled list is the anomalies of the fast-path candidates, in
    order, followed by one "degradation" anomaly for each slow-path
    candidate that no fast-path candidate is near.  A fast-path candidate
    with a slow-path candidate within 10 time units is "compound" with the
    greatest of its own and the matched slow severities; without one it is
    "driver_mistake" with its own severity. *)
Theorem C6_reconcile_paths (slows : list DPTAD.SlowCandidate)
    (fasts : list DPTAD.FastCandidate) (name : string) :
  exists from_fast isolated_slows from_slow,
    DPTAD._reconcile_paths slows fasts name = from_fast ++ from_slow
    /\ Forall2 (reconciles_fast slows name) fasts from_fast
    /\ selects (isolated fasts) slows isolated_slows
    /\ Forall2 (reconciles_slow name) isolated_slows from_slow.
Proof.
  unfold DPTAD._reconcile_paths.
  set (lonely := filter
         (fun slow =>
            negb (existsb (fun ft => DPTAD.within_window (DPTAD.s_timestamp slow) ft)
                    (DPTAD.timestamp_set (map DPTAD.f_timestamp fasts)))) slows).
  exists (map (DPTAD.reconcile_fast slows name) fasts), lonely,
         (map (DPTAD.reconcile_slow name) lonely).
  split; [reflexivity|]. split; [|split].
  - apply Forall2_map_spec. apply reconcile_fast_spec.
  - unfold lonely. apply selects_filter. intro s. cbv beta. rewrite negb_true_iff.
    pose proof (any_fast_time_near fasts (DPTAD.s_timestamp s)) as Hany.
    unfold isolated.
    destruct (existsb (fun ft => DPTAD.within_window (DPTAD.s_timestamp s) ft)
                (DPTAD.timestamp_set (map DPTAD.f_timestamp fasts))).
    + split; [discriminate|]. intro H. exfalso.
      destruct (proj1 Hany eq_refl) as [f [Hf Hn]]. exact (H f Hf Hn).
    + split; [|reflexivity]. intros _ f Hf Hn.
      assert (E : false = true) by (apply Hany; exists f; tauto).
      discriminate E.
  - apply Forall2_map_spec. apply reconcile_slow_spec.
Qed.

(* ================================================================== *)
(** ** The anomaly engine: severities *)
(* ================================================================== *)

Lemma insert_desc_perm {A : Type} (ge : A -> A -> bool) (x : A) (l : list A) :
  Permutation (x :: l) (insert_desc ge x l).
Proof.
  induction l as [|y l IH]; simpl.
  - apply Permutation_refl.
  - destruct (ge x y).
    + apply Permutation_refl.
    + eapply perm_trans; [apply perm_swap|]. apply perm_skip. exact IH.
Qed.

Lemma sort_desc_perm {A : Type} (ge : A -> A -> bool) (l : list A) :
  Permutation l (sort_desc ge l).
Proof.
  unfold sort_desc. induction l as [|x l IH]; simpl.
  - apply perm_nil.
  - eapply perm_trans; [apply perm_skip; exact IH | apply insert_desc_perm].
Qed.

Lemma severity_ratio_range (x threshold : Q) :
  0 <= x -> 0 <= threshold -> in_0_10 (DPTAD.severity_ratio x threshold).
Proof.
  intros Hx Ht. unfold DPTAD.severity_ratio, in_0_10.
  destruct (Qeq_bool threshold 0) eqn:E.
  - split; discriminate.
  - assert (Hpos : 0 < threshold).
    { apply Qeq_bool_neq in E. apply Qle_lteq in Ht. destruct Ht as [Ht | Ht].
      - exact Ht.
      - exfalso. apply E. symmetry. exact Ht. }
    split.
    + apply Q.min_glb; [|discriminate].
      apply Qle_shift_div_l; [exact Hpos | lra].
    + apply Q.le_min_r.
Qed.

Lemma in_0_10_max (x y : Q) : in_0_10 x -> in_0_10 y -> in_0_10 (Qmax x y).
Proof.
  unfold in_0_10. intros [Hx0 Hx1] [Hy0 Hy1]. split.
  - eapply Qle_trans; [exact Hx0 | apply Q.le_max_l].
  - apply Q.max_lub; assumption.
Qed.

Lemma in_0_10_list_max (l : list Q) :
  l <> [] -> (forall x, In x l -> in_0_10 x) -> in_0_10 (Qlist_max l).
Proof.
  intros Hne H. split.
  - destruct l as [|x l]; [congruence|].
    eapply Qle_trans; [|apply Qlist_max_ge; left; reflexivity].
    apply (H x). left. reflexivity.
  - apply Qlist_max_upper; [exact Hne|]. intros x Hx. apply (H x Hx).
Qed.

Lemma reconcile_fast_range (slows : list DPTAD.SlowCandidate) (name : string)
    (f : DPTAD.FastCandidate) :
  (forall s, In s slows -> in_0_10 (DPTAD.s_severity s)) ->
  in_0_10 (DPTAD.f_severity f) ->
  in_0_10 (DPTAD.severity (DPTAD.reconcile_fast slows name f)).
Proof.
  intros Hs Hf. unfold DPTAD.reconcile_fast.
  set (nearby := filter
         (fun slow => DPTAD.within_window (DPTAD.s_timestamp slow) (DPTAD.f_timestamp f))
         slows).
  assert (Hnear : forall s, In s nearby -> In s slows)
    by (intros s H; unfold nearby in H; apply filter_In in H; tauto).
  destruct nearby as [|s0 rest] eqn:En; cbn -[Qmax Qlist_max map].
  - exact Hf.
  - apply in_0_10_max; [exact Hf|].
    apply in_0_10_list_max; [discriminate|].
    intros x Hx. apply in_map_iff in Hx. destruct Hx as [s [<- Hin]].
    apply Hs. apply Hnear. exact Hin.
Qed.

Section DPTAD_severity.

Import DPTAD.

Variable butter : nat -> list Q -> btype -> outcome (list Q * list Q).
Variable filtfilt : list Q -> list Q -> list Q -> outcome (list Q).
Variable np_std : list Q -> Q.
Variable self : DPTADDetector.

(** A standard deviation is never negative, and the two thresholds of the
    detector are not negative (as the defaults 0.15 and 3.0). *)
Hypothesis np_std_nonneg : forall l, 0 <= np_std l.
Hypothesis drift_threshold_nonneg : 0 <= drift_threshold self.
Hypothesis spike_threshold_nonneg : 0 <= spike_threshold self.

Lemma detect_drift_range (x ts : list Q) (name : string) (c : SlowCandidate) :
  In c (detect_drift np_std self x ts name) -> in_0_10 (s_severity c).
Proof.
  unfold detect_drift.
  destruct (Nat.min (length x / 10) 50 <? 5)%nat; [intros []|].
  intro H. apply in_flat_map in H. destruct H as [i [_ H]].
  unfold drift_point in H.
  destruct (nth i _ None); [|destruct H].
  destruct (nanmean (slice (i - _) i _)) as [recent|]; [|destruct H].
  destruct (nanmean (slice i (i + _) _)) as [current|]; [|destruct H].
  destruct (Qlt_bool _ _); [|destruct H].
  destruct H as [<- | []]. cbn [s_severity].
  apply severity_ratio_range.
  - apply Qabs_nonneg.
  - apply Qmult_le_0_compat; [apply np_std_nonneg | exact drift_threshold_nonneg].
Qed.

Lemma slow_path_range (signal_data ts : list Q) (name : string) (c : SlowCandidate) :
  In c (_slow_path_analysis butter filtfilt np_std self signal_data ts name) ->
  in_0_10 (s_severity c).
Proof.
  unfold _slow_path_analysis.
  destruct (length signal_data =? 0)%nat; [intros []|].
  destruct (design_and_filter _ _ _ _ _) as [e | [filtered|]]; try (intros []).
  apply detect_drift_range.
Qed.

Lemma detect_spikes_range (x signal_data ts : list Q) (name : string)
    (c : FastCandidate) :
  In c (detect_spikes np_std self x signal_data ts name) -> in_0_10 (f_severity c).
Proof.
  unfold detect_spikes. intro H. apply in_map_iff in H.
  destruct H as [group [<- _]]. cbn [f_severity].
  apply severity_ratio_range.
  - apply Qabs_nonneg.
  - apply Qmult_le_0_compat; [apply np_std_nonneg | exact spike_threshold_nonneg].
Qed.

Lemma fast_path_range (signal_data ts : list Q) (name : string) (c : FastCandidate) :
  In c (_fast_path_analysis butter filtfilt np_std self signal_data ts name) ->
  in_0_10 (f_severity c).
Proof.
  unfold _fast_path_analysis.
  destruct (length signal_data =? 0)%nat; [intros []|].
  destruct (design_and_filter _ _ _ band_pass _) as [[m | m] | [filtered|]];
    try (intros []).
  - destruct (design_and_filter _ _ _ high_pass _) as [e | [filtered|]];
      try (intros []).
    apply detect_spikes_range.
  - apply detect_spikes_range.
Qed.

Lemma reconcile_paths_range (slows : list SlowCandidate) (fasts : list FastCandidate)
    (name : string) (a : Anomaly) :
  (forall s, In s slows -> in_0_10 (s_severity s)) ->
  (forall f, In f fasts -> in_0_10 (f_severity f)) ->
  In a (_reconcile_paths slows fasts name) -> in_0_10 (severity a).
Proof.
  intros Hs Hf H. unfold _reconcile_paths in H. apply in_app_or in H.
  destruct H as [H | H]; apply in_map_iff in H.
  - destruct H as [f [<- Hin]]. apply reconcile_fast_range; [exact Hs | exact (Hf f Hin)].
  - destruct H as [s [<- Hin]]. apply filter_In in Hin. simpl. apply Hs. tauto.
Qed.

(** C3: every severity that the anomaly engine produces lies in [0, 10]:
    that of a slow-path drift candidate, that of a fast-path spike
    candidate, and that of a reconciled anomaly of [detect_anomalies]
    ("driver_mistake", "degradation" or "compound"). *)
Theorem C3_severity_in_0_10 :
  (forall signal_data ts name c,
     In c (_slow_path_analysis butter filtfilt np_std self signal_data ts name) ->
     in_0_10 (s_severity c))
  /\ (forall signal_data ts name c,
        In c (_fast_path_analysis butter filtfilt np_std self signal_data ts name) ->
        in_0_10 (f_severity c))
  /\ (forall telemetry_data signals a,
        In a (detect_anomalies butter filtfilt np_std self telemetry_data signals) ->
        in_0_10 (severity a)).
Proof.
  split; [exact slow_path_range|]. split; [exact fast_path_range|].
  intros telemetry_data signals a H.
  unfold detect_anomalies in H.
  destruct telemetry_data as [t|]; [|destruct H].
  destruct (telemetry_len t =? 0)%nat; [destruct H|].
  set (sigs := match signals with Some l => l | None => default_signals end) in H.
  assert (Hin : In a (flat_map (analyze_signal butter filtfilt np_std self t) sigs)).
  { destruct (flat_map _ sigs) as [|a0 rest] eqn:E; [destruct H|].
    unfold sort_by_severity in H.
    eapply Permutation_in; [apply Permutation_sym; apply sort_desc_perm | exact H]. }
  apply in_flat_map in Hin. destruct Hin as [name [_ Hin]].
  unfold analyze_signal in Hin.
  destruct (dict_get name t) as [signal_data|]; [|destruct Hin].
  eapply reconcile_paths_range; [| |exact Hin].
  - intros s. apply slow_path_range.
  - intros f. apply fast_path_range.
Qed.

End DPTAD_severity.

(* ================================================================== *)
(** ** The anomaly engine: drift detection *)
(* ================================================================== *)










Section DPTAD_drift.

Import DPTAD.

Variable butter : nat -> list Q -> btype -> outcome (list Q * list Q).
Variable filtfilt : list Q -> list Q -> list Q -> outcome (list Q).
Variable np_std : list Q -> Q.
Variable self : DPTADDetector.



End DPTAD_drift.

(* ================================================================== *)
(** ** The anomaly engine: spike detection *)
(* ================================================================== *)

(** Every group is non-empty and made of flagged indices. *)
Lemma group_spikes_sound (spike_indices : list nat) (min_separation : nat)
    (group : list nat) :
  In group (DPTAD._group_spikes spike_indices min_separation) ->
  group <> [] /\ forall i, In i group -> In i spike_indices.
Proof.
  unfold DPTAD._group_spikes. destruct spike_indices as [|first rest]; [intros []|].
  set (good := fun g : list nat => g <> [] /\ forall i, In i g -> In i (first :: rest)).
  assert (Hinv : let '(groups, current_group, _) :=
                   fold_left (DPTAD.group_step min_separation) rest ([], [first], first) in
                 Forall good groups /\ good current_group).
  { apply (fold_left_invariant (DPTAD.group_step min_separation)
             (fun acc => let '(groups, current_group, _) := acc in
                         Forall good groups /\ good current_group)).
    - intros [[groups current] prev] idx Hidx [Hg Hc]. unfold DPTAD.group_step.
      destruct (idx - prev <=? min_separation)%nat.
      + split; [exact Hg|]. split.
        * intro E. apply app_eq_nil in E. destruct E as [_ E]. discriminate E.
        * intros i Hi. apply in_app_or in Hi. destruct Hi as [Hi | [<- | []]].
          -- apply Hc. exact Hi.
          -- right. exact Hidx.
      + split.
        * apply Forall_app. split; [exact Hg | constructor; [exact Hc | constructor]].
        * split; [discriminate|]. intros i [<- | []]. right. exact Hidx.
    - split; [constructor|]. split; [discriminate|].
      intros i [<- | []]. left. reflexivity. }
  destruct (fold_left _ rest _) as [[groups current] prev].
  destruct Hinv as [Hg Hc]. intro Hin. apply in_app_or in Hin.
  destruct Hin as [Hin | [<- | []]].
  - exact (proj1 (Forall_forall _ _) Hg _ Hin).
  - exact Hc.
Qed.

Lemma peak_index_In (filtered_signal : list Q) (group : list nat) :
  group <> [] -> In (DPTAD.peak_index filtered_signal group) group.
Proof.
  destruct group as [|i rest]; [congruence|]. intros _. unfold DPTAD.peak_index.
  assert (H : forall l best, In (fold_left
              (fun best j =>
                 if Qlt_bool (Qabs (nth best filtered_signal 0))
                             (Qabs (nth j filtered_signal 0))
                 then j else best) l best) (best :: l)).
  { induction l as [|j l IH]; intro best; simpl; [left; reflexivity|].
    destruct (Qlt_bool _ _).
    - right. apply IH.
    - destruct (IH best) as [E | Hin]; [left; exact E | right; right; exact Hin]. }
  apply H.
Qed.

(** A spike candidate stands at a sample whose magnitude exceeds the
    threshold, so its severity is computed from a positive magnitude. *)
Lemma spike_exceeds_threshold (np_std : list Q -> Q) (self : DPTAD.DPTADDetector)
    (x signal_data ts : list Q) (name : string) (c : DPTAD.FastCandidate) :
  In c (DPTAD.detect_spikes np_std self x signal_data ts name) ->
  np_std x * DPTAD.spike_threshold self < DPTAD.f_spike_magnitude c.
Proof.
  unfold DPTAD.detect_spikes. intro H. apply in_map_iff in H.
  destruct H as [group [<- Hg]]. cbn [DPTAD.f_spike_magnitude].
  apply group_spikes_sound in Hg. destruct Hg as [Hne Hsub].
  pose proof (Hsub _ (peak_index_In x group Hne)) as Hpeak.
  unfold DPTAD.spike_indices_of in Hpeak. apply filter_In in Hpeak.
  apply Qlt_bool_iff. tauto.
Qed.

(* ================================================================== *)
(** ** The shared instances *)
(* ================================================================== *)

Section Singleton_properties.

Import Singleton.

Lemma run_app (a b : list nat) (s : state) : run (a ++ b) s = run b (run a s).
Proof.
  revert s. induction a as [|i a IH]; intro s; simpl; [reflexivity|].
  destruct (step_thread i s); apply IH.
Qed.

Lemma run_steps (schedule : list nat) (s : state) : steps s (run schedule s).
Proof.
  revert s. induction schedule as [|i rest IH]; intro s; simpl.
  - apply steps_refl.
  - destruct (step_thread i s) as [s'|] eqn:E.
    + eapply steps_cons; [exact (step_intro i s s' E) | apply IH].
    + apply IH.
Qed.

Lemma nth_error_mid {A : Type} (l1 l2 : list A) (x : A) :
  nth_error (l1 ++ x :: l2) (length l1) = Some x.
Proof. induction l1 as [|y l1 IH]; simpl; [reflexivity | exact IH]. Qed.

Lemma set_nth_mid {A : Type} (l1 l2 : list A) (x y : A) :
  set_nth (length l1) y (l1 ++ x :: l2) = l1 ++ y :: l2.
Proof. induction l1 as [|z l1 IH]; simpl; [reflexivity | rewrite IH; reflexivity]. Qed.

(** A call made once the global is set reads it and returns it. *)
Lemma later_call (o : nat) (h : list bool) (l1 l2 : list pc) :
  run (call (length l1)) (mkState (Some o) h (l1 ++ at_check :: l2))
  = mkState (Some o) h (l1 ++ done o :: l2).
Proof.
  unfold call. cbn [repeat run].
  unfold step_thread at 1. cbn [threads global heap]. rewrite nth_error_mid, set_nth_mid.
  unfold step_thread at 1. cbn [threads global heap]. rewrite nth_error_mid, set_nth_mid.
  unfold step_thread. cbn [threads global heap]. rewrite nth_error_mid. reflexivity.
Qed.

Lemma later_calls (o : nat) (h : list bool) (m : nat) :
  forall l1,
    run (flat_map call (seq (length l1) m)) (mkState (Some o) h (l1 ++ repeat at_check m))
    = mkState (Some o) h (l1 ++ repeat (done o) m).
Proof.
  induction m as [|m IH]; intro l1; [reflexivity|].
  cbn [seq flat_map repeat]. rewrite run_app, later_call.
  replace (l1 ++ done o :: repeat at_check m)
    with ((l1 ++ [done o]) ++ repeat at_check m) by (rewrite <- app_assoc; reflexivity).
  replace (S (length l1)) with (length (l1 ++ [done o]))
    by (rewrite length_app; simpl; lia).
  rewrite IH. rewrite <- app_assoc. reflexivity.
Qed.

Lemma returned_repeat (o n : nat) (h : list bool) (g : option nat) :
  returned (mkState g h (repeat (done o) n)) = repeat o n.
Proof.
  unfold returned. cbn [threads].
  induction n as [|n IH]; simpl; [reflexivity | rewrite IH; reflexivity].
Qed.

Lemma sequential_run (n : nat) :
  run (sequential (S n)) (initial (S n)) = mkState (Some 0%nat) [true] (repeat (done 0) (S n)).
Proof.
  unfold sequential, initial. cbn [seq flat_map repeat]. rewrite run_app.
  change (run (call 0) (mkState None [] (at_check :: repeat at_check n)))
    with (mkState (Some 0%nat) [true] ([done 0] ++ repeat at_check n)).
  apply (later_calls 0 [true] n [done 0]).
Qed.

Lemma set_nth_In {A : Type} (i : nat) (x y : A) (l : list A) :
  In y (set_nth i x l) -> y = x \/ In y l.
Proof.
  revert i. induction l as [|z l IH]; intros i H; destruct i as [|i]; simpl in H;
    try (destruct H; fail).
  - destruct H as [<- | H]; [left; reflexivity | right; right; exact H].
  - destruct H as [<- | H]; [right; left; reflexivity|].
    destruct (IH _ H) as [-> | H']; [left; reflexivity | right; right; exact H'].
Qed.

Lemma set_nth_length {A : Type} (i : nat) (x : A) (l : list A) :
  length (set_nth i x l) = length l.
Proof.
  revert i. induction l as [|z l IH]; intro i; destruct i; simpl;
    try reflexivity.
  rewrite IH. reflexivity.
Qed.

Lemma set_nth_true_same (o : nat) (h : list bool) :
  (o < length h)%nat -> nth o (set_nth o true h) false = true.
Proof.
  revert o. induction h as [|b h IH]; intros o Ho; simpl in Ho; [lia|].
  destruct o as [|o]; simpl; [reflexivity | apply IH; lia].
Qed.

Lemma set_nth_true_keeps (o o' : nat) (h : list bool) :
  nth o' h false = true -> nth o' (set_nth o true h) false = true.
Proof.
  revert o o'. induction h as [|b h IH]; intros o o' H;
    destruct o as [|o]; destruct o' as [|o']; simpl in *; auto.
Qed.

Lemma app_false_keeps (o : nat) (h : list bool) :
  nth o h false = true -> nth o (h ++ [false]) false = true.
Proof.
  intro H. destruct (Nat.lt_ge_cases o (length h)) as [Hlt | Hge].
  - rewrite app_nth1 by exact Hlt. exact H.
  - rewrite nth_overflow in H by exact Hge. discriminate.
Qed.

Lemma step_keeps_invariant (s s' : state) :
  step s s' -> publishes_initialised s -> publishes_initialised s'.
Proof.
  intros [i s0 s1 Hstep] [Hg Ht]. unfold step_thread in Hstep.
  destruct (nth_error (threads s0) i) as [p|] eqn:Ep; [|discriminate].
  pose proof (Ht p (nth_error_In _ _ Ep)) as Hp.
  unfold publishes_initialised, initialised in *.
  destruct p as [| |o|o| |o].
  - destruct (global s0) as [g|] eqn:Eg; injection Hstep as <-; cbn [global heap threads];
      (split; [exact Hg|]); intros q Hq; apply set_nth_In in Hq;
      destruct Hq as [-> | Hq]; [exact I | exact (Ht q Hq) | exact I | exact (Ht q Hq)].
  - injection Hstep as <-. cbn [global heap threads]. split.
    + intros o Ho. apply app_false_keeps. exact (Hg o Ho).
    + intros q Hq. apply set_nth_In in Hq. destruct Hq as [-> | Hq].
      * rewrite length_app. simpl. lia.
      * specialize (Ht q Hq). destruct q; try exact I.
        -- rewrite length_app. simpl. lia.
        -- apply app_false_keeps. exact Ht.
        -- apply app_false_keeps. exact Ht.
  - injection Hstep as <-. cbn [global heap threads]. split.
    + intros o' Ho'. apply set_nth_true_keeps. exact (Hg o' Ho').
    + intros q Hq. apply set_nth_In in Hq. destruct Hq as [-> | Hq].
      * apply set_nth_true_same. exact Hp.
      * specialize (Ht q Hq). destruct q; try exact I.
        -- rewrite set_nth_length. exact Ht.
        -- apply set_nth_true_keeps. exact Ht.
        -- apply set_nth_true_keeps. exact Ht.
  - injection Hstep as <-. cbn [global heap threads]. split.
    + intros o' Ho'. injection Ho' as <-. exact Hp.
    + intros q Hq. apply set_nth_In in Hq.
      destruct Hq as [-> | Hq]; [exact I | exact (Ht q Hq)].
  - destruct (global s0) as [g|] eqn:Eg; [|discriminate].
    injection Hstep as <-. cbn [global heap threads]. split; [exact Hg|].
    intros q Hq. apply set_nth_In in Hq.
    destruct Hq as [-> | Hq]; [exact (Hg g eq_refl) | exact (Ht q Hq)].
  - discriminate.
Qed.

Lemma initial_invariant (n : nat) : publishes_initialised (initial n).
Proof.
  split.
  - intros o H. discriminate H.
  - intros p Hp. apply repeat_spec in Hp. subst p. exact I.
Qed.

Lemma steps_keep_invariant (s s' : state) :
  steps s s' -> publishes_initialised s -> publishes_initialised s'.
Proof.
  induction 1 as [s | s s1 s2 Hstep _ IH]; intro Hinv; [exact Hinv|].
  apply IH. exact (step_keeps_invariant _ _ Hstep Hinv).
Qed.

(** C10, as stated, fails: two threads that both test the global before
    either assigns it construct two instances, and each returns its own. *)
Lemma C10_concurrent_first_access_duplicates :
  let s := run [0; 1; 0; 0; 0; 0; 1; 1; 1; 1]%nat (initial 2) in
  steps (initial 2) s /\ constructions s = 2%nat /\ returned s = [0; 1]%nat.
Proof.
  cbv zeta. split; [apply run_steps|]. split; reflexivity.
Qed.

(** C10 (amended): the getters test the global and create the instance
    without any guard.  When the calls do not overlap, the instance is
    constructed exactly once and every call returns that instance.  Under
    any interleaving, the instance held by the global and every instance
    returned to a caller has finished its construction. *)
Theorem C10_lazy_instance (n : nat) :
  ((1 <= n)%nat ->
   let s := run (sequential n) (initial n) in
   constructions s = 1%nat /\ returned s = repeat 0%nat n)
  /\ (forall s, steps (initial n) s ->
        (forall o, global s = Some o -> initialised s o)
        /\ (forall o, In o (returned s) -> initialised s o)).
Proof.
  split.
  - intro Hn. destruct n as [|n]; [lia|].
    cbv zeta. rewrite sequential_run. split; [reflexivity|].
    apply returned_repeat.
  - intros s Hs.
    destruct (steps_keep_invariant _ _ Hs (initial_invariant n)) as [Hg Ht].
    split; [exact Hg|].
    intros o Ho. unfold returned in Ho. apply in_flat_map in Ho.
    destruct Ho as [p [Hp Ho]]. specialize (Ht p Hp).
    destruct p; try (destruct Ho).
    + subst. exact Ht.
    + contradiction.
Qed.

End Singleton_properties.

(* ================================================================== *)
(** ** The statements on examples *)
(* ================================================================== *)

(** C9 on the sample lap table, without sector table. *)
Lemma C9_sample_laps_witness :
  df_wf sample_laps
  /\ valid_lap_count sample_laps = 5%nat
  /\ exists (r : dict) (tb : Q),
       SIWTL.calculate_siwtl unit_std unit_std SIWTL.default_calculator
         "2025-01-01T10:00:00" sample_laps None None = Returns r
       /\ has_number r "theoretical_best_lap" tb
       /\ has_number r "siwtl_lap" (3 * tb)
       /\ has_number r "achievability_score" (1 / 3).
Proof.
  assert (Hwf : df_wf sample_laps) by (repeat constructor).
  split; [exact Hwf|]. split; [reflexivity|].
  destruct (C9_no_sector_table unit_std unit_std SIWTL.default_calculator
              "2025-01-01T10:00:00" sample_laps None None Hwf eq_refl)
    as [r [tb [Hr [_ [_ H]]]]].
  - vm_compute. lia.
  - exact I.
  - exists r, tb. split; [exact Hr | exact H].
Defined.

(** C4 on a sector with five valid samples and on one with two. *)
Lemma C4_sample_sectors_witness :
  let w5 := SIWTL._calculate_single_sector_weight unit_std unit_std
              SIWTL.default_calculator (get_col sample_sectors "sector_1_time") 1
              sample_laps None in
  let w2 := SIWTL._calculate_single_sector_weight unit_std unit_std
              SIWTL.default_calculator (get_col sample_sectors_2_3 "sector_2_time") 2
              sample_laps None in
  (valid_sample_count (get_col sample_sectors "sector_1_time") = 5%nat
   /\ SIWTL.combined_weight w5 == weighted_sum SIWTL.default_calculator w5)
  /\ (valid_sample_count (get_col sample_sectors_2_3 "sector_2_time") = 2%nat
      /\ SIWTL.combined_weight w2 == 0.68).
Proof.
  cbv zeta. split; (split; [reflexivity|]).
  - apply (C4_combined_weight unit_std unit_std SIWTL.default_calculator
             (get_col sample_sectors "sector_1_time") 1 sample_laps None).
    vm_compute. lia.
  - rewrite (proj2 (C4_combined_weight unit_std unit_std SIWTL.default_calculator
                      (get_col sample_sectors_2_3 "sector_2_time") 2 sample_laps None)).
    + reflexivity.
    + vm_compute. lia.
Defined.

(** C3 on the step signal, with the default thresholds. *)
Lemma C3_step_signal_witness :
  (forall l, 0 <= unit_std l)
  /\ 0 <= DPTAD.drift_threshold DPTAD.default_detector
  /\ 0 <= DPTAD.spike_threshold DPTAD.default_detector
  /\ Forall (fun a => in_0_10 (DPTAD.severity a))
       (DPTAD.detect_anomalies pass_butter pass_filtfilt unit_std
          DPTAD.default_detector (Some step_telemetry) None).
Proof.
  assert (H1 : forall l, 0 <= unit_std l) by (intro l; discriminate).
  assert (H2 : 0 <= DPTAD.drift_threshold DPTAD.default_detector) by discriminate.
  assert (H3 : 0 <= DPTAD.spike_threshold DPTAD.default_detector) by discriminate.
  split; [exact H1|]. split; [exact H2|]. split; [exact H3|].
  apply Forall_forall. intros a Ha.
  exact (proj2 (proj2 (C3_severity_in_0_10 pass_butter pass_filtfilt unit_std
                         DPTAD.default_detector H1 H2 H3))
           (Some step_telemetry) None a Ha).
Defined.


(** C8 on two anomalies and on none. *)
Lemma C8_sample_anomalies_witness :
  sample_anomalies <> []
  /\ dict_get "total_anomalies" (DPTAD.get_anomaly_summary sample_anomalies)
     = Some (PInt 2)
  /\ dict_get "high_severity_count" (DPTAD.get_anomaly_summary sample_anomalies)
     = Some (PInt (count_high sample_anomalies))
  /\ count_high sample_anomalies = 1%nat
  /\ dict_get "recommendation" (DPTAD.get_anomaly_summary [])
     = Some (PStr "No anomalies detected. Performance is consistent.").
Proof.
  assert (Hne : sample_anomalies <> []) by discriminate.
  destruct (C8_anomaly_summary sample_anomalies) as [Hfull _].
  destruct (Hfull Hne) as [Htotal [_ [_ [Hhigh _]]]].
  destruct (C8_anomaly_summary []) as [_ Hempty].
  split; [exact Hne|]. split; [exact Htotal|]. split; [exact Hhigh|].
  split; [reflexivity|].
  rewrite (Hempty eq_refl). reflexivity.
Defined.

(** C10 on two callers: one after the other, and racing. *)
Lemma C10_two_callers_witness :
  (let s := Singleton.run (Singleton.sequential 2) (Singleton.initial 2) in
   Singleton.constructions s = 1%nat /\ Singleton.returned s = [0; 0]%nat)
  /\ (let s := Singleton.run [0; 1; 0; 0; 0; 0; 1; 1; 1; 1]%nat (Singleton.initial 2) in
      forall o, In o (Singleton.returned s) -> Singleton.initialised s o).
Proof.
  destruct (C10_lazy_instance 2) as [Hseq Hany].
  split.
  - apply Hseq. lia.
  - cbv zeta. apply Hany. apply run_steps.
Defined.

(* ================================================================== *)
(** * Further properties of the anomaly engine *)
(* ================================================================== *)

(** ** Grouping of the flagged samples *)

Lemma chained_snoc (k : nat) (l : list nat) (x : nat) :
  l <> [] -> chained k l -> (x - last l 0 <= k)%nat -> chained k (l ++ [x]).
Proof.
  induction l as [|a l IH]; [congruence|]. intros _ Hc Hx.
  destruct l as [|b l].
  - simpl in *. split; [exact Hx | exact I].
  - destruct Hc as [Hab Hc]. change ((a :: b :: l) ++ [x]) with (a :: (b :: l) ++ [x]).
    change ((b :: l) ++ [x]) with (b :: (l ++ [x])).
    split; [exact Hab|]. change (b :: l ++ [x]) with ((b :: l) ++ [x]).
    apply IH; [discriminate | exact Hc | exact Hx].
Qed.

Lemma last_snoc {A : Type} (l : list A) (x d : A) : last (l ++ [x]) d = x.
Proof.
  induction l as [|a l IH]; [reflexivity|].
  simpl. destruct (l ++ [x]) eqn:E; [destruct l; discriminate | exact IH].
Qed.

Lemma separated_last_grows (k : nat) (gs : list (list nat)) (g : list nat) (x : nat) :
  g <> [] -> separated k (gs ++ [g]) -> separated k (gs ++ [g ++ [x]]).
Proof.
  intro Hg. induction gs as [|g1 gs IH]; intro H; [exact I|].
  destruct gs as [|g2 gs].
  - simpl in *. destruct H as [H _]. split; [|exact I].
    destruct g as [|a g]; [congruence | exact H].
  - destruct H as [H12 H]. split; [exact H12 | exact (IH H)].
Qed.

Lemma separated_new_group (k : nat) (gs : list (list nat)) (g g' : list nat) :
  separated k (gs ++ [g]) -> (k < hd 0 g' - last g 0)%nat ->
  separated k ((gs ++ [g]) ++ [g']).
Proof.
  induction gs as [|g1 gs IH]; intros H Hgap.
  - simpl. split; [exact Hgap | exact I].
  - destruct gs as [|g2 gs].
    + simpl in *. destruct H as [H _]. split; [exact H|]. split; [exact Hgap | exact I].
    + destruct H as [H12 H]. split; [exact H12 | exact (IH H Hgap)].
Qed.

(** What the loop of [_group_spikes] keeps: the closed groups and the
    current one are the samples seen so far, in order; no group is empty;
    neighbours in a group are at most [k] apart and groups more than [k]. *)
Lemma group_fold_invariant (k : nat) (rest : list nat) :
  forall groups current prev seen,
    current <> [] -> last current 0%nat = prev ->
    concat (groups ++ [current]) = seen ->
    Forall (fun g => g <> [] /\ chained k g) (groups ++ [current]) ->
    separated k (groups ++ [current]) ->
    let '(groups', current', _) :=
      fold_left (DPTAD.group_step k) rest (groups, current, prev) in
    concat (groups' ++ [current']) = seen ++ rest
    /\ Forall (fun g => g <> [] /\ chained k g) (groups' ++ [current'])
    /\ separated k (groups' ++ [current']).
Proof.
  induction rest as [|idx rest IH]; intros groups current prev seen Hne Hlast Hcat Hall Hsep.
  - cbn [fold_left]. rewrite app_nil_r. auto.
  - cbn [fold_left]. unfold DPTAD.group_step at 2.
    destruct (Nat.leb_spec (idx - prev) k) as [Hle | Hgt].
    + specialize (IH groups (current ++ [idx]) idx (seen ++ [idx])).
      replace (seen ++ idx :: rest) with ((seen ++ [idx]) ++ rest)
        by (rewrite <- app_assoc; reflexivity).
      apply IH.
      * intro E. apply app_eq_nil in E. destruct E as [_ E]. discriminate E.
      * apply last_snoc.
      * rewrite concat_app in *. simpl in *. rewrite !app_nil_r in *.
        rewrite app_assoc, Hcat. reflexivity.
      * apply Forall_app in Hall. destruct Hall as [Hg Hc].
        apply Forall_app. split; [exact Hg|].
        inversion Hc as [|? ? [_ Hch] _]; subst.
        constructor; [|constructor]. split.
        -- intro E. apply app_eq_nil in E. destruct E as [_ E]. discriminate E.
        -- apply chained_snoc; [exact Hne | exact Hch | exact Hle].
      * apply separated_last_grows; assumption.
    + specialize (IH (groups ++ [current]) [idx] idx (seen ++ [idx])).
      replace (seen ++ idx :: rest) with ((seen ++ [idx]) ++ rest)
        by (rewrite <- app_assoc; reflexivity).
      apply IH.
      * discriminate.
      * reflexivity.
      * rewrite concat_app, Hcat. simpl. reflexivity.
      * apply Forall_app. split; [exact Hall|].
        constructor; [|constructor]. split; [discriminate | exact I].
      * apply separated_new_group; [exact Hsep|]. simpl. rewrite Hlast. exact Hgt.
Qed.

(** X1: [_group_spikes] cuts the flagged indices into consecutive groups:
    the groups, put end to end, are the indices in their order; no group is
    empty; inside a group neighbours are at most [min_separation] apart,
    and each group starts more than [min_separation] after the end of the
    group before it.  Without flagged indices there is no group. *)
Theorem X1_group_spikes_partition (spike_indices : list nat) (min_separation : nat) :
  let groups := DPTAD._group_spikes spike_indices min_separation in
  concat groups = spike_indices
  /\ Forall (fun g => g <> [] /\ chained min_separation g) groups
  /\ separated min_separation groups
  /\ (spike_indices = [] <-> groups = []).
Proof.
  cbv zeta. unfold DPTAD._group_spikes. destruct spike_indices as [|first rest].
  - split; [reflexivity|]. split; [constructor|]. split; [exact I|]. tauto.
  - pose proof (group_fold_invariant min_separation rest [] [first] first [first]) as H.
    destruct (fold_left _ rest _) as [[groups current] prev].
    destruct H as [Hcat [Hall Hsep]].
    + discriminate.
    + reflexivity.
    + reflexivity.
    + constructor; [|constructor]. split; [discriminate | exact I].
    + exact I.
    + split; [exact Hcat|]. split; [exact Hall|]. split; [exact Hsep|].
      split; [discriminate|]. intro E. apply app_eq_nil in E.
      destruct E as [_ E]. discriminate E.
Qed.

(** ** Spike candidates *)

Lemma peak_index_max (filtered_signal : list Q) (group : list nat) (i : nat) :
  In i group ->
  Qabs (nth i filtered_signal 0)
  <= Qabs (nth (DPTAD.peak_index filtered_signal group) filtered_signal 0).
Proof.
  destruct group as [|first rest]; [intros []|]. unfold DPTAD.peak_index.
  set (step := fun best j =>
                 if Qlt_bool (Qabs (nth best filtered_signal 0))
                             (Qabs (nth j filtered_signal 0))
                 then j else best).
  assert (H : forall l best,
            Qabs (nth best filtered_signal 0)
            <= Qabs (nth (fold_left step l best) filtered_signal 0)
            /\ forall j, In j l ->
                 Qabs (nth j filtered_signal 0)
                 <= Qabs (nth (fold_left step l best) filtered_signal 0)).
  { induction l as [|j l IH]; intro best; cbn [fold_left].
    - split; [apply Qle_refl | intros j []].
    - destruct (IH (step best j)) as [H1 H2].
      assert (Hstep : Qabs (nth best filtered_signal 0)
                      <= Qabs (nth (step best j) filtered_signal 0)
                      /\ Qabs (nth j filtered_signal 0)
                         <= Qabs (nth (step best j) filtered_signal 0)).
      { unfold step.
        destruct (Qlt_bool (Qabs (nth best filtered_signal 0))
                           (Qabs (nth j filtered_signal 0))) eqn:E.
        - apply Qlt_bool_iff in E. split; [apply Qlt_le_weak; exact E | apply Qle_refl].
        - apply Qlt_bool_false_iff in E. split; [apply Qle_refl | exact E]. }
      destruct Hstep as [Hb Hj]. split.
      + eapply Qle_trans; [exact Hb | exact H1].
      + intros j' [<- | Hin]; [eapply Qle_trans; [exact Hj | exact H1] | exact (H2 j' Hin)]. }
  intros [E | Hin]; [subst i; apply (proj1 (H rest first)) | apply (proj2 (H rest first)); exact Hin].
Qed.

Lemma spike_indices_of_In (x : list Q) (threshold : Q) (i : nat) :
  In i (DPTAD.spike_indices_of x threshold)
  <-> (i < length x)%nat /\ threshold < Qabs (nth i x 0).
Proof.
  unfold DPTAD.spike_indices_of. rewrite filter_In, in_seq, Qlt_bool_iff.
  split; intros [H1 H2]; (split; [lia | exact H2]).
Qed.

(** X2: the fast path yields one candidate per group of flagged samples, in
    the order of the groups.  The candidate stands at a sample of its
    group; its magnitude exceeds the threshold [stdev * spike_threshold] and
    is the greatest magnitude in the group; its timestamp is that of the
    peak sample.  The flagged samples are exactly those whose magnitude
    exceeds the threshold. *)
Theorem X2_spike_candidates (np_std : list Q -> Q) (self : DPTAD.DPTADDetector)
    (x signal_data ts : list Q) (name : string) :
  let threshold := np_std x * DPTAD.spike_threshold self in
  (forall i, In i (DPTAD.spike_indices_of x threshold)
             <-> (i < length x)%nat /\ threshold < Qabs (nth i x 0))
  /\ Forall2
       (fun group c =>
          exists peak,
            In peak group
            /\ (peak < length x)%nat
            /\ DPTAD.f_spike_magnitude c = Qabs (nth peak x 0)
            /\ threshold < DPTAD.f_spike_magnitude c
            /\ (forall i, In i group -> Qabs (nth i x 0) <= DPTAD.f_spike_magnitude c)
            /\ DPTAD.f_timestamp c = nth peak ts 0
            /\ DPTAD.f_signal c = name)
       (DPTAD._group_spikes (DPTAD.spike_indices_of x threshold) 5)
       (DPTAD.detect_spikes np_std self x signal_data ts name).
Proof.
  cbv zeta. split; [intro i; apply spike_indices_of_In|].
  unfold DPTAD.detect_spikes.
  set (threshold := np_std x * DPTAD.spike_threshold self).
  set (groups := DPTAD._group_spikes (DPTAD.spike_indices_of x threshold) 5).
  assert (Hsound : forall g, In g groups ->
            g <> [] /\ forall i, In i g -> In i (DPTAD.spike_indices_of x threshold))
    by (intros g Hg; exact (group_spikes_sound _ _ _ Hg)).
  clearbody groups. induction groups as [|g groups IH]; cbn [map]; constructor.
  - destruct (Hsound g (or_introl eq_refl)) as [Hne Hsub].
    pose proof (peak_index_In x g Hne) as Hpeak.
    pose proof (proj1 (spike_indices_of_In x threshold _) (Hsub _ Hpeak)) as [Hlt Hthr].
    exists (DPTAD.peak_index x g). cbn [DPTAD.f_spike_magnitude DPTAD.f_timestamp DPTAD.f_signal].
    repeat split; try assumption; try reflexivity.
    intros i Hi. apply peak_index_max. exact Hi.
  - apply IH. intros g' Hg'. apply Hsound. right. exact Hg'.
Qed.

(** ** Shape of the reconciled anomalies *)

Lemma reconciled_member (slows : list DPTAD.SlowCandidate)
    (fasts : list DPTAD.FastCandidate) (name : string) (a : DPTAD.Anomaly) :
  In a (DPTAD._reconcile_paths slows fasts name) ->
  DPTAD.signal a = name
  /\ DPTAD.recommended_action a = DPTAD._get_recommendation (DPTAD.type a) name
  /\ reconciled_shape slows fasts a.
Proof.
  unfold DPTAD._reconcile_paths. intro Ha. apply in_app_or in Ha.
  destruct Ha as [Ha | Ha]; apply in_map_iff in Ha.
  - destruct Ha as [f [<- Hf]]. unfold DPTAD.reconcile_fast.
    set (nearby := filter _ slows).
    assert (Hnear : forall s, In s nearby ->
              In s slows /\ near (DPTAD.s_timestamp s) (DPTAD.f_timestamp f)).
    { intros s Hs. unfold nearby in Hs. apply filter_In in Hs.
      rewrite within_window_near in Hs. exact Hs. }
    destruct nearby as [|s0 rest]; cbn -[Qmax Qlist_max map].
    + split; [reflexivity|]. split; [reflexivity|]. right. left.
      split; [reflexivity|]. split; [reflexivity|]. exists f. tauto.
    + split; [reflexivity|]. split; [reflexivity|]. left.
      split; [reflexivity|]. exists f, s0.
      destruct (Hnear s0 (or_introl eq_refl)) as [H1 H2]. tauto.
  - destruct Ha as [s [<- Hs]]. apply filter_In in Hs. cbn.
    split; [reflexivity|]. split; [reflexivity|]. right. right.
    split; [reflexivity|]. split; [reflexivity|]. exists s. tauto.
Qed.

Lemma shape_classified (slows : list DPTAD.SlowCandidate)
    (fasts : list DPTAD.FastCandidate) (a : DPTAD.Anomaly) :
  reconciled_shape slows fasts a -> classified a.
Proof.
  unfold classified. intros [[E _] | [[E _] | [E _]]]; rewrite E; simpl; tauto.
Qed.

(** X3: every anomaly of [_reconcile_paths] carries the signal name and the
    recommendation looked up for its type and that signal, and has one of
    three shapes: "compound" with a fast component and a slow component
    that lie within 10 time units of each other, "driver_mistake" with a
    fast component only, or "degradation" with a slow component only.  There
    is one anomaly per fast candidate and at most one per slow candidate. *)
Theorem X3_reconciled_shape (slows : list DPTAD.SlowCandidate)
    (fasts : list DPTAD.FastCandidate) (name : string) :
  let out := DPTAD._reconcile_paths slows fasts name in
  Forall (fun a =>
            DPTAD.signal a = name
            /\ DPTAD.recommended_action a = DPTAD._get_recommendation (DPTAD.type a) name
            /\ reconciled_shape slows fasts a) out
  /\ (length fasts <= length out <= length fasts + length slows)%nat.
Proof.
  cbv zeta. split.
  - apply Forall_forall. intros a Ha. exact (reconciled_member _ _ _ _ Ha).
  - unfold DPTAD._reconcile_paths. rewrite length_app, !length_map.
    pose proof (filter_length_le
                  (fun slow =>
                     negb (existsb (fun ft => DPTAD.within_window (DPTAD.s_timestamp slow) ft)
                             (DPTAD.timestamp_set (map DPTAD.f_timestamp fasts)))) slows).
    lia.
Qed.

(** ** The list returned by [detect_anomalies] *)

Lemma insert_desc_sorted (x : DPTAD.Anomaly) (l : list DPTAD.Anomaly) :
  StronglySorted not_less_severe l ->
  StronglySorted not_less_severe
    (insert_desc (fun a b => Qle_bool (DPTAD.severity b) (DPTAD.severity a)) x l).
Proof.
  induction l as [|y l IH]; intro Hs; cbn [insert_desc].
  - constructor; constructor.
  - inversion Hs as [|? ? Hl Hy]; subst.
    destruct (Qle_bool (DPTAD.severity y) (DPTAD.severity x)) eqn:E.
    + apply Qle_bool_iff in E. constructor; [exact Hs|].
      constructor; [exact E|].
      apply Forall_forall. intros z Hz. unfold not_less_severe.
      eapply Qle_trans; [|exact E]. exact (proj1 (Forall_forall _ _) Hy z Hz).
    + assert (Hxy : DPTAD.severity x <= DPTAD.severity y).
      { destruct (Qlt_le_dec (DPTAD.severity x) (DPTAD.severity y)) as [Hlt | Hle].
        - apply Qlt_le_weak. exact Hlt.
        - apply Qle_bool_iff in Hle. congruence. }
      constructor; [exact (IH Hl)|].
      apply (Permutation_Forall (insert_desc_perm _ x l)).
      constructor; [exact Hxy | exact Hy].
Qed.

Lemma sort_by_severity_sorted (l : list DPTAD.Anomaly) :
  StronglySorted not_less_severe (DPTAD.sort_by_severity l).
Proof.
  unfold DPTAD.sort_by_severity, sort_desc.
  induction l as [|x l IH]; cbn [fold_right]; [constructor|].
  apply insert_desc_sorted. exact IH.
Qed.

Section DPTAD_pipeline.

Import DPTAD.

Variable butter : nat -> list Q -> btype -> outcome (list Q * list Q).
Variable filtfilt : list Q -> list Q -> list Q -> outcome (list Q).
Variable np_std : list Q -> Q.
Variable self : DPTADDetector.

Lemma analyze_signal_In (t : Telemetry) (name : string) (a : Anomaly) :
  In a (analyze_signal butter filtfilt np_std self t name) ->
  signal a = name /\ dict_mem name t = true /\ classified a.
Proof.
  unfold analyze_signal, dict_mem. destruct (dict_get name t) as [data|]; [|intros []].
  intro H. apply reconciled_member in H. destruct H as [Hs [_ Hshape]].
  split; [exact Hs|]. split; [reflexivity|]. exact (shape_classified _ _ _ Hshape).
Qed.

(** X4: [detect_anomalies] returns no anomaly when there is no telemetry
    table or the table has no row.  Otherwise its anomalies are those of
    the requested signals (speed, throttle, brake and steering_angle when
    none is named) that are columns of the table, in the order of
    non-increasing severity; each is classified "compound",
    "driver_mistake" or "degradation" and names a requested signal that is
    a column of the table. *)
Theorem X4_detect_anomalies (telemetry_data : option Telemetry)
    (signals : option (list string)) :
  let out := detect_anomalies butter filtfilt np_std self telemetry_data signals in
  let requested := match signals with Some l => l | None => default_signals end in
  (telemetry_data = None -> out = [])
  /\ (forall t, telemetry_data = Some t -> telemetry_len t = 0%nat -> out = [])
  /\ (forall t, telemetry_data = Some t -> telemetry_len t <> 0%nat ->
        Permutation (flat_map (analyze_signal butter filtfilt np_std self t) requested) out)
  /\ StronglySorted not_less_severe out
  /\ Forall (fun a =>
               classified a /\ In (signal a) requested
               /\ exists t, telemetry_data = Some t /\ dict_mem (signal a) t = true) out.
Proof.
  cbv zeta. unfold detect_anomalies.
  set (requested := match signals with Some l => l | None => default_signals end).
  destruct telemetry_data as [t|].
  2:{ split; [reflexivity|]. split; [discriminate|]. split; [discriminate|].
      split; constructor. }
  split; [discriminate|].
  destruct (Nat.eqb_spec (telemetry_len t) 0) as [Hz | Hnz].
  { split; [reflexivity|]. split; [intros t' E; injection E as <-; contradiction|].
    split; constructor. }
  split; [intros t' E; injection E as <-; contradiction|].
  set (all := flat_map (analyze_signal butter filtfilt np_std self t) requested).
  assert (Hperm : Permutation all
                    match all with [] => [] | _ :: _ => sort_by_severity all end).
  { destruct all as [|a0 rest]; [constructor|]. apply sort_desc_perm. }
  split; [intros t' E Hlen; injection E as <-; exact Hperm|].
  split.
  - destruct all as [|a0 rest]; [constructor | apply sort_by_severity_sorted].
  - apply (Permutation_Forall Hperm). apply Forall_forall. intros a Ha.
    unfold all in Ha. apply in_flat_map in Ha. destruct Ha as [name [Hreq Ha]].
    apply analyze_signal_In in Ha. destruct Ha as [<- [Hcol Hcl]].
    split; [exact Hcl|]. split; [exact Hreq|]. exists t. split; [reflexivity | exact Hcol].
Qed.

End DPTAD_pipeline.

(** ** Counts and recommendation of the summary *)

Lemma count_str_count_occ (x : string) (l : list string) :
  count_str x l = count_occ string_dec l x.
Proof.
  unfold count_str. induction l as [|y l IH]; simpl; [reflexivity|].
  destruct (string_dec y x) as [E | E].
  - subst y. rewrite String.eqb_refl. simpl. rewrite IH. reflexivity.
  - destruct (String.eqb_spec x y) as [E' | _]; [congruence | exact IH].
Qed.

Lemma list_sum_filter_split (f : string -> nat) (y : string) (u : list string) :
  NoDup u ->
  list_sum (map f u)
  = ((if existsb (String.eqb y) u then f y else 0)
     + list_sum (map f (filter (fun x => negb (String.eqb y x)) u)))%nat.
Proof.
  induction u as [|x u IH]; intro Hnd; [reflexivity|].
  inversion Hnd as [|? ? Hx Hu]; subst.
  change (list_sum (map f (x :: u))) with (f x + list_sum (map f u))%nat.
  rewrite (IH Hu). cbn [existsb filter].
  destruct (String.eqb_spec y x) as [-> | Hne]; cbn [negb orb].
  - assert (E : existsb (String.eqb x) u = false).
    { destruct (existsb (String.eqb x) u) eqn:E; [|reflexivity].
      apply existsb_exists in E. destruct E as [z [Hz Ez]].
      apply String.eqb_eq in Ez. subst z. contradiction. }
    rewrite E. lia.
  - change (list_sum (map f (x :: filter (fun x0 => negb (String.eqb y x0)) u)))
      with (f x + list_sum (map f (filter (fun x0 => negb (String.eqb y x0)) u)))%nat.
    lia.
Qed.

Lemma count_str_cons_other (x y : string) (l : list string) :
  x <> y -> count_str x (y :: l) = count_str x l.
Proof.
  intro H. unfold count_str. simpl.
  destruct (String.eqb_spec x y); [contradiction | reflexivity].
Qed.

Lemma unique_counts_sum (l : list string) :
  list_sum (map (fun x => count_str x l) (unique_str l)) = length l.
Proof.
  induction l as [|y l IH]; [reflexivity|].
  cbn [unique_str map length].
  match goal with
  | |- list_sum (?a :: ?r) = _ => change (list_sum (a :: r)) with (a + list_sum r)%nat
  end.
  assert (Hy : count_str y (y :: l) = S (count_str y l)).
  { unfold count_str. simpl. rewrite String.eqb_refl. reflexivity. }
  rewrite Hy.
  assert (Hrest : map (fun x => count_str x (y :: l))
                    (filter (fun x => negb (String.eqb y x)) (unique_str l))
                  = map (fun x => count_str x l)
                      (filter (fun x => negb (String.eqb y x)) (unique_str l))).
  { apply map_ext_in. intros x Hx. apply filter_In in Hx. destruct Hx as [_ Hx].
    apply count_str_cons_other. apply negb_true_iff in Hx.
    intro E. subst x. rewrite String.eqb_refl in Hx. discriminate. }
  rewrite Hrest.
  pose proof (list_sum_filter_split (fun x => count_str x l) y (unique_str l)
                (unique_str_NoDup l)) as Hsplit.
  rewrite IH in Hsplit.
  destruct (existsb (String.eqb y) (unique_str l)) eqn:E.
  - lia.
  - assert (Hz : count_str y l = 0%nat).
    { unfold count_str. destruct (filter (String.eqb y) l) as [|z r] eqn:F; [reflexivity|].
      exfalso.
      assert (Hin : In z (filter (String.eqb y) l)) by (rewrite F; left; reflexivity).
      apply filter_In in Hin. destruct Hin as [Hin Ez]. apply String.eqb_eq in Ez. subst z.
      assert (E' : existsb (String.eqb y) (unique_str l) = true).
      { apply existsb_exists. exists y. split; [apply (proj2 (unique_str_In _ _)); exact Hin|].
        apply String.eqb_refl. }
      congruence. }
    lia.
Qed.

Lemma list_sum_perm (l l' : list nat) : Permutation l l' -> list_sum l = list_sum l'.
Proof. induction 1; simpl; lia. Qed.

Lemma insert_desc_counts_sorted (x : string * nat) (l : list (string * nat)) :
  counts_descend l ->
  counts_descend (insert_desc (fun a b => (snd b <=? snd a)%nat) x l).
Proof.
  unfold counts_descend. induction l as [|y l IH]; intro Hs; cbn [insert_desc].
  - constructor; constructor.
  - inversion Hs as [|? ? Hl Hy]; subst.
    destruct (Nat.leb_spec (snd y) (snd x)) as [E | E].
    + constructor; [exact Hs|]. constructor; [exact E|].
      apply Forall_forall. intros z Hz.
      pose proof (proj1 (Forall_forall _ _) Hy z Hz). simpl in *. lia.
    + constructor; [exact (IH Hl)|].
      apply (Permutation_Forall (insert_desc_perm _ x l)).
      constructor; [simpl; lia | exact Hy].
Qed.

(** The table of [value_counts]: each distinct value once, with the number
    of its occurrences; the counts add up to the length and never grow. *)
Lemma value_counts_spec (l : list string) :
  NoDup (map fst (value_counts l))
  /\ (forall x n, In (x, n) (value_counts l) ->
        In x l /\ n = count_occ string_dec l x /\ (1 <= n)%nat)
  /\ (forall x, In x l -> In x (map fst (value_counts l)))
  /\ list_sum (map snd (value_counts l)) = length l
  /\ counts_descend (value_counts l).
Proof.
  unfold value_counts.
  set (table := map (fun x => (x, count_str x l)) (unique_str l)).
  pose proof (sort_desc_perm (fun a b : string * nat => (snd b <=? snd a)%nat) table) as Hperm.
  assert (Hfst : map fst table = unique_str l).
  { unfold table. rewrite map_map. simpl. apply map_id. }
  assert (Hsnd : map snd table = map (fun x => count_str x l) (unique_str l)).
  { unfold table. rewrite map_map. reflexivity. }
  split; [|split; [|split; [|split]]].
  - apply (Permutation_NoDup (Permutation_map fst Hperm)).
    rewrite Hfst. apply unique_str_NoDup.
  - intros x n Hin. apply (Permutation_in _ (Permutation_sym Hperm)) in Hin.
    unfold table in Hin. apply in_map_iff in Hin. destruct Hin as [y [E Hy]].
    injection E as -> <-. apply (proj1 (unique_str_In _ _)) in Hy.
    split; [exact Hy|]. split; [apply count_str_count_occ|].
    rewrite count_str_count_occ. apply count_occ_In. exact Hy.
  - intros x Hx. apply (Permutation_in _ (Permutation_map fst Hperm)).
    rewrite Hfst. apply (proj2 (unique_str_In _ _)). exact Hx.
  - rewrite <- (list_sum_perm _ _ (Permutation_map snd Hperm)), Hsnd.
    apply unique_counts_sum.
  - clear Hperm Hfst Hsnd. clearbody table.
    unfold sort_desc. induction table as [|x t IH]; cbn [fold_right].
    + constructor.
    + apply insert_desc_counts_sorted. exact IH.
Qed.

Lemma head_count_greatest (counts : list (string * nat)) (x y : string) (n m : nat)
    (rest : list (string * nat)) :
  counts = (x, n) :: rest -> counts_descend counts -> In (y, m) counts -> (m <= n)%nat.
Proof.
  intros -> Hs Hin. inversion Hs as [|? ? _ Hall]; subst.
  destruct Hin as [E | Hin].
  - injection E as _ <-. lia.
  - exact (proj1 (Forall_forall _ _) Hall _ Hin).
Qed.

(** The most frequent value: the head of the table of [value_counts]. *)
Lemma value_counts_head (l : list string) :
  l <> [] ->
  exists x n rest,
    value_counts l = (x, n) :: rest /\ In x l
    /\ forall y, (count_occ string_dec l y <= count_occ string_dec l x)%nat.
Proof.
  intro Hne. destruct (value_counts_spec l) as [_ [Hin [Hall [Hsum Hsorted]]]].
  destruct (value_counts l) as [|[x n] rest] eqn:E.
  - simpl in Hsum. destruct l; [congruence | discriminate].
  - exists x, n, rest. split; [reflexivity|].
    destruct (Hin x n (or_introl eq_refl)) as [Hx [Hn _]]. split; [exact Hx|].
    intro y. rewrite <- Hn.
    destruct (in_dec string_dec y l) as [Hy | Hy].
    + specialize (Hall y Hy). apply in_map_iff in Hall. destruct Hall as [[y' m] [Ey Hm]].
      simpl in Ey. subst y'. destruct (Hin y m Hm) as [_ [-> _]].
      exact (head_count_greatest _ x y n _ rest eq_refl Hsorted Hm).
    + rewrite (proj1 (count_occ_not_In string_dec l y) Hy). lia.
Qed.


(** X6: for a non-empty list of anomalies classified "compound",
    "driver_mistake" or "degradation", the recommendation of the summary is
    one of the six messages of the cascade, written for a signal that
    occurs most often among the anomalies; it is neither the catch-all
    "Review performance data and adjust accordingly." nor "Maintain current
    performance level.". *)
Theorem X6_summary_recommendation (l : list DPTAD.Anomaly) :
  l <> [] ->
  Forall classified l ->
  exists g,
    In g (map DPTAD.signal l)
    /\ (forall g', (count_occ string_dec (map DPTAD.signal l) g'
                    <= count_occ string_dec (map DPTAD.signal l) g)%nat)
    /\ In (DPTAD._generate_summary_recommendation l) (summary_templates g)
    /\ DPTAD._generate_summary_recommendation l
       <> "Review performance data and adjust accordingly."%string
    /\ DPTAD._generate_summary_recommendation l
       <> "Maintain current performance level."%string.
Proof.
  intros Hne Hcl. destruct l as [|a l]; [congruence|].
  set (l0 := a :: l) in *.
  destruct (value_counts_head (map DPTAD.type l0)) as [t [n [rest [Et [Ht _]]]]];
    [discriminate|].
  destruct (value_counts_head (map DPTAD.signal l0)) as [g [m [rest' [Eg [Hg Hmax]]]]];
    [discriminate|].
  exists g. split; [exact Hg|]. split; [exact Hmax|].
  assert (Htype : In t ["compound"; "driver_mistake"; "degradation"]%string).
  { apply in_map_iff in Ht. destruct Ht as [b [<- Hb]].
    exact (proj1 (Forall_forall _ _) Hcl b Hb). }
  unfold DPTAD._generate_summary_recommendation. fold l0. unfold l0 at 1.
  cbv iota. fold l0. rewrite Et, Eg.
  unfold summary_templates.
  destruct Htype as [<- | [<- | [<- | []]]]; cbn [String.eqb Ascii.eqb Bool.eqb].
  - repeat split; [simpl; tauto | discriminate | discriminate].
  - destruct (Qlt_bool 7 (mean (map DPTAD.severity l0)));
      [|destruct (Qlt_bool 4 (mean (map DPTAD.severity l0)))];
      (repeat split; [simpl; tauto | discriminate | discriminate]).
  - destruct (Qlt_bool 6 (mean (map DPTAD.severity l0)));
      (repeat split; [simpl; tauto | discriminate | discriminate]).
Qed.

(** ** Lookups of the spike subtype and of the recommendation *)

Lemma lower_ascii_idempotent (c : Ascii.ascii) : lower_ascii (lower_ascii c) = lower_ascii c.
Proof. destruct c as [[] [] [] [] [] [] [] []]; reflexivity. Qed.

Lemma lower_idempotent (s : string) : lower (lower s) = lower s.
Proof.
  induction s as [|c s IH]; simpl; [reflexivity|].
  rewrite lower_ascii_idempotent, IH. reflexivity.
Qed.

(** X7: [_classify_spike] looks the signal up by its lower-case name, so
    the subtype does not depend on the case of the signal name, nor on the
    magnitude.  A negative raw value selects the "negative" subtype of
    brake, throttle and speed; steering_angle has none and is always
    "overcorrection"; a signal outside the table gets its lower-case name
    followed by "_anomaly". *)
Theorem X7_classify_spike (signal_name : string) (magnitude magnitude' raw_value : Q) :
  let subtype := DPTAD._classify_spike signal_name magnitude raw_value in
  DPTAD._classify_spike (lower signal_name) magnitude' raw_value = subtype
  /\ (lower signal_name = "steering_angle"%string -> subtype = "overcorrection"%string)
  /\ (lower signal_name = "brake"%string ->
      subtype = if Qlt_bool raw_value 0 then "brake_release_error"%string
                else "brake_spike"%string)
  /\ (lower signal_name = "throttle"%string ->
      subtype = if Qlt_bool raw_value 0 then "lift_hesitation"%string
                else "throttle_stab"%string)
  /\ (lower signal_name = "speed"%string ->
      subtype = if Qlt_bool raw_value 0 then "lock_up"%string
                else "traction_loss"%string)
  /\ (~ In (lower signal_name) known_signals ->
      subtype = (lower signal_name ++ "_anomaly")%string).
Proof.
  cbv zeta. unfold DPTAD._classify_spike. rewrite lower_idempotent.
  split; [reflexivity|].
  split; [intros ->; simpl; destruct (Qlt_bool raw_value 0); reflexivity|].
  split; [intros ->; simpl; destruct (Qlt_bool raw_value 0); reflexivity|].
  split; [intros ->; simpl; destruct (Qlt_bool raw_value 0); reflexivity|].
  split; [intros ->; simpl; destruct (Qlt_bool raw_value 0); reflexivity|].
  intro Hnot. unfold known_signals in Hnot. unfold DPTAD.spike_types.
  cbn [dict_get].
  destruct (String.eqb_spec (lower signal_name) "brake") as [E | _];
    [exfalso; apply Hnot; rewrite E; simpl; tauto|].
  destruct (String.eqb_spec (lower signal_name) "throttle") as [E | _];
    [exfalso; apply Hnot; rewrite E; simpl; tauto|].
  destruct (String.eqb_spec (lower signal_name) "speed") as [E | _];
    [exfalso; apply Hnot; rewrite E; simpl; tauto|].
  destruct (String.eqb_spec (lower signal_name) "steering_angle") as [E | _];
    [exfalso; apply Hnot; rewrite E; simpl; tauto|].
  reflexivity.
Qed.

Lemma recommendation_compound (signal_name : string) :
  DPTAD._get_recommendation "compound" signal_name
  = "Multiple issues detected. Address both technique and equipment."%string.
Proof.
  unfold DPTAD._get_recommendation. cbn [DPTAD.recommendations dict_get String.eqb
    Ascii.eqb Bool.eqb].
  destruct (String.eqb signal_name "default"); reflexivity.
Qed.

Lemma recommendation_unknown_signal (anomaly_type signal_name : string) :
  anomaly_type <> "compound"%string ->
  ~ In signal_name known_signals ->
  DPTAD._get_recommendation anomaly_type signal_name = monitor_message signal_name.
Proof.
  intros Hc Hnot. unfold DPTAD._get_recommendation, monitor_message.
  assert (Hfour : forall m1 m2 m3 m4 : string,
            dict_get signal_name
              [("brake"%string, m1); ("throttle"%string, m2);
               ("speed"%string, m3); ("steering_angle"%string, m4)] = None).
  { intros m1 m2 m3 m4. unfold known_signals in Hnot. cbn [dict_get].
    destruct (String.eqb_spec signal_name "brake") as [E | _];
      [exfalso; apply Hnot; rewrite E; simpl; tauto|].
    destruct (String.eqb_spec signal_name "throttle") as [E | _];
      [exfalso; apply Hnot; rewrite E; simpl; tauto|].
    destruct (String.eqb_spec signal_name "speed") as [E | _];
      [exfalso; apply Hnot; rewrite E; simpl; tauto|].
    destruct (String.eqb_spec signal_name "steering_angle") as [E | _];
      [exfalso; apply Hnot; rewrite E; simpl; tauto|].
    reflexivity. }
  unfold DPTAD.recommendations.
  cbn [dict_get].
  destruct (String.eqb_spec anomaly_type "driver_mistake") as [_ | _].
  - rewrite Hfour. reflexivity.
  - destruct (String.eqb_spec anomaly_type "degradation") as [_ | _].
    + rewrite Hfour. reflexivity.
    + destruct (String.eqb_spec anomaly_type "compound"); [contradiction | reflexivity].
Qed.

Lemma recommendation_known_signal (anomaly_type signal_name : string) :
  In anomaly_type ["driver_mistake"; "degradation"]%string ->
  In signal_name known_signals ->
  DPTAD._get_recommendation anomaly_type signal_name <> monitor_message signal_name.
Proof.
  unfold known_signals. intros Ht Hs.
  destruct Ht as [<- | [<- | []]]; destruct Hs as [<- | [<- | [<- | [<- | []]]]];
    vm_compute; discriminate.
Qed.

(** X8: the recommended action of a reconciled anomaly: a "compound"
    anomaly gets "Multiple issues detected. Address both technique and
    equipment." whatever the signal; a "driver_mistake" or "degradation"
    anomaly gets a message of its own on brake, throttle, speed and
    steering_angle, and "Monitor <signal> performance and adjust technique
    accordingly." on every other signal. *)
Theorem X8_recommended_action (slows : list DPTAD.SlowCandidate)
    (fasts : list DPTAD.FastCandidate) (name : string) :
  Forall (fun a =>
            (DPTAD.type a = "compound"%string ->
             DPTAD.recommended_action a
             = "Multiple issues detected. Address both technique and equipment."%string)
            /\ (DPTAD.type a <> "compound"%string ->
                (In name known_signals ->
                 DPTAD.recommended_action a <> monitor_message name)
                /\ (~ In name known_signals ->
                    DPTAD.recommended_action a = monitor_message name)))
         (DPTAD._reconcile_paths slows fasts name).
Proof.
  apply Forall_forall. intros a Ha.
  destruct (reconciled_member _ _ _ _ Ha) as [_ [Hrec Hshape]].
  rewrite Hrec. split.
  - intros ->. apply recommendation_compound.
  - intro Hc. split.
    + intro Hin. apply recommendation_known_signal; [|exact Hin].
      destruct Hshape as [[E _] | [[E _] | [E _]]]; rewrite E in *; simpl; tauto.
    + intro Hnot. apply recommendation_unknown_signal; assumption.
Qed.

(** ** Signals on which the slow path finds nothing *)


Lemma flat_map_all_nil {A B : Type} (f : A -> list B) (l : list A) :
  (forall a, In a l -> f a = []) -> flat_map f l = [].
Proof.
  induction l as [|a l IH]; intro H; [reflexivity|].
  cbn [flat_map]. rewrite (H a (or_introl eq_refl)), IH; [reflexivity|].
  intros b Hb. apply H. right. exact Hb.
Qed.



Section DPTAD_slow_path.

Variable butter : nat -> list Q -> DPTAD.btype -> outcome (list Q * list Q).
Variable filtfilt : list Q -> list Q -> list Q -> outcome (list Q).
Variable np_std : list Q -> Q.
Variable self : DPTAD.DPTADDetector.

(** X9: a signal of fewer than 50 samples never yields a slow-path
    candidate: the drift window min(len // 10, 50) is then below 5 and the
    slow path returns the empty list (filtfilt returns as many samples as
    it is given). *)
Theorem X9_slow_path_short_signal (signal_data timestamps : list Q) (signal_name : string) :
  keeps_length filtfilt ->
  (length signal_data < 50)%nat ->
  DPTAD._slow_path_analysis butter filtfilt np_std self signal_data timestamps signal_name
  = [].
Proof.
  intros Hkeep Hlen. unfold DPTAD._slow_path_analysis.
  destruct (length signal_data =? 0)%nat; [reflexivity|].
  cbv zeta. unfold DPTAD.design_and_filter.
  destruct (butter 3 _ DPTAD.low_pass) as [e | [b a]]; [reflexivity|].
  cbv zeta.
  destruct (length signal_data <=? 3 * Nat.max (length a) (length b))%nat; [reflexivity|].
  destruct (filtfilt b a signal_data) as [e | filtered_signal] eqn:E; [reflexivity|].
  apply Hkeep in E. unfold DPTAD.detect_drift. cbv zeta.
  assert (Hw : (Nat.min (length filtered_signal / 10) 50 <? 5)%nat = true).
  { apply Nat.ltb_lt.
    assert (length filtered_signal / 10 < 5)%nat
      by (apply Nat.Div0.div_lt_upper_bound; lia).
    lia. }
  rewrite Hw. reflexivity.
Qed.


End DPTAD_slow_path.

(* ================================================================== *)
(** * Further properties of the ideal-lap engine *)
(* ================================================================== *)

(** ** Ranges of the sub-scores and of the combined weight *)




Section SIWTL_scores.

Import SIWTL.

Variable pd_std : list Q -> Q.
Variable np_std : list Q -> Q.
Variable self : SIWTLCalculator.

Hypothesis np_std_nonneg : forall l, 0 <= np_std l.









End SIWTL_scores.

(** ** The sectors that get a weight *)

Section SIWTL_sector_weights.

Import SIWTL.

Variable pd_std : list Q -> Q.
Variable np_std : list Q -> Q.
Variable self : SIWTLCalculator.

(** X13: [_calculate_sector_weights] never returns an empty dictionary and
    never more than three entries.  On a sector table with rows and at least
    one of the three sector columns its keys are those of the columns the
    table holds, numbered by their position among all three (s2 and s3 when
    sector_1_time is missing); on a table without any sector column, without
    rows, or when no table is given, it is the uniform set for s1, s2, s3. *)
Theorem X13_sector_weight_keys (valid_laps : DataFrame)
    (sector_data : option DataFrame) (telemetry_data : option Telemetry) :
  let ws := _calculate_sector_weights pd_std np_std self valid_laps sector_data
              telemetry_data in
  ws <> []
  /\ (length ws <= 3)%nat
  /\ NoDup (map fst ws)
  /\ (forall sd, sector_data = Some sd -> (0 < df_len sd)%nat ->
        present_sector_keys sd <> [] -> map fst ws = present_sector_keys sd)
  /\ (forall sd, sector_data = Some sd -> present_sector_keys sd = [] ->
        ws = uniform_weights)
  /\ (no_sector_table sector_data -> ws = uniform_weights).
Proof.
  cbv zeta.
  assert (Huniform : forall ws, ws = uniform_weights ->
            ws <> [] /\ (length ws <= 3)%nat /\ NoDup (map fst ws)).
  { intros ws ->. split; [discriminate|]. split; [simpl; lia|].
    simpl. repeat constructor; simpl; intuition discriminate. }
  destruct sector_data as [sd|].
  - assert (Hsd :
      let ws := _calculate_sector_weights pd_std np_std self valid_laps (Some sd)
                  telemetry_data in
      ws <> [] /\ (length ws <= 3)%nat /\ NoDup (map fst ws)
      /\ ((0 < df_len sd)%nat -> present_sector_keys sd <> [] ->
          map fst ws = present_sector_keys sd)
      /\ (present_sector_keys sd = [] -> ws = uniform_weights)
      /\ (df_len sd = 0%nat -> ws = uniform_weights)).
    { cbv zeta. unfold _calculate_sector_weights, present_sector_keys.
      destruct (Nat.ltb_spec 0 (df_len sd)) as [Hpos | Hzero].
      - cbn [enumerate sector_cols fold_left fst snd filter map].
        destruct (col_in sd "sector_1_time"), (col_in sd "sector_2_time"),
          (col_in sd "sector_3_time");
          cbn -[_calculate_single_sector_weight uniform_sector_weight];
          (split; [discriminate|]);
          (split; [lia|]);
          (split; [repeat (apply NoDup_cons; [simpl; intuition discriminate|]);
                   apply NoDup_nil|]);
          (split; [intros _ Hne; first [reflexivity | exfalso; apply Hne; reflexivity]|]);
          (split; [intro Hnil; first [reflexivity | discriminate Hnil]|]);
          intro H0; lia.
      - destruct (Huniform uniform_weights eq_refl) as [U1 [U2 U3]].
        split; [exact U1|]. split; [exact U2|]. split; [exact U3|].
        split; [intro Hpos; lia|].
        split; intros; reflexivity. }
    cbv zeta in Hsd.
    destruct Hsd as [H1 [H2 [H3 [H4 [H5 H6]]]]].
    split; [exact H1|]. split; [exact H2|]. split; [exact H3|].
    split; [intros sd' E; injection E as <-; exact H4|].
    split; [intros sd' E; injection E as <-; exact H5|].
    exact H6.
  - destruct (Huniform uniform_weights eq_refl) as [U1 [U2 U3]].
    split; [exact U1|]. split; [exact U2|]. split; [exact U3|].
    split; [intros sd' E; discriminate E|].
    split; [intros sd' E; discriminate E|].
    intros _. reflexivity.
Qed.


End SIWTL_sector_weights.

Section SIWTL_default_calculator.

Import SIWTL.

Variable pd_std : list Q -> Q.
Variable np_std : list Q -> Q.


End SIWTL_default_calculator.

(** ** The range of the theoretical best lap *)

Lemma fold_min_le_init (l : list Q) (x : Q) : fold_left Qmin l x <= x.
Proof.
  revert x. induction l as [|y l IH]; intro x; simpl; [apply Qle_refl|].
  eapply Qle_trans; [apply IH | apply Q.le_min_l].
Qed.

Lemma fold_min_gt (b : Q) (l : list Q) (x : Q) :
  b < x -> (forall y, In y l -> b < y) -> b < fold_left Qmin l x.
Proof.
  revert x. induction l as [|y l IH]; intros x Hx H; simpl; [exact Hx|].
  apply IH.
  - apply Q.min_glb_lt; [exact Hx | apply H; left; reflexivity].
  - intros z Hz. apply H. right. exact Hz.
Qed.

Lemma valid_sector_time_range (x : Q) :
  SIWTL.valid_sector_time x = true -> 20 < x /\ x < 80.
Proof.
  unfold SIWTL.valid_sector_time. intro H. apply andb_prop in H.
  split; apply Qlt_bool_iff; tauto.
Qed.

Lemma Qlist_min_valid_sector (l : list Q) :
  l <> [] -> (forall x, In x l -> SIWTL.valid_sector_time x = true) ->
  20 < Qlist_min l /\ Qlist_min l < 80.
Proof.
  destruct l as [|x l]; [congruence|]. intros _ H. cbn [Qlist_min]. split.
  - apply fold_min_gt.
    + exact (proj1 (valid_sector_time_range x (H x (or_introl eq_refl)))).
    + intros y Hy. exact (proj1 (valid_sector_time_range y (H y (or_intror Hy)))).
  - eapply Qle_lt_trans; [apply fold_min_le_init|].
    exact (proj2 (valid_sector_time_range x (H x (or_introl eq_refl)))).
Qed.

Lemma dict_set_length {A : Type} (k : string) (v : A) (d : list (string * A)) :
  (length (dict_set k v d) <= S (length d))%nat.
Proof.
  induction d as [|[k0 v0] d IH]; simpl; [lia|].
  destruct (String.eqb k k0); simpl; lia.
Qed.

Section SIWTL_theoretical_best.

Import SIWTL.

(** X15: the theoretical best lap is either sector-based or lap-based.  A
    sector-based one has two or three best sector times, each strictly
    between 20 and 80 and stored under s1, s2 or s3, so the lap lies
    strictly between 40 and 240; a lap-based one has no best sector time and
    is the smallest [lap_time_ms] of the valid laps over 1000. *)
Theorem X15_theoretical_best_range (valid_laps : DataFrame)
    (sector_data : option DataFrame) :
  let tb := _calculate_theoretical_best valid_laps sector_data in
  (tb_method tb = "sector_based"%string
   /\ (2 <= length (tb_sector_bests tb) <= 3)%nat
   /\ Forall valid_best (tb_sector_bests tb)
   /\ 40 < tb_theoretical_best_lap tb /\ tb_theoretical_best_lap tb < 240)
  \/ (tb_method tb = "lap_based"%string
      /\ tb_sector_bests tb = []
      /\ tb_theoretical_best_lap tb
         = Qlist_min (dropna (get_col valid_laps "lap_time_ms")) / 1000).
Proof.
  cbv zeta. unfold _calculate_theoretical_best.
  destruct sector_data as [sd|]; [|right; repeat split].
  destruct (0 <? df_len sd)%nat; [|right; repeat split].
  set (available := filter (col_in sd) sector_cols).
  destruct (2 <=? length available)%nat; [|right; repeat split].
  set (step := fun (sector_bests : list (string * Q)) (ic : nat * string) => _).
  set (bests := fold_left step (enumerate 1 available) []).
  assert (Hav : (length available <= 3)%nat)
    by (unfold available; apply (filter_length_le (col_in sd) sector_cols)).
  assert (Hb : Forall valid_best bests).
  { unfold bests. apply fold_left_invariant; [|constructor].
    intros acc [i c] Hin Hacc. unfold step. cbn [fst snd].
    set (valid_times := dropna (series_select valid_sector_time (get_col sd c))).
    destruct (Nat.ltb_spec 0 (length valid_times)) as [Hpos | _]; [|exact Hacc].
    apply Forall_forall. intros [k b] Hkb. apply dict_set_In in Hkb.
    destruct Hkb as [E | Hkb]; [|exact (proj1 (Forall_forall _ _) Hacc _ Hkb)].
    injection E as -> ->.
    assert (Hmin : 20 < Qlist_min valid_times /\ Qlist_min valid_times < 80).
    { apply Qlist_min_valid_sector.
      - intro E. rewrite E in Hpos. simpl in Hpos. lia.
      - intros x Hx. exact (dropna_select_In _ _ _ Hx). }
    split; [exact (proj1 Hmin)|]. split; [exact (proj2 Hmin)|]. cbn [fst].
    apply enumerate_In in Hin.
    assert (Hi : i = 1%nat \/ i = 2%nat \/ i = 3%nat) by lia.
    destruct Hi as [-> | [-> | ->]]; simpl; tauto. }
  assert (Hlen : forall l acc, (length (fold_left step l acc) <= length acc + length l)%nat).
  { induction l as [|ic l IH]; intro acc; cbn [fold_left length]; [lia|].
    eapply Nat.le_trans; [apply IH|].
    assert (length (step acc ic) <= S (length acc))%nat; [|lia].
    unfold step. destruct (0 <? length _)%nat; [apply dict_set_length | lia]. }
  assert (Hbl : (length bests <= 3)%nat).
  { unfold bests. eapply Nat.le_trans; [apply Hlen|].
    cbn [length]. rewrite <- Hav. clear. generalize 1%nat.
    induction available as [|a l IH]; intro n; simpl; [lia|].
    specialize (IH (S n)). lia. }
  destruct (Nat.leb_spec 2 (length bests)) as [H2 | _]; [|right; repeat split].
  left. cbn [tb_method tb_sector_bests tb_theoretical_best_lap].
  split; [reflexivity|]. split; [lia|]. split; [exact Hb|].
  assert (Hsum : 40 < Qsum (dict_values bests) /\ Qsum (dict_values bests) < 240).
  { destruct bests as [|[k1 b1] [|[k2 b2] [|[k3 b3] [|kb4 rest]]]];
      cbn [length] in H2, Hbl; try lia.
    - inversion Hb as [|? ? [H1 [H1' _]] Hb']. inversion Hb' as [|? ? [H2a [H2b _]] _].
      cbn [snd] in *. unfold dict_values, Qsum. cbn [map fold_left snd]. split; lra.
    - inversion Hb as [|? ? [H1 [H1' _]] Hb']. inversion Hb' as [|? ? [H2a [H2b _]] Hb''].
      inversion Hb'' as [|? ? [H3a [H3b _]] _].
      cbn [snd] in *. unfold dict_values, Qsum. cbn [map fold_left snd]. split; lra. }
  destruct Hsum as [Hlo Hhi].
  split.
  - apply Qlt_shift_div_l; [reflexivity|]. lra.
  - apply Qlt_shift_div_r; [reflexivity|]. lra.
Qed.

End SIWTL_theoretical_best.

(** ** The result of a run *)

Lemma fold_min_le_elem (l : list Q) (x y : Q) : In y l -> fold_left Qmin l x <= y.
Proof.
  revert x. induction l as [|z l IH]; intros x H; [destruct H|].
  simpl. destruct H as [-> | H].
  - eapply Qle_trans; [apply fold_min_le_init | apply Q.le_min_r].
  - apply IH. exact H.
Qed.

Lemma Qlist_min_le (l : list Q) (y : Q) : In y l -> Qlist_min l <= y.
Proof.
  destruct l as [|x l]; [intros []|]. intros [-> | H]; cbn [Qlist_min].
  - apply fold_min_le_init.
  - apply fold_min_le_elem. exact H.
Qed.

Section SIWTL_results.

Import SIWTL.

Variable pd_std : list Q -> Q.
Variable np_std : list Q -> Q.
Variable self : SIWTLCalculator.

Lemma sector_weights_length (valid_laps : DataFrame)
    (sector_data : option DataFrame) (telemetry_data : option Telemetry) :
  (2 <=? length (_calculate_sector_weights pd_std np_std self valid_laps sector_data
                   telemetry_data))%nat
  = negb (one_sector_column sector_data).
Proof.
  unfold _calculate_sector_weights, one_sector_column, present_sector_keys.
  destruct sector_data as [sd|]; [|reflexivity].
  destruct (0 <? df_len sd)%nat; [|reflexivity].
  cbn [enumerate sector_cols fold_left fst snd filter map].
  destruct (col_in sd "sector_1_time"), (col_in sd "sector_2_time"),
    (col_in sd "sector_3_time");
    cbn -[_calculate_single_sector_weight uniform_sector_weight]; reflexivity.
Qed.

(** X16: without a sector table the run never reports a gain: with at least
    5 valid laps, [current_avg_lap] lies in [120, 200], the lap-based
    [theoretical_best_lap] lies between 120 and [current_avg_lap], and
    [potential_gain_sec] is [current_avg_lap] minus three times the
    theoretical best, hence at most -160 (exact arithmetic). *)
Theorem X16_no_sector_table_gain (now : string) (driver_data : DataFrame)
    (sector_data : option DataFrame) (telemetry_data : option Telemetry) :
  df_wf driver_data ->
  forallb (col_in driver_data) required_columns = true ->
  (5 <= valid_lap_count driver_data)%nat ->
  no_sector_table sector_data ->
  exists (r : dict) (tb avg gain : Q),
    calculate_siwtl pd_std np_std self now driver_data sector_data telemetry_data
    = Returns r
    /\ has_number r "theoretical_best_lap" tb
    /\ has_number r "current_avg_lap" avg
    /\ has_number r "potential_gain_sec" gain
    /\ 120 <= tb /\ tb <= avg /\ avg <= 200
    /\ gain == avg - 3 * tb
    /\ gain <= - (160).
Proof.
  intros Hwf Hreq H5 Hno.
  pose proof (required_columns_lap_time _ Hreq) as Hcol.
  unfold calculate_siwtl. rewrite Hreq. simpl negb. cbv iota.
  rewrite (valid_laps_len _ Hwf Hcol).
  destruct (Nat.ltb_spec (valid_lap_count driver_data) 5) as [Hlt | _]; [lia|].
  rewrite (theoretical_best_no_sectors _ _ Hno).
  rewrite (sector_weights_no_sectors _ _ _ _ _ _ Hno).
  unfold _compute_siwtl. cbn [tb_sector_bests tb_theoretical_best_lap].
  rewrite (valid_laps_times _ Hwf Hcol).
  set (times := passing valid_lap_time (col_cells driver_data "lap_time_ms")).
  set (tb := Qlist_min times / 1000).
  set (avg := mean times / 1000).
  assert (Hne : times <> []).
  { intro E. unfold valid_lap_count in H5. fold times in H5. rewrite E in H5.
    simpl in H5. lia. }
  assert (Htimes : forall x, In x times -> 120000 <= x <= 200000).
  { intros x Hx. unfold times in Hx. apply passing_In in Hx.
    apply valid_lap_time_bounds. exact Hx. }
  assert (Htb : 120 <= tb).
  { unfold tb, times. apply best_lap_positive. unfold valid_lap_count in H5. lia. }
  assert (Hmean : Qlist_min times <= mean times /\ mean times <= 200000).
  { split.
    - apply mean_lower; [exact Hne|]. intros x Hx. apply Qlist_min_le. exact Hx.
    - apply mean_upper; [exact Hne|]. intros x Hx. exact (proj2 (Htimes x Hx)). }
  assert (Havg : tb <= avg /\ avg <= 200).
  { unfold tb, avg. split.
    - apply Qle_shift_div_l; [reflexivity|].
      assert (E : Qlist_min times / 1000 * 1000 == Qlist_min times) by field.
      rewrite E. exact (proj1 Hmean).
    - apply Qle_shift_div_r; [reflexivity|].
      eapply Qle_trans; [exact (proj2 Hmean)|]. discriminate. }
  assert (Hs : tb / Qmax (mean (map (fun kv : string * SectorWeight => combined_weight (snd kv))
                                  uniform_weights)) 0.1 == 3 * tb).
  { assert (Hw : Qmax (mean (map (fun kv : string * SectorWeight => combined_weight (snd kv))
                               uniform_weights)) 0.1 == 1 / 3) by reflexivity.
    rewrite Hw. field. }
  eexists. exists tb, avg. eexists.
  split; [reflexivity|].
  split; [eexists; split; [reflexivity | reflexivity]|].
  split; [eexists; split; [reflexivity | reflexivity]|].
  split; [eexists; split; [reflexivity | reflexivity]|].
  split; [exact Htb|]. split; [exact (proj1 Havg)|]. split; [exact (proj2 Havg)|].
  split.
  - rewrite Hs. reflexivity.
  - rewrite Hs. destruct Havg as [Ha Hb]. lra.
Qed.

(** X18: a computed result counts the valid laps in [total_laps_analyzed]
    and grades its confidence by them: "Low" under 15 valid laps, "Medium"
    from 15 to 29, and from 30 on "High", except that a sector table with
    rows and exactly one of the three sector columns (a single sector
    weight) keeps it at "Medium". *)
Theorem X18_confidence_level (now : string) (driver_data : DataFrame)
    (sector_data : option DataFrame) (telemetry_data : option Telemetry) :
  df_wf driver_data ->
  forallb (col_in driver_data) required_columns = true ->
  (5 <= valid_lap_count driver_data)%nat ->
  exists (r : dict) (level : string),
    calculate_siwtl pd_std np_std self now driver_data sector_data telemetry_data
    = Returns r
    /\ dict_get "total_laps_analyzed" r = Some (PInt (valid_lap_count driver_data))
    /\ dict_get "confidence_level" r = Some (PStr level)
    /\ ((valid_lap_count driver_data < 15)%nat -> level = "Low"%string)
    /\ ((15 <= valid_lap_count driver_data < 30)%nat -> level = "Medium"%string)
    /\ ((30 <= valid_lap_count driver_data)%nat ->
        level = if one_sector_column sector_data then "Medium"%string
                else "High"%string).
Proof.
  intros Hwf Hreq H5.
  pose proof (required_columns_lap_time _ Hreq) as Hcol.
  unfold calculate_siwtl. rewrite Hreq. simpl negb. cbv iota.
  rewrite (valid_laps_len _ Hwf Hcol).
  destruct (Nat.ltb_spec (valid_lap_count driver_data) 5) as [Hlt | _]; [lia|].
  set (valid_laps := df_select driver_data _).
  set (tb := _calculate_theoretical_best valid_laps sector_data).
  set (ws := _calculate_sector_weights pd_std np_std self valid_laps sector_data
               telemetry_data).
  unfold _compute_siwtl.
  destruct (match tb_sector_bests tb with
            | [] => _
            | _ :: _ => _
            end) as [siwtl_sectors siwtl_lap].
  assert (Hlen : df_len valid_laps = valid_lap_count driver_data)
    by exact (valid_laps_len _ Hwf Hcol).
  eexists. eexists.
  split; [reflexivity|].
  split; [rewrite <- Hlen; reflexivity|].
  split; [reflexivity|].
  unfold _calculate_confidence_level.
  rewrite Hlen. unfold ws. rewrite sector_weights_length.
  split; [|split].
  - intro H.
    destruct (Nat.leb_spec 30 (valid_lap_count driver_data)) as [H30 | _]; [lia|].
    destruct (Nat.leb_spec 15 (valid_lap_count driver_data)) as [H15 | _]; [lia|].
    reflexivity.
  - intro H.
    destruct (Nat.leb_spec 30 (valid_lap_count driver_data)) as [H30 | _]; [lia|].
    destruct (Nat.leb_spec 15 (valid_lap_count driver_data)) as [_ | H15]; [|lia].
    reflexivity.
  - intro H.
    destruct (Nat.leb_spec 30 (valid_lap_count driver_data)) as [_ | H30]; [|lia].
    destruct (Nat.leb_spec 15 (valid_lap_count driver_data)) as [_ | H15]; [|lia].
    destruct (one_sector_column sector_data); reflexivity.
Qed.

End SIWTL_results.

Section SIWTL_driver.

Import SIWTL.

Variable pd_std : list Q -> Q.
Variable np_std : list Q -> Q.
Variable calculator : SIWTLCalculator.

(** X17: what [calculate_driver_siwtl] hands to its callers.  On a lap table
    without [lap_number] or [lap_time_ms] it raises the [ValueError] of
    [calculate_siwtl]; otherwise it returns a dictionary whose last key is
    [vehicle_id], holding the given id, after the seven keys of the
    insufficient-data result (fewer than 5 valid laps) or the twelve keys of
    a computed result; no key occurs twice. *)
Theorem X17_driver_siwtl_schema (now vehicle_id : string) (lap_data : DataFrame)
    (sector_data : option DataFrame) (telemetry_data : option Telemetry) :
  df_wf lap_data ->
  match calculate_driver_siwtl pd_std np_std calculator now vehicle_id lap_data
          sector_data telemetry_data with
  | Raises e =>
      forallb (col_in lap_data) required_columns = false
      /\ e = ValueError "Driver data must contain: ['lap_number', 'lap_time_ms']"
  | Returns r =>
      forallb (col_in lap_data) required_columns = true
      /\ dict_get "vehicle_id" r = Some (PStr vehicle_id)
      /\ NoDup (map fst r)
      /\ map fst r
         = (if (valid_lap_count lap_data <? 5)%nat then insufficient_keys
            else computed_keys) ++ ["vehicle_id"%string]
  end.
Proof.
  intro Hwf. unfold calculate_driver_siwtl, calculate_siwtl.
  destruct (forallb (col_in lap_data) required_columns) eqn:Hreq; cbn [negb].
  - pose proof (required_columns_lap_time _ Hreq) as Hcol.
    rewrite (valid_laps_len _ Hwf Hcol).
    destruct (valid_lap_count lap_data <? 5)%nat.
    + split; [reflexivity|]. split; [reflexivity|].
      split; [|reflexivity].
      cbn. repeat (apply NoDup_cons; [simpl; intuition discriminate|]). apply NoDup_nil.
    + unfold _compute_siwtl.
      destruct (match tb_sector_bests _ with
                | [] => _
                | _ :: _ => _
                end) as [siwtl_sectors siwtl_lap].
      split; [reflexivity|]. split; [reflexivity|].
      split; [|reflexivity].
      cbn [dict_update fold_left fst snd dict_set map String.eqb Ascii.eqb Bool.eqb].
      repeat (apply NoDup_cons; [simpl; intuition discriminate|]). apply NoDup_nil.
  - split; reflexivity.
Qed.

End SIWTL_driver.

(** ** The sector analysis of a sector-based run *)

Lemma dict_set_fresh {A : Type} (k : string) (v : A) (d : list (string * A)) :
  ~ In k (map fst d) -> dict_set k v d = d ++ [(k, v)].
Proof.
  induction d as [|[k0 v0] d IH]; intro H; simpl; [reflexivity|].
  destruct (String.eqb_spec k k0) as [-> | _].
  - exfalso. apply H. left. reflexivity.
  - rewrite IH; [reflexivity|]. intro Hin. apply H. right. exact Hin.
Qed.

Lemma sector_loop_entries (ws : list (string * SIWTL.SectorWeight))
    (bests : list (string * Q)) :
  forall acc t,
    NoDup (map fst acc ++ map fst bests) ->
    fst (fold_left (SIWTL.sector_step ws) bests (acc, t)) = acc ++ sector_entries ws bests
    /\ snd (fold_left (SIWTL.sector_step ws) bests (acc, t))
       == t + Qsum (map (fun ka => SIWTL.realistic_time (snd ka)) (sector_entries ws bests)).
Proof.
  induction bests as [|[k b] bests IH]; intros acc t Hnd.
  - cbn [fold_left fst snd sector_entries flat_map map]. rewrite app_nil_r.
    split; [reflexivity|]. unfold Qsum. cbn [fold_left]. lra.
  - cbn [fold_left]. unfold SIWTL.sector_step at 2 4.
    unfold sector_entries. cbn [flat_map fst snd]. fold (sector_entries ws bests).
    cbn [map] in Hnd.
    pose proof (NoDup_remove_1 _ _ _ Hnd) as Hrest.
    pose proof (NoDup_remove_2 _ _ _ Hnd) as Hfresh.
    destruct (dict_get k ws) as [w|].
    + rewrite dict_set_fresh
        by (intro Hin; apply Hfresh; apply in_or_app; left; exact Hin).
      set (e := {| SIWTL.best_time := b;
                   SIWTL.achievability_weight := SIWTL.combined_weight w;
                   SIWTL.realistic_time := b / Qmax (SIWTL.combined_weight w) 0.1 |}).
      destruct (IH (acc ++ [(k, e)]) (t + b / Qmax (SIWTL.combined_weight w) 0.1))
        as [Hf Hs].
      { rewrite map_app. cbn [map fst]. rewrite <- app_assoc. exact Hnd. }
      split.
      * rewrite Hf. rewrite <- app_assoc. reflexivity.
      * eapply Qeq_trans; [exact Hs|].
        cbn [app map snd]. rewrite Qsum_cons. cbn [SIWTL.realistic_time e]. ring.
    + cbn [app]. apply IH. exact Hrest.
Qed.

Section SIWTL_sector_analysis.

Import SIWTL.

(** X21: in a sector-based run, [sector_analysis] has one entry for each
    best sector time whose key has a weight, in order, holding the best
    time, the combined weight and the best time over max(weight, 0.1); and
    [siwtl_lap] is the sum of the realistic times of these entries.  A best
    sector time whose key has no weight appears in neither.  (The keys of a
    dictionary are distinct.) *)
Theorem X21_sector_analysis (tb : TheoreticalBest)
    (ws : list (string * SectorWeight)) (vl : DataFrame) :
  NoDup (map fst (tb_sector_bests tb)) ->
  tb_sector_bests tb <> [] ->
  let entries := sector_entries ws (tb_sector_bests tb) in
  dict_get "sector_analysis" (_compute_siwtl tb ws vl)
  = Some (pydict_of analysis_to_py entries)
  /\ has_number (_compute_siwtl tb ws vl) "siwtl_lap"
       (Qsum (map (fun ka => realistic_time (snd ka)) entries))
  /\ map fst entries = filter (fun k => dict_mem k ws) (map fst (tb_sector_bests tb)).
Proof.
  intros Hnd Hne. cbv zeta.
  destruct (sector_loop_entries ws (tb_sector_bests tb) [] 0) as [Hf Hs];
    [exact Hnd|].
  cbn [app] in Hf.
  unfold _compute_siwtl.
  destruct (tb_sector_bests tb) as [|kb bests] eqn:Eb; [congruence|].
  unfold siwtl_sector_loop.
  destruct (fold_left (sector_step ws) (kb :: bests) ([], 0)) as [sects lap].
  cbn [fst snd] in Hf, Hs. subst sects.
  split; [reflexivity|].
  split.
  - eexists. split; [reflexivity|]. rewrite Hs. ring.
  - clear. generalize (kb :: bests). intro l.
    induction l as [|[k b] l IH]; [reflexivity|].
    unfold sector_entries. cbn [flat_map map filter fst snd].
    fold (sector_entries ws l). unfold dict_mem at 1.
    destruct (dict_get k ws); cbn [app map fst]; rewrite IH; reflexivity.
Qed.

End SIWTL_sector_analysis.

(* ================================================================== *)
(** * Further properties of the reports and of the shared instances *)
(* ================================================================== *)

Lemma summary_recommendation_not_empty_message (l : list DPTAD.Anomaly) :
  l <> [] ->
  DPTAD._generate_summary_recommendation l
  <> "No anomalies detected. Performance is consistent."%string.
Proof.
  intro Hne. unfold DPTAD._generate_summary_recommendation.
  destruct l as [|a l]; [congruence|].
  cbv zeta.
  destruct (String.eqb _ "driver_mistake").
  - destruct (Qlt_bool 7 _); [cbn [append]; discriminate|].
    destruct (Qlt_bool 4 _); cbn [append]; discriminate.
  - destruct (String.eqb _ "degradation").
    + destruct (Qlt_bool 6 _); cbn [append]; discriminate.
    + destruct (String.eqb _ "compound"); [cbn [append]; discriminate | discriminate].
Qed.

Section DPTAD_report.

Variable butter : nat -> list Q -> DPTAD.btype -> outcome (list Q * list Q).
Variable filtfilt : list Q -> list Q -> list Q -> outcome (list Q).
Variable np_std : list Q -> Q.
Variable detector : DPTAD.DPTADDetector.

(** X19: the report of [analyze_driver_anomalies] is consistent: it carries
    the given vehicle id; [total_anomalies] of its summary is the number of
    anomalies it lists; its recommendation is "No anomalies detected.
    Performance is consistent." exactly when it lists no anomaly; and it
    lists none when no telemetry is given or the telemetry holds none of
    the columns speed, throttle, brake, steering_angle. *)
Theorem X19_driver_report (now vehicle : string) (telemetry_data : option Telemetry) :
  let report := DPTAD.analyze_driver_anomalies butter filtfilt np_std detector now
                  vehicle telemetry_data in
  DPTAD.vehicle_id report = vehicle
  /\ dict_get "total_anomalies" (DPTAD.summary report)
     = Some (PInt (length (DPTAD.anomalies report)))
  /\ (DPTAD.anomalies report = [] <->
      dict_get "recommendation" (DPTAD.summary report)
      = Some (PStr "No anomalies detected. Performance is consistent."))
  /\ ((forall t, telemetry_data = Some t ->
         forall g, In g DPTAD.default_signals -> dict_get g t = None) ->
      DPTAD.anomalies report = []).
Proof.
  cbv zeta. unfold DPTAD.analyze_driver_anomalies.
  cbn [DPTAD.vehicle_id DPTAD.summary DPTAD.anomalies].
  set (l := DPTAD.detect_anomalies butter filtfilt np_std detector telemetry_data None).
  split; [reflexivity|].
  split; [destruct l; reflexivity|].
  split.
  - split.
    + intros ->. reflexivity.
    + intro H. destruct l as [|a l']; [reflexivity|].
      exfalso. cbn in H. injection H as H.
      exact (summary_recommendation_not_empty_message (a :: l') ltac:(discriminate) H).
  - intro Hnone. unfold l, DPTAD.detect_anomalies.
    destruct telemetry_data as [t|]; [|reflexivity].
    destruct (telemetry_len t =? 0)%nat; [reflexivity|].
    rewrite flat_map_all_nil; [reflexivity|].
    intros g Hg. unfold DPTAD.analyze_signal.
    rewrite (Hnone t eq_refl g Hg). reflexivity.
Qed.

End DPTAD_report.

Section Singleton_bounds.

Import Singleton.

Lemma count_set_nth (f : pc -> bool) (q : pc) (l : list pc) :
  forall i p, nth_error l i = Some p ->
    (length (filter f (set_nth i q l)) + (if f p then 1 else 0)
     = length (filter f l) + (if f q then 1 else 0))%nat.
Proof.
  induction l as [|x l IH]; intros i p H; destruct i as [|i]; simpl in H;
    try discriminate.
  - injection H as ->. simpl. destruct (f p), (f q); simpl; lia.
  - simpl. specialize (IH i p H). destruct (f x); simpl; lia.
Qed.

Lemma step_keeps_bounded (s s' : state) :
  step s s' -> bounded s -> bounded s' /\ length (threads s') = length (threads s).
Proof.
  intros [i s0 s1 Hstep] [Hc Hd]. unfold step_thread in Hstep. unfold bounded.
  destruct (nth_error (threads s0) i) as [p|] eqn:Ep; [|discriminate].
  assert (Hcount : forall q,
            (length (filter may_construct (set_nth i q (threads s0)))
             + (if may_construct p then 1 else 0)
             = length (filter may_construct (threads s0))
               + (if may_construct q then 1 else 0))%nat).
  { intro q. apply count_set_nth. exact Ep. }
  assert (Hdone : forall (q : pc) (g : option nat),
            (forall o, q = done o -> g <> None) ->
            (global s0 <> None -> g <> None) ->
            (exists o, In (done o) (set_nth i q (threads s0))) -> g <> None).
  { intros q g Hq Hg [o Ho]. apply set_nth_In in Ho. destruct Ho as [E | Ho].
    - exact (Hq o (eq_sym E)).
    - apply Hg. apply Hd. exists o. exact Ho. }
  destruct p as [| |o|o| |o].
  - destruct (global s0) as [g|] eqn:Eg; injection Hstep as <-;
      cbn [heap threads global]; rewrite set_nth_length.
    + specialize (Hcount at_return). cbn [may_construct] in Hcount.
      split; [split|reflexivity]; [lia|].
      apply Hdone; [intros o E; discriminate E | intros _; discriminate].
    + specialize (Hcount at_construct). cbn [may_construct] in Hcount.
      split; [split|reflexivity]; [lia|].
      apply Hdone; [intros o E; discriminate E|].
      intro H. exfalso. apply H. reflexivity.
  - injection Hstep as <-. cbn [heap threads global]. rewrite set_nth_length.
    specialize (Hcount (at_init (length (heap s0)))). cbn [may_construct] in Hcount.
    split; [split|reflexivity]; [rewrite length_app; cbn [length]; lia|].
    apply Hdone; [intros o E; discriminate E | tauto].
  - injection Hstep as <-. cbn [heap threads global]. rewrite !set_nth_length.
    specialize (Hcount (at_store o)). cbn [may_construct] in Hcount.
    split; [split|reflexivity]; [lia|].
    apply Hdone; [intros o' E; discriminate E | tauto].
  - injection Hstep as <-. cbn [heap threads global]. rewrite set_nth_length.
    specialize (Hcount at_return). cbn [may_construct] in Hcount.
    split; [split|reflexivity]; [lia|].
    intros _. discriminate.
  - destruct (global s0) as [g|] eqn:Eg; [|discriminate].
    injection Hstep as <-. cbn [heap threads global]. rewrite set_nth_length.
    specialize (Hcount (done g)). cbn [may_construct] in Hcount.
    split; [split|reflexivity]; [lia|].
    intros _. discriminate.
  - discriminate.
Qed.

Lemma steps_keep_bounded (s s' : state) :
  steps s s' -> bounded s -> bounded s' /\ length (threads s') = length (threads s).
Proof.
  induction 1 as [s | s s1 s2 Hstep _ IH]; intro Hb; [split; [exact Hb | reflexivity]|].
  destruct (step_keeps_bounded _ _ Hstep Hb) as [Hb1 Hl1].
  destruct (IH Hb1) as [Hb2 Hl2]. split; [exact Hb2 | congruence].
Qed.

(** X20: under any interleaving of [n] callers of a getter, no more than
    [n] instances are ever constructed; an instance returned to a caller is
    one of those constructed; and once a caller has returned, the global
    holds an instance. *)
Theorem X20_constructions_bounded (n : nat) (s : state) :
  steps (initial n) s ->
  (constructions s <= n)%nat
  /\ (forall o, In o (returned s) -> (o < constructions s)%nat)
  /\ (returned s <> [] -> global s <> None).
Proof.
  intro Hs.
  assert (Hinit : bounded (initial n)).
  { split.
    - cbn [initial heap threads length]. rewrite repeat_length.
      assert (E : filter may_construct (repeat at_check n) = repeat at_check n).
      { clear. induction n as [|m IH]; simpl; [reflexivity | rewrite IH; reflexivity]. }
      rewrite E, repeat_length. lia.
    - intros [o Ho]. cbn [initial threads] in Ho. apply repeat_spec in Ho. discriminate Ho. }
  destruct (steps_keep_bounded _ _ Hs Hinit) as [[Hc Hd] Hl].
  cbn [initial threads] in Hl. rewrite repeat_length in Hl.
  destruct (steps_keep_invariant _ _ Hs (initial_invariant n)) as [_ Ht].
  unfold constructions.
  split; [lia|]. split.
  - intros o Ho. unfold returned in Ho. apply in_flat_map in Ho.
    destruct Ho as [p [Hp Ho]]. specialize (Ht p Hp).
    destruct p as [| |obj|obj| |obj]; try (destruct Ho; fail). destruct Ho as [<- | []].
    unfold initialised in Ht.
    destruct (Nat.lt_ge_cases obj (length (heap s))) as [Hlt | Hge]; [exact Hlt|].
    rewrite nth_overflow in Ht by exact Hge. discriminate Ht.
  - intro Hne. apply Hd. unfold returned in Hne.
    destruct (flat_map _ (threads s)) as [|o rest] eqn:E; [congruence|].
    assert (Ho : In o (flat_map (fun p => match p with done o => [o] | _ => [] end)
                         (threads s))) by (rewrite E; left; reflexivity).
    apply in_flat_map in Ho. destruct Ho as [p [Hp Ho]].
    destruct p as [| |obj|obj| |obj]; try (destruct Ho; fail). destruct Ho as [<- | []].
    exists obj. exact Hp.
Qed.

End Singleton_bounds.

(** ** The cleaning of a response *)

Lemma clean_nans_idempotent (x : API.json) :
  API.clean_nans (API.clean_nans x) = API.clean_nans x.
Proof.
  induction x using json_induction; try reflexivity.
  - cbn [API.clean_nans].
    destruct (PrimFloat.is_nan f || PrimFloat.is_infinity f) eqn:E;
      cbn [API.clean_nans]; [reflexivity | rewrite E; reflexivity].
  - cbn [API.clean_nans]. f_equal. rewrite map_map.
    induction H as [|y l Hy _ IH]; [reflexivity|].
    cbn [map]. rewrite Hy, IH. reflexivity.
  - cbn [API.clean_nans]. f_equal. rewrite map_map.
    induction H as [|[k v] d Hv _ IH]; [reflexivity|].
    cbn [map snd] in *. rewrite Hv, IH. reflexivity.
Qed.

Lemma clean_nans_finite (x : API.json) : all_finite (API.clean_nans x) = true.
Proof.
  induction x using json_induction; try reflexivity.
  - cbn [API.clean_nans].
    destruct (PrimFloat.is_nan f || PrimFloat.is_infinity f) eqn:E; [reflexivity|].
    cbn [all_finite]. unfold PrimFloat.is_finite. rewrite E. reflexivity.
  - cbn [API.clean_nans all_finite].
    induction H as [|y l Hy _ IH]; [reflexivity|].
    cbn [map forallb]. rewrite Hy, IH. reflexivity.
  - cbn [API.clean_nans all_finite].
    induction H as [|[k v] d Hv _ IH]; [reflexivity|].
    cbn [map forallb snd] in *. rewrite Hv, IH. reflexivity.
Qed.

Lemma clean_nans_fixes_finite (x : API.json) :
  all_finite x = true -> API.clean_nans x = x.
Proof.
  induction x using json_induction; try reflexivity.
  - cbn [all_finite API.clean_nans]. unfold PrimFloat.is_finite.
    destruct (PrimFloat.is_nan f || PrimFloat.is_infinity f); [discriminate | reflexivity].
  - cbn [all_finite API.clean_nans]. intro Hall. f_equal.
    induction H as [|y l Hy _ IH]; [reflexivity|].
    cbn [forallb] in Hall. apply andb_prop in Hall. destruct Hall as [H1 H2].
    cbn [map]. rewrite (Hy H1), (IH H2). reflexivity.
  - cbn [all_finite API.clean_nans]. intro Hall. f_equal.
    induction H as [|[k v] d Hv _ IH]; [reflexivity|].
    cbn [forallb snd] in *. apply andb_prop in Hall. destruct Hall as [H1 H2].
    cbn [map]. rewrite (Hv H1), (IH H2). reflexivity.
Qed.

Lemma clean_nans_shape (x : API.json) : same_shape x (API.clean_nans x).
Proof.
  induction x using json_induction; try reflexivity.
  - cbn [API.clean_nans]. unfold same_shape, PrimFloat.is_finite.
    destruct (PrimFloat.is_nan f || PrimFloat.is_infinity f);
      [reflexivity | split; reflexivity].
  - cbn [API.clean_nans same_shape].
    induction H as [|y l Hy _ IH]; [exact I|].
    cbn [map]. split; [exact Hy | exact IH].
  - cbn [API.clean_nans same_shape].
    induction H as [|[k v] d Hv _ IH]; [exact I|].
    cbn [map snd] in *. split; [reflexivity|]. split; [exact Hv | exact IH].
Qed.

(** X22: [clean_nans] leaves no NaN and no infinite float in a response:
    every float of its result is finite.  It keeps the shape of the
    response (the same keys in the same order, lists of the same length,
    every value but a NaN or infinite float, which becomes [None]); it
    returns a response whose floats are all finite unchanged, and so
    cleaning twice is cleaning once. *)
Theorem X22_clean_nans (x : API.json) :
  all_finite (API.clean_nans x) = true
  /\ same_shape x (API.clean_nans x)
  /\ (all_finite x = true -> API.clean_nans x = x)
  /\ API.clean_nans (API.clean_nans x) = API.clean_nans x.
Proof.
  split; [apply clean_nans_finite|].
  split; [apply clean_nans_shape|].
  split; [apply clean_nans_fixes_finite | apply clean_nans_idempotent].
Qed.

(* ================================================================== *)
(** ** The further properties on examples *)
(* ================================================================== *)


(** X6 on the two sample anomalies. *)
Lemma X6_sample_anomalies_witness :
  sample_anomalies <> []
  /\ Forall classified sample_anomalies
  /\ exists g,
       In g (map DPTAD.signal sample_anomalies)
       /\ In (DPTAD._generate_summary_recommendation sample_anomalies)
            (summary_templates g).
Proof.
  assert (Hne : sample_anomalies <> []) by discriminate.
  assert (Hcl : Forall classified sample_anomalies).
  { repeat constructor; unfold classified; simpl; tauto. }
  split; [exact Hne|]. split; [exact Hcl|].
  destruct (X6_summary_recommendation sample_anomalies Hne Hcl)
    as [g [Hg [_ [Hrec _]]]].
  exists g. split; [exact Hg | exact Hrec].
Defined.

(** X9 on a signal of 30 samples. *)
Lemma X9_short_signal_witness :
  keeps_length pass_filtfilt
  /\ (length (repeat 50 30) < 50)%nat
  /\ DPTAD._slow_path_analysis pass_butter pass_filtfilt unit_std DPTAD.default_detector
       (repeat 50 30) [] "speed" = [].
Proof.
  assert (Hkeep : keeps_length pass_filtfilt).
  { intros b a x y H. injection H as <-. reflexivity. }
  assert (Hlen : (length (repeat 50 30) < 50)%nat) by (vm_compute; lia).
  split; [exact Hkeep|]. split; [exact Hlen|].
  exact (X9_slow_path_short_signal pass_butter pass_filtfilt unit_std
           DPTAD.default_detector (repeat 50 30) [] "speed" Hkeep Hlen).
Defined.





(** X16 on the sample lap table, without sector table. *)
Lemma X16_sample_laps_witness :
  df_wf sample_laps
  /\ valid_lap_count sample_laps = 5%nat
  /\ exists (r : dict) (gain : Q),
       SIWTL.calculate_siwtl unit_std unit_std SIWTL.default_calculator
         "2025-01-01T10:00:00" sample_laps None None = Returns r
       /\ has_number r "potential_gain_sec" gain
       /\ gain <= - (160).
Proof.
  assert (Hwf : df_wf sample_laps) by (repeat constructor).
  split; [exact Hwf|]. split; [reflexivity|].
  destruct (X16_no_sector_table_gain unit_std unit_std SIWTL.default_calculator
              "2025-01-01T10:00:00" sample_laps None None Hwf eq_refl)
    as [r [tb [avg [gain [Hr [_ [_ [Hg [_ [_ [_ [_ Hle]]]]]]]]]]]].
  - vm_compute. lia.
  - exact I.
  - exists r, gain. split; [exact Hr|]. split; [exact Hg | exact Hle].
Defined.

(** X17 on the sample lap table. *)
Lemma X17_sample_laps_witness :
  df_wf sample_laps
  /\ match SIWTL.calculate_driver_siwtl unit_std unit_std SIWTL.default_calculator
             "2025-01-01T10:00:00" "GR86-002-2" sample_laps None None with
     | Raises _ => False
     | Returns r => dict_get "vehicle_id" r = Some (PStr "GR86-002-2")
     end.
Proof.
  assert (Hwf : df_wf sample_laps) by (repeat constructor).
  split; [exact Hwf|].
  pose proof (X17_driver_siwtl_schema unit_std unit_std SIWTL.default_calculator
                "2025-01-01T10:00:00" "GR86-002-2" sample_laps None None Hwf) as H.
  destruct (SIWTL.calculate_driver_siwtl unit_std unit_std SIWTL.default_calculator
              "2025-01-01T10:00:00" "GR86-002-2" sample_laps None None) as [e | r].
  - destruct H as [H _]. vm_compute in H. discriminate H.
  - exact (proj1 (proj2 H)).
Defined.

(** X18 on the sample lap table: five valid laps give "Low". *)
Lemma X18_sample_laps_witness :
  df_wf sample_laps
  /\ valid_lap_count sample_laps = 5%nat
  /\ exists r,
       SIWTL.calculate_siwtl unit_std unit_std SIWTL.default_calculator
         "2025-01-01T10:00:00" sample_laps (Some sample_sectors) None = Returns r
       /\ dict_get "total_laps_analyzed" r = Some (PInt 5)
       /\ dict_get "confidence_level" r = Some (PStr "Low").
Proof.
  assert (Hwf : df_wf sample_laps) by (repeat constructor).
  split; [exact Hwf|]. split; [reflexivity|].
  destruct (X18_confidence_level unit_std unit_std SIWTL.default_calculator
              "2025-01-01T10:00:00" sample_laps (Some sample_sectors) None Hwf eq_refl)
    as [r [level [Hr [Htotal [Hlevel [Hlow _]]]]]].
  - vm_compute. lia.
  - exists r. split; [exact Hr|]. split; [exact Htotal|].
    rewrite Hlevel. rewrite Hlow; [reflexivity|]. vm_compute. lia.
Defined.

(** X20 on two racing callers. *)
Lemma X20_two_callers_witness :
  let s := Singleton.run [0; 1; 0; 0; 0; 0; 1; 1; 1; 1]%nat (Singleton.initial 2) in
  Singleton.steps (Singleton.initial 2) s
  /\ (Singleton.constructions s <= 2)%nat
  /\ Singleton.global s <> None.
Proof.
  cbv zeta.
  assert (Hs : Singleton.steps (Singleton.initial 2)
                 (Singleton.run [0; 1; 0; 0; 0; 0; 1; 1; 1; 1]%nat (Singleton.initial 2)))
    by apply run_steps.
  split; [exact Hs|].
  destruct (X20_constructions_bounded 2 _ Hs) as [Hc [_ Hg]].
  split; [exact Hc|]. apply Hg. vm_compute. discriminate.
Defined.

(** X21 on the sample sector table without the column [sector_1_time]. *)
Lemma X21_sample_sectors_witness :
  let tb := SIWTL._calculate_theoretical_best sample_laps (Some sample_sectors_2_3) in
  let ws := SIWTL._calculate_sector_weights unit_std unit_std SIWTL.default_calculator
              sample_laps (Some sample_sectors_2_3) None in
  NoDup (map fst (SIWTL.tb_sector_bests tb))
  /\ SIWTL.tb_sector_bests tb <> []
  /\ map fst (sector_entries ws (SIWTL.tb_sector_bests tb))
     = filter (fun k => dict_mem k ws) (map fst (SIWTL.tb_sector_bests tb)).
Proof.
  cbv zeta.
  assert (Hnd : NoDup (map fst (SIWTL.tb_sector_bests
                                  (SIWTL._calculate_theoretical_best sample_laps
                                     (Some sample_sectors_2_3))))).
  { vm_compute. repeat (apply NoDup_cons; [simpl; intuition discriminate|]).
    apply NoDup_nil. }
  assert (Hne : SIWTL.tb_sector_bests
                  (SIWTL._calculate_theoretical_best sample_laps
                     (Some sample_sectors_2_3)) <> []).
  { vm_compute. discriminate. }
  split; [exact Hnd|]. split; [exact Hne|].
  exact (proj2 (proj2 (X21_sector_analysis _
                         (SIWTL._calculate_sector_weights unit_std unit_std
                            SIWTL.default_calculator sample_laps
                            (Some sample_sectors_2_3) None)
                         sample_laps Hnd Hne))).
Defined.

(* ================================================================== *)
(** ** Laps outside the valid range *)
(* ================================================================== *)

Lemma mask_refilter {A : Type} (p : Q -> bool) (cells : list (option Q)) :
  forall l : list A,
    length l = length cells ->
    mask_filter (map (cell_test p) (mask_filter (map (cell_test p) cells) cells))
      (mask_filter (map (cell_test p) cells) l)
    = mask_filter (map (cell_test p) cells) l.
Proof.
  induction cells as [|c cells IH]; intros l Hlen.
  - destruct l; reflexivity.
  - destruct l as [|x l]; [discriminate|]. injection Hlen as Hlen.
    cbn [map mask_filter].
    destruct (cell_test p c) eqn:E.
    + cbn [map mask_filter]. rewrite E. rewrite (IH l Hlen). reflexivity.
    + exact (IH l Hlen).
Qed.

Lemma col_in_select (df : DataFrame) (m : list bool) (c : string) :
  col_in (df_select df m) c = col_in df c.
Proof.
  unfold col_in, dict_mem, df_select. cbn [df_columns].
  induction (df_columns df) as [|[k v] cols IH]; [reflexivity|].
  cbn [map dict_get fst snd]. destruct (String.eqb c k); [reflexivity | exact IH].
Qed.

Lemma valid_laps_idempotent (p : Q -> bool) (df : DataFrame) (c : string) :
  df_wf df -> col_in df c = true ->
  let kept := df_select df (map (cell_test p) (col_cells df c)) in
  df_select kept (map (cell_test p) (col_cells kept c)) = kept.
Proof.
  intros Hwf Hin. cbv zeta. rewrite col_cells_select.
  pose proof (col_cells_length df c Hwf Hin) as Hlen.
  set (cells := col_cells df c) in *.
  unfold df_select at 1 3. cbn [df_index df_columns]. f_equal.
  - unfold df_select. cbn [df_index]. apply mask_refilter. symmetry. exact Hlen.
  - unfold df_select. cbn [df_columns]. rewrite map_map. apply map_ext_in.
    intros [k v] Hkv. cbn [fst snd]. f_equal.
    apply mask_refilter.
    unfold df_wf in Hwf. rewrite Forall_forall in Hwf.
    pose proof (Hwf (k, v) Hkv) as Hv. cbn [snd] in Hv.
    rewrite Hv. symmetry. exact Hlen.
Qed.

Section SIWTL_valid_laps.

Import SIWTL.

Variable pd_std : list Q -> Q.
Variable np_std : list Q -> Q.
Variable self : SIWTLCalculator.

(** X23: the laps whose [lap_time_ms] lies outside [120000, 200000] have no
    influence on the outcome: [calculate_siwtl] on the lap table without
    these laps raises or returns exactly what it does on the whole lap
    table. *)
Theorem X23_invalid_laps_ignored (now : string) (driver_data : DataFrame)
    (sector_data : option DataFrame) (telemetry_data : option Telemetry) :
  df_wf driver_data ->
  let valid_laps :=
    df_select driver_data
      (map (cell_test valid_lap_time) (col_cells driver_data "lap_time_ms")) in
  calculate_siwtl pd_std np_std self now valid_laps sector_data telemetry_data
  = calculate_siwtl pd_std np_std self now driver_data sector_data telemetry_data.
Proof.
  intros Hwf. cbv zeta. unfold calculate_siwtl.
  assert (Hreq : forallb (col_in (df_select driver_data
                                    (map (cell_test valid_lap_time)
                                       (col_cells driver_data "lap_time_ms"))))
                   required_columns
                 = forallb (col_in driver_data) required_columns).
  { induction required_columns as [|c cols IH]; [reflexivity|].
    cbn [forallb]. rewrite col_in_select, IH. reflexivity. }
  rewrite Hreq.
  destruct (forallb (col_in driver_data) required_columns) eqn:E; [|reflexivity].
  cbn [negb].
  pose proof (required_columns_lap_time _ E) as Hcol.
  pose proof (valid_laps_idempotent valid_lap_time driver_data "lap_time_ms" Hwf Hcol)
    as Hidem.
  cbv zeta in Hidem. rewrite Hidem. reflexivity.
Qed.

End SIWTL_valid_laps.

(** X23 on the sample lap table, whose sixth lap is too slow. *)
Lemma X23_sample_laps_witness :
  df_wf sample_laps
  /\ df_len (df_select sample_laps
               (map (cell_test SIWTL.valid_lap_time)
                  (col_cells sample_laps "lap_time_ms"))) = 5%nat
  /\ SIWTL.calculate_siwtl unit_std unit_std SIWTL.default_calculator
       "2025-01-01T10:00:00"
       (df_select sample_laps
          (map (cell_test SIWTL.valid_lap_time) (col_cells sample_laps "lap_time_ms")))
       None None
     = SIWTL.calculate_siwtl unit_std unit_std SIWTL.default_calculator
         "2025-01-01T10:00:00" sample_laps None None.
Proof.
  assert (Hwf : df_wf sample_laps) by (repeat constructor).
  split; [exact Hwf|]. split; [reflexivity|].
  exact (X23_invalid_laps_ignored unit_std unit_std SIWTL.default_calculator
           "2025-01-01T10:00:00" sample_laps None None Hwf).
Defined.
